(** * The sync server of the study-notes application (server.js)

    A shallow embedding of the Express handlers of [src/server.js] and the
    properties of the REST contract that the specification states about them.

    - A request body, a stored entity and a response body are JavaScript
      values; an object is a finite map from property names to values.
    - [db.data] is the record [store].  A handler is a function from the
      store it reads ([await db.read()]) and the request to the store it
      leaves in [db.data] and what it answers ([res.status(..).json(..)]).
      Between two handlers the document goes through db.json: the next
      handler reads [written] of what the one before left, that is, what
      [JSON.parse] reads of what [JSON.stringify] wrote (JSON text carries no
      [NaN], infinity, [-0] or [undefined]).
    - A request body is an object: [express.json()] lets nothing else
      through, and an array reads as the object of its indices.
    - [nanoid()] and [new Date().toISOString()] are inputs of the handlers
      that call them.
    - Numbers are IEEE 754 binary64, as in JavaScript.
    - The browser's sync helpers (the client file) are the module [Client]:
      a helper is a function from [window.appData], [window.currentUser] and
      [localStorage] and what its [fetch] came to, to the same after the
      helper and how it ended. *)

From Stdlib Require Import ZArith String Ascii List Floats Lia.
From stdpp Require Import gmap strings list fin_maps pretty.

Set Warnings "-register-all".

(** ** JavaScript values *)

Inductive value : Type :=
| VUndefined
| VNull
| VBool (b : bool)
| VNum (x : float)
| VStr (s : string)
| VArr (l : list value)
| VObj (o : gmap string value).

(** An object: own data properties by name. *)
Abbreviation obj := (gmap string value).

(** [o.k]: a property the object does not have reads as [undefined]. *)
Definition get (o : obj) (k : string) : value := default VUndefined (o !! k).

(** [v.k] on any value: reading a property of [undefined] or [null] throws a
    TypeError ([None]); the primitives and the arrays of a JSON document have
    none of the property names the server reads. *)
Definition get_field (v : value) (k : string) : option value :=
  match v with
  | VUndefined | VNull => None
  | VObj o => Some (get o k)
  | VBool _ | VNum _ | VStr _ | VArr _ => Some VUndefined
  end.

(** ToBoolean: what [!v], [if (v)] and [v || d] test. *)
Definition truthy (v : value) : bool :=
  match v with
  | VUndefined | VNull => false
  | VBool b => b
  | VNum x => negb (PrimFloat.eqb x 0 || PrimFloat.is_nan x)
  | VStr s => negb (String.eqb s "")
  | VArr _ | VObj _ => true
  end.

(** [a === b] between a value of the store and a value of the request (every
    comparison of the server is one of those).  Arrays and objects compare by
    reference, and the two sides never are the same reference. *)
Definition strict_eq (a b : value) : bool :=
  match a, b with
  | VUndefined, VUndefined => true
  | VNull, VNull => true
  | VBool x, VBool y => Bool.eqb x y
  | VNum x, VNum y => PrimFloat.eqb x y
  | VStr x, VStr y => String.eqb x y
  | _, _ => false
  end.

(** [a || b] *)
Definition js_or (a b : value) : value := if truthy a then a else b.

(** ** JSON

    [JSON.parse(JSON.stringify(v))]; [None] when [JSON.stringify] gives no
    text ([undefined]).  A property that is [undefined] is left out, an
    element that is [undefined] becomes [null], as does a number that is not
    finite, and [-0] becomes [0]. *)
Definition json_number (x : float) : value :=
  if PrimFloat.is_finite x then (if PrimFloat.eqb x 0 then VNum 0 else VNum x) else VNull.

Fixpoint json (v : value) : option value :=
  match v with
  | VUndefined => None
  | VNull => Some VNull
  | VBool b => Some (VBool b)
  | VNum x => Some (json_number x)
  | VStr s => Some (VStr s)
  | VArr l => Some (VArr (List.map (fun e => default VNull (json e)) l))
  | VObj o => Some (VObj (omap json o))
  end.

Definition json_obj (o : obj) : obj := omap json o.

(** What a property reads as once it has been written and read again. *)
Definition read_back (v : value) : value := default VUndefined (json v).

(** The size of a value, to reason by induction on values. *)
Fixpoint size (v : value) : nat :=
  match v with
  | VArr l => S (list_sum (List.map size l))
  | VObj o => S (map_fold (fun _ x n => size x + n) 0 o)
  | _ => 1
  end.

(** ** Numbers and strings (ECMA-262: Number::toString, StringToNumber) *)

Module Number.

Local Open Scope Z_scope.

(** The double nearest to an integer (ties to even). *)
Definition of_Z (z : Z) : float := SF2Prim (binary_normalize prec emax z 0 false).

Definition of_nat (n : nat) : float := of_Z (Z.of_nat n).

(** The double nearest to [p / q], for [0 < p] and [0 < q]: the quotient to
    more than 64 bits and a sticky bit for what is left, then rounded. *)
Definition of_ratio (p q : Z) : float :=
  let k := Z.max 0 (Z.log2 q - Z.log2 p + 66) in
  let n := p * 2 ^ k in
  let sticky := if n mod q =? 0 then 0 else 1 in
  SF2Prim (binary_normalize prec emax (2 * (n / q) + sticky) (- k - 1) false).

(** The double nearest to [s * 10 ^ p], for [0 <= s]. *)
Definition of_decimal (s p : Z) : float :=
  if s =? 0 then PrimFloat.zero
  else if 0 <=? p then of_Z (s * 10 ^ p)
  else of_ratio s (10 ^ (- p)).

(** [num / den < 10 ^ j] *)
Definition below_pow10 (num den j : Z) : bool :=
  if 0 <=? j then num <? 10 ^ j * den else num * 10 ^ (- j) <? den.

(** The [d] with [10 ^ d <= num / den < 10 ^ (d + 1)], searched upwards. *)
Fixpoint exp10 (fuel : nat) (num den d : Z) : Z :=
  match fuel with
  | O => d
  | S fuel' => if below_pow10 num den (d + 1) then d else exp10 fuel' num den (d + 1)
  end.

(** [floor (num / den / 10 ^ p)] *)
Definition scaled_floor (num den p : Z) : Z :=
  if 0 <=? p then num / (den * 10 ^ p) else num * 10 ^ (- p) / den.

(** [2 * (num / den)] against [c * 10 ^ p] *)
Definition twice_compare (num den c p : Z) : comparison :=
  if 0 <=? p then (2 * num ?= c * 10 ^ p * den) else (2 * num * 10 ^ (- p) ?= c * den).

(** Number::toString step 5: the fewest digits [s], with a decimal exponent
    [p], for which [s * 10 ^ p] converts back to [x]; of two the one nearer
    to [x], and the even one on a tie.  [k] is the number of digits tried,
    [left] how many more are tried after it (17 always suffice). *)
Fixpoint shortest (left : nat) (x : float) (num den d k : Z) : Z * Z :=
  let p := d - k + 1 in
  let lo := scaled_floor num den p in
  let hi := lo + 1 in
  let up := if hi =? 10 ^ k then (10 ^ (k - 1), p + 1) else (hi, p) in
  let ok_lo := PrimFloat.eqb (of_decimal lo p) x in
  let ok_hi := PrimFloat.eqb (of_decimal hi p) x in
  match left with
  | O => (lo, p)
  | S left' =>
      if ok_lo && ok_hi then
        match twice_compare num den (lo + hi) p with
        | Lt => (lo, p)
        | Gt => up
        | Eq => if Z.even lo then (lo, p) else up
        end
      else if ok_lo then (lo, p)
      else if ok_hi then up
      else shortest left' x num den d (k + 1)
  end.

Definition zeros (n : Z) : string := String.concat "" (List.repeat "0"%string (Z.to_nat n)).

(** Number::toString steps 6 to 10, for the digits [s] and the position [n]
    of the decimal point after them. *)
Definition layout (s n : Z) : string :=
  let ds := pretty s in
  let len := String.length ds in
  let k := Z.of_nat len in
  let e := n - 1 in
  let sign_e : string := if 0 <=? e then "+"%string else "-"%string in
  let exponent := ("e" ++ sign_e ++ pretty (Z.abs e))%string in
  if (k <=? n) && (n <=? 21) then (ds ++ zeros (n - k))%string
  else if (0 <? n) && (n <=? 21) then
    (substring 0 (Z.to_nat n) ds ++ "." ++ substring (Z.to_nat n) (len - Z.to_nat n) ds)%string
  else if (-6 <? n) && (n <=? 0) then ("0." ++ zeros (- n) ++ ds)%string
  else if k =? 1 then (ds ++ exponent)%string
  else (substring 0 1 ds ++ "." ++ substring 1 (len - 1) ds ++ exponent)%string.

(** Number::toString(x), radix 10. *)
Definition to_string (x : float) : string :=
  match Prim2SF x with
  | S754_nan => "NaN"
  | S754_zero _ => "0"
  | S754_infinity sign => if sign then "-Infinity" else "Infinity"
  | S754_finite sign m e =>
      let num := if 0 <=? e then Z.pos m * 2 ^ e else Z.pos m in
      let den := if 0 <=? e then 1 else 2 ^ (- e) in
      let d := exp10 640 num den (-324) in
      let '(s, p) := shortest 17 (PrimFloat.abs x) num den d 1 in
      let minus : string := if sign then "-"%string else ""%string in
      (minus ++ layout s (p + Z.of_nat (String.length (pretty s))))%string
  end.

End Number.

Module Text.

Local Open Scope Z_scope.

Definition code (c : ascii) : Z := Z.of_nat (nat_of_ascii c).

Definition bytes (l : list nat) : string :=
  fold_right (fun n s => String (ascii_of_nat n) s) EmptyString l.

(** StrWhiteSpaceChar (WhiteSpace and LineTerminator), in UTF-8: TAB, LF, VT,
    FF, CR, SP, U+00A0, U+1680, U+2000 to U+200A, U+2028, U+2029, U+202F,
    U+205F, U+3000 and U+FEFF. *)
Definition white_space : list string :=
  List.map bytes
    ([[9]; [10]; [11]; [12]; [13]; [32]; [194; 160]; [225; 154; 128]]
     ++ List.map (fun n => [226; 128; n]) (seq 128 11)
     ++ [[226; 128; 168]; [226; 128; 169]; [226; 128; 175]; [226; 129; 159];
         [227; 128; 128]; [239; 187; 191]])%nat.

Fixpoint drop_prefix (t s : string) : option string :=
  match t, s with
  | EmptyString, _ => Some s
  | String a t', String b s' => if Ascii.eqb a b then drop_prefix t' s' else None
  | String _ _, EmptyString => None
  end.

Fixpoint drop_any (ts : list string) (s : string) : option string :=
  match ts with
  | [] => None
  | t :: ts' => match drop_prefix t s with Some r => Some r | None => drop_any ts' s end
  end.

Fixpoint trim_start (fuel : nat) (ts : list string) (s : string) : string :=
  match fuel with
  | O => s
  | S fuel' => match drop_any ts s with Some r => trim_start fuel' ts r | None => s end
  end.

Definition trim (s : string) : string :=
  let s1 := trim_start (String.length s) white_space s in
  String.rev (trim_start (String.length s1) (List.map String.rev white_space) (String.rev s1)).

Definition digit_value (base : Z) (c : ascii) : option Z :=
  let n := code c in
  let v := if (48 <=? n) && (n <=? 57) then n - 48
           else if (97 <=? n) && (n <=? 102) then n - 87
           else if (65 <=? n) && (n <=? 70) then n - 55
           else -1 in
  if (0 <=? v) && (v <? base) then Some v else None.

(** The value of a string of digits; [None] when a character is no digit. *)
Fixpoint digits (base acc : Z) (s : string) : option Z :=
  match s with
  | EmptyString => Some acc
  | String c r =>
      match digit_value base c with
      | Some v => digits base (acc * base + v) r
      | None => None
      end
  end.

Definition numeral (base : Z) (s : string) : option Z :=
  match s with EmptyString => None | _ => digits base 0 s end.

(** The longest prefix of decimal digits, and what follows it. *)
Fixpoint span_digits (s : string) : string * string :=
  match s with
  | EmptyString => (EmptyString, EmptyString)
  | String c r =>
      match digit_value 10 c with
      | Some _ => let '(d, rest) := span_digits r in (String c d, rest)
      | None => (EmptyString, s)
      end
  end.

Definition signed (s : string) : bool * string :=
  match s with
  | String "+" r => (false, r)
  | String "-" r => (true, r)
  | _ => (false, s)
  end.

(** ExponentPart, or nothing. *)
Definition exponent (s : string) : option Z :=
  match s with
  | EmptyString => Some 0
  | String c r =>
      if Ascii.eqb c "e" || Ascii.eqb c "E" then
        let '(neg, ds) := signed r in
        match numeral 10 ds with
        | Some x => Some (if neg then - x else x)
        | None => None
        end
      else None
  end.

(** StrUnsignedDecimalLiteral *)
Definition unsigned_decimal (u : string) : option float :=
  if String.eqb u "Infinity" then Some PrimFloat.infinity
  else
    let '(ip, r1) := span_digits u in
    let '(fp, r2) := match r1 with
                     | String "." r => span_digits r
                     | _ => (EmptyString, r1)
                     end in
    match ip, fp with
    | EmptyString, EmptyString => None
    | _, _ =>
        match digits 10 0 (ip ++ fp), exponent r2 with
        | Some d, Some x => Some (Number.of_decimal d (x - Z.of_nat (String.length fp)))
        | _, _ => None
        end
    end.

(** NonDecimalIntegerLiteral: 0x, 0o, 0b *)
Definition radix_literal (t : string) : option Z :=
  match t with
  | String "0" (String c r) =>
      if Ascii.eqb c "x" || Ascii.eqb c "X" then numeral 16 r
      else if Ascii.eqb c "o" || Ascii.eqb c "O" then numeral 8 r
      else if Ascii.eqb c "b" || Ascii.eqb c "B" then numeral 2 r
      else None
  | _ => None
  end.

(** StringToNumber(str) *)
Definition to_number (str : string) : float :=
  let t := trim str in
  match t with
  | EmptyString => PrimFloat.zero
  | _ =>
      match radix_literal t with
      | Some z => Number.of_Z z
      | None =>
          let '(neg, u) := signed t in
          match unsigned_decimal u with
          | Some x => if neg then PrimFloat.opp x else x
          | None => PrimFloat.nan
          end
      end
  end.

End Text.

(** ** Conversions and the operators [+] and [/] *)

(** ToString; [None] is a TypeError.  An array prints its elements joined by
    commas, [undefined] and [null] among them as nothing.  An object of a
    JSON document prints as "[object Object]", through
    [Object.prototype.toString], unless it has an own property [toString]:
    that one is no function, what [valueOf] gives is no primitive, and the
    conversion throws. *)
Fixpoint to_string (v : value) : option string :=
  match v with
  | VUndefined => Some "undefined"
  | VNull => Some "null"
  | VBool b => Some (if b then "true" else "false")
  | VNum x => Some (Number.to_string x)
  | VStr s => Some s
  | VArr l =>
      String.concat ","
      <$> mapM (fun e => match e with
                         | VUndefined | VNull => Some EmptyString
                         | _ => to_string e
                         end) l
  | VObj o =>
      match o !! "toString" with
      | Some _ => None
      | None => Some "[object Object]"
      end
  end.

(** ToPrimitive: arrays and plain objects convert through [toString]. *)
Definition to_primitive (v : value) : option value :=
  match v with
  | VArr _ | VObj _ => VStr <$> to_string v
  | _ => Some v
  end.

(** ToNumber *)
Definition to_number (v : value) : option float :=
  p ← to_primitive v;
  Some match p with
       | VUndefined => PrimFloat.nan
       | VNull => PrimFloat.zero
       | VBool b => if b then PrimFloat.one else PrimFloat.zero
       | VNum x => x
       | VStr s => Text.to_number s
       | VArr _ | VObj _ => PrimFloat.nan
       end.

(** [a + b]: both sides to primitives, left first; then concatenation as
    soon as one side is a string, else the sum. *)
Definition js_add (a b : value) : option value :=
  pa ← to_primitive a;
  pb ← to_primitive b;
  match pa, pb with
  | VStr s, _ => t ← to_string pb; Some (VStr (s ++ t))
  | _, VStr s => t ← to_string pa; Some (VStr (t ++ s))
  | _, _ => x ← to_number pa; y ← to_number pb; Some (VNum (PrimFloat.add x y))
  end.

(** [a / b] *)
Definition js_div (a b : value) : option float :=
  x ← to_number a; y ← to_number b; Some (PrimFloat.div x y).

(** ** The document and the answers *)

(** [db.data]: the collections hold objects. *)
Record store : Type := Store {
  courses : list obj;
  users : list obj;
  communityNotes : list obj;
  analytics : value;
}.

Definition with_courses (cs : list obj) (s : store) : store :=
  {| courses := cs; users := users s; communityNotes := communityNotes s; analytics := analytics s |}.

Definition with_users (us : list obj) (s : store) : store :=
  {| courses := courses s; users := us; communityNotes := communityNotes s; analytics := analytics s |}.

Definition with_notes (ns : list obj) (s : store) : store :=
  {| courses := courses s; users := users s; communityNotes := ns; analytics := analytics s |}.

(** What a handler does with the request: [res.status(n).json(body)]
    ([res.json(body)] answers 200), or an uncaught TypeError. *)
Inductive outcome : Type :=
| Respond (status : nat) (body : value)
| Throws.

(** An object literal. *)
Definition object (fields : list (string * value)) : obj := list_to_map fields.

(** [res.status(n).json({ error: msg })] *)
Definition error (status : nat) (msg : string) : outcome :=
  Respond status (VObj (object [("error", VStr msg)])).

(** [list.find(p)], with the position of what it finds. *)
Definition find_first {A : Type} (p : A -> bool) (l : list A) : option (nat * A) :=
  list_find (fun x => Is_true (p x)) l.

(** [x => x.id === id] and the like. *)
Definition has (k : string) (v : value) (o : obj) : bool := strict_eq (get o k) v.

(** ** The handlers *)

(** [initDb], from the document lowdb read ([None]: no file yet). *)
Definition default_courses : list obj :=
  [ object [("id", VStr "c1"); ("title", VStr "AP Calculus AB"); ("icon", VStr "📊");
            ("description", VStr "Master differential and integral calculus");
            ("notes", VStr "# AP Calculus AB

## Key Concepts
- Limits
- Derivatives

");
            ("links", VArr [VObj (object [("title", VStr "CollegeBoard");
                                          ("url", VStr "https://apstudents.collegeboard.org")])])];
    object [("id", VStr "c2"); ("title", VStr "AP Physics 1"); ("icon", VStr "⚡");
            ("description", VStr "Mechanics & waves");
            ("notes", VStr "# AP Physics 1

## Topics
- Kinematics
- Dynamics");
            ("links", VArr [])];
    object [("id", VStr "c3"); ("title", VStr "AP Chemistry"); ("icon", VStr "🧪");
            ("description", VStr "Chemistry principles");
            ("notes", VStr "# AP Chemistry

...");
            ("links", VArr [])] ].

Definition initDb (data : option store) : store :=
  let d := default {| courses := []; users := []; communityNotes := [];
                      analytics := VObj (object [("sessions", VArr [])]) |} data in
  match courses d with
  | [] => with_courses default_courses d
  | _ :: _ => d
  end.

(** [u => ({ id: u.id, name: u.name, email: u.email })] *)
Definition public_user (u : obj) : value :=
  VObj (object [("id", get u "id"); ("name", get u "name"); ("email", get u "email")]).

(** GET /api/data *)
Definition get_data (s : store) : store * outcome :=
  (s, Respond 200 (VObj (object [("courses", VArr (VObj <$> courses s));
                                 ("communityNotes", VArr (VObj <$> communityNotes s));
                                 ("users", VArr (public_user <$> users s));
                                 ("analytics", analytics s)]))).

(** POST /api/courses; [fresh] is what [nanoid()] returned. *)
Definition post_course (fresh : string) (s : store) (body : obj) : store * outcome :=
  let title := get body "title" in
  let icon := get body "icon" in
  let description := get body "description" in
  let notes := get body "notes" in
  if negb (truthy title) || negb (truthy description) then (s, error 400 "Missing title/description")
  else
    let course := object [("id", VStr fresh); ("title", title); ("icon", js_or icon (VStr "📘"));
                          ("description", description); ("notes", js_or notes (VStr ""));
                          ("links", VArr [])] in
    (with_courses (courses s ++ [course]) s, Respond 200 (VObj course)).

(** [Object.assign(target, source)]: each own property of the source is set
    on the target.  Setting [__proto__] on a target that has no own property
    of that name runs the setter of [Object.prototype]: it changes the
    prototype of the target (to an object or [null]) or does nothing, and
    adds no property.  [JSON.stringify], which is all that the handler does
    with the course afterwards, writes own properties only. *)
Definition assign (target source : obj) : obj :=
  match target !! "__proto__" with
  | Some _ => source ∪ target
  | None => delete "__proto__" source ∪ target
  end.

(** PUT /api/courses/:id *)
Definition put_course (s : store) (id : string) (body : obj) : store * outcome :=
  match find_first (has "id" (VStr id)) (courses s) with
  | None => (s, error 404 "Not found")
  | Some (i, course) =>
      let course' := assign course body in
      (with_courses (<[i := course']> (courses s)) s, Respond 200 (VObj course'))
  end.

(** GET /api/courses/:id *)
Definition get_course (s : store) (id : string) : store * outcome :=
  match find_first (has "id" (VStr id)) (courses s) with
  | None => (s, error 404 "Not found")
  | Some (_, course) => (s, Respond 200 (VObj course))
  end.

(** POST /api/notes; [now] is what [new Date().toISOString()] returned. *)
Definition post_note (fresh now : string) (s : store) (body : obj) : store * outcome :=
  let courseId := get body "courseId" in
  let title := get body "title" in
  let content := get body "content" in
  let authorId := get body "authorId" in
  if negb (truthy courseId) || negb (truthy title) || negb (truthy content) || negb (truthy authorId)
  then (s, error 400 "Missing fields")
  else
    match find_first (has "id" authorId) (users s) with
    | None => (s, error 400 "Invalid author")
    | Some (_, user) =>
        let note := object [("id", VStr fresh); ("courseId", courseId); ("title", title);
                            ("content", content); ("author", get user "name");
                            ("authorId", authorId); ("createdAt", VStr now);
                            ("downloads", VNum 0); ("ratings", VArr []);
                            ("averageRating", VNum 0)] in
        (with_notes (communityNotes s ++ [note]) s, Respond 200 (VObj note))
    end.

(** PUT /api/notes/:id *)
Definition put_note (s : store) (id : string) (body : obj) : store * outcome :=
  let content := get body "content" in
  let title := get body "title" in
  let authorId := get body "authorId" in
  match find_first (has "id" (VStr id)) (communityNotes s) with
  | None => (s, error 404 "Note not found")
  | Some (i, note) =>
      if negb (strict_eq (get note "authorId") authorId) && negb (truthy (get body "forceDev"))
      then (s, error 403 "Not allowed")
      else
        let note1 := if truthy title then <["title" := title]> note else note in
        let note2 := if truthy content then <["content" := content]> note1 else note1 in
        (with_notes (<[i := note2]> (communityNotes s)) s, Respond 200 (VObj note2))
  end.

(** DELETE /api/notes/:id; the handler reads [req.body || {}]. *)
Definition delete_note (s : store) (id : string) (body : option obj) : store * outcome :=
  let b : obj := default ∅ body in
  let authorId := get b "authorId" in
  let forceDev := get b "forceDev" in
  match find_first (has "id" (VStr id)) (communityNotes s) with
  | None => (s, error 404 "Not found")
  | Some (_, note) =>
      if negb (truthy forceDev) && negb (strict_eq (get note "authorId") authorId)
      then (s, error 403 "Not allowed")
      else
        (with_notes (List.filter (fun n => negb (has "id" (VStr id) n)) (communityNotes s)) s,
         Respond 200 (VObj (object [("success", VBool true)])))
  end.

(** What [ratings.find(r => r.userId === userId)] does: it stops at the first
    entry of that user, or finds none, or throws on an entry that is
    [undefined] or [null]. *)
Inductive found : Type :=
| Existing (i : nat) (r : value)
| Missing
| FindThrows.

Fixpoint find_rating (userId : value) (i : nat) (rs : list value) : found :=
  match rs with
  | [] => Missing
  | r :: rs' =>
      match get_field r "userId" with
      | None => FindThrows
      | Some u => if strict_eq u userId then Existing i r else find_rating userId (S i) rs'
      end
  end.

(** [existing.rating = rating]; the assignment to a property of a primitive
    does nothing (the file is not in strict mode). *)
Definition set_rating (rating r : value) : value :=
  match r with
  | VObj o => VObj (<["rating" := rating]> o)
  | _ => r
  end.

(** [if (existing) existing.rating = rating; else note.ratings.push({ userId, rating })];
    [None] when [find] throws. *)
Definition upsert (userId rating : value) (rs : list value) : option (list value) :=
  let entry := VObj (object [("userId", userId); ("rating", rating)]) in
  match find_rating userId 0 rs with
  | FindThrows => None
  | Missing => Some (rs ++ [entry])
  | Existing i r => Some (if truthy r then <[i := set_rating rating r]> rs else rs ++ [entry])
  end.

(** [rs.reduce((s, r) => s + r.rating, acc)]; [None] when a read or an
    addition throws. *)
Fixpoint total_from (acc : value) (rs : list value) : option value :=
  match rs with
  | [] => Some acc
  | r :: rs' =>
      match get_field r "rating" with
      | None => None
      | Some x =>
          match js_add acc x with
          | None => None
          | Some acc' => total_from acc' rs'
          end
      end
  end.

(** POST /api/notes/:id/rate.  When the handler throws nothing is written, so
    the document stays as it was read. *)
Definition rate (s : store) (id : string) (body : obj) : store * outcome :=
  let userId := get body "userId" in
  let rating := get body "rating" in
  if negb (truthy userId) || negb (truthy rating) then (s, error 400 "Missing userId or rating")
  else
    match find_first (has "id" (VStr id)) (communityNotes s) with
    | None => (s, error 404 "Note not found")
    | Some (i, note) =>
        match js_or (get note "ratings") (VArr []) with
        | VArr rs =>
            match upsert userId rating rs with
            | None => (s, Throws)
            | Some rs' =>
                match total_from (VNum 0) rs' with
                | None => (s, Throws)
                | Some total =>
                    let count := VNum (Number.of_nat (length rs')) in
                    match js_div total count with
                    | None => (s, Throws)
                    | Some quotient =>
                        let average := VNum quotient in
                        let note' :=
                          <["averageRating" := average]> (<["ratings" := VArr rs']> note) in
                        (with_notes (<[i := note']> (communityNotes s)) s,
                         Respond 200 (VObj (object [("averageRating", average);
                                                    ("ratingsCount", count)])))
                    end
                end
            end
        | _ => (s, Throws)
        end
    end.

(** POST /api/auth/signup *)
Definition signup (fresh now : string) (s : store) (body : obj) : store * outcome :=
  let email := get body "email" in
  let password := get body "password" in
  let name := get body "name" in
  if negb (truthy email) || negb (truthy password) || negb (truthy name)
  then (s, error 400 "Missing fields")
  else
    match find_first (has "email" email) (users s) with
    | Some _ => (s, error 400 "Email exists")
    | None =>
        let user := object [("id", VStr fresh); ("email", email); ("password", password);
                            ("name", name); ("createdAt", VStr now)] in
        (with_users (users s ++ [user]) s,
         Respond 200 (VObj (object [("id", get user "id"); ("email", get user "email");
                                    ("name", get user "name")])))
    end.

(** POST /api/auth/login *)
Definition login (s : store) (body : obj) : store * outcome :=
  let email := get body "email" in
  let password := get body "password" in
  match find_first (fun u => has "email" email u && has "password" password u) (users s) with
  | None => (s, error 400 "Invalid credentials")
  | Some (_, user) =>
      (s, Respond 200 (VObj (object [("id", get user "id"); ("email", get user "email");
                                     ("name", get user "name")])))
  end.

(** ** Requests in sequence *)

Inductive request : Type :=
| GetData
| PostCourse (fresh : string) (body : obj)
| PutCourse (id : string) (body : obj)
| GetCourse (id : string)
| PostNote (fresh now : string) (body : obj)
| PutNote (id : string) (body : obj)
| DeleteNote (id : string) (body : option obj)
| Rate (id : string) (body : obj)
| Signup (fresh now : string) (body : obj)
| Login (body : obj).

Definition handle (s : store) (r : request) : store * outcome :=
  match r with
  | GetData => get_data s
  | PostCourse fresh body => post_course fresh s body
  | PutCourse id body => put_course s id body
  | GetCourse id => get_course s id
  | PostNote fresh now body => post_note fresh now s body
  | PutNote id body => put_note s id body
  | DeleteNote id body => delete_note s id body
  | Rate id body => rate s id body
  | Signup fresh now body => signup fresh now s body
  | Login body => login s body
  end.

(** What [db.write()] leaves in db.json, and so what the next [db.read()]
    gives: the document through JSON. *)
Definition written (s : store) : store :=
  {| courses := json_obj <$> courses s; users := json_obj <$> users s;
     communityNotes := json_obj <$> communityNotes s;
     analytics := read_back (analytics s) |}.

(** A document as [db.read()] gives it: JSON leaves it as it is. *)
Definition as_read (s : store) : Prop := written s = s.

(** The document that the next handler reads after a sequence of requests:
    each handler starts from what the one before left in db.json.  (A handler
    that writes nothing leaves the file as it was read, and a document as
    read goes through JSON unchanged.) *)
Definition run (s : store) (rs : list request) : store :=
  foldl (fun s r => written (fst (handle s r))) s rs.

(** ** The vocabulary of the specification *)

(** A field a handler takes as missing ([!field]): absent from the body, or
    there with a falsy value ([null], [false], [0], [NaN], the empty string). *)
Definition missing (body : obj) (k : string) : Prop := truthy (get body k) = false.

(** A field a handler takes as present, or provided ([if (field)]). *)
Definition present (body : obj) (k : string) : Prop := truthy (get body k) = true.

(** The entity that [id] designates in a collection: the first one whose
    [id] is that string, at position [i]. *)
Definition designates (id : string) (l : list obj) (i : nat) (o : obj) : Prop :=
  l !! i = Some o /\ get o "id" = VStr id /\
  forall j o', j < i -> l !! j = Some o' -> get o' "id" <> VStr id.

(** No entity of the collection has that [id]. *)
Definition unknown (id : string) (l : list obj) : Prop :=
  forall o, o ∈ l -> get o "id" <> VStr id.

(** The ratings a note holds ([note.ratings || []]). *)
Definition ratings_of (note : obj) : list value :=
  match js_or (get note "ratings") (VArr []) with
  | VArr rs => rs
  | _ => []
  end.

(** The arithmetic mean of numbers, as doubles: their sum from 0, in order,
    over their count. *)
Definition mean (xs : list float) : float :=
  PrimFloat.div (fold_left PrimFloat.add xs PrimFloat.zero) (Number.of_nat (length xs)).

(** The rating values of the entries are the numbers [xs]. *)
Definition rating_values (rs : list value) (xs : list float) : Prop :=
  Forall2 (fun r x => get_field r "rating" = Some (VNum x)) rs xs.

(** The ratings hold at most one entry per user: no entry has the [userId]
    of another one (as [===] tells), for a [userId] that is truthy, as every
    one that a rating is accepted with. *)
Definition one_entry_per_user (rs : list value) : Prop :=
  forall i j ri rj ui uj,
    i <> j -> rs !! i = Some ri -> rs !! j = Some rj ->
    get_field ri "userId" = Some ui -> get_field rj "userId" = Some uj ->
    truthy ui = true -> strict_eq ui uj = false.

(** The users have different emails: no user has the email of another one
    (as [===] tells), for an email that is truthy, as every one that a signup
    is accepted with. *)
Definition emails_unique (us : list obj) : Prop :=
  forall i j ui uj,
    i <> j -> us !! i = Some ui -> us !! j = Some uj ->
    truthy (get ui "email") = true ->
    strict_eq (get ui "email") (get uj "email") = false.

(** The average is what the rating values are the mean of: they are numbers,
    and it is their [mean]. *)
Definition is_mean_of_ratings (average : value) (rs : list value) : Prop :=
  exists xs, rating_values rs xs /\ average = VNum (mean xs).

(** A note nobody has rated. *)
Definition unrated (note : obj) : Prop := js_or (get note "ratings") (VArr []) = VArr [].

(** Every note holds at most one entry per user. *)
Definition ratings_unique (s : store) : Prop :=
  forall note, note ∈ communityNotes s -> one_entry_per_user (ratings_of note).

(** The ratings of the note that [id] designates. *)
Definition ratings_in (s : store) (id : string) : list value :=
  match find_first (has "id" (VStr id)) (communityNotes s) with
  | Some (_, note) => ratings_of note
  | None => []
  end.

(** ** What the handlers leave *)

(** What the two guarded assignments leave in the note. *)
Definition edited (body note : obj) : obj :=
  let note1 := if truthy (get body "title") then <["title" := get body "title"]> note else note in
  if truthy (get body "content") then <["content" := get body "content"]> note1 else note1.

(** The note with its new ratings and their average. *)
Definition rated (note : obj) (rs : list value) (average : float) : obj :=
  <["averageRating" := VNum average]> (<["ratings" := VArr rs]> note).

(** Every note names an author among the users, and carries that user's
    name: some user's [id] is the note's [authorId] (as [===] tells) and the
    user's [name] is the note's [author]. *)
Definition authors_known (s : store) : Prop :=
  forall note, note ∈ communityNotes s ->
    exists u, u ∈ users s /\ strict_eq (get u "id") (get note "authorId") = true
              /\ get note "author" = get u "name".

(** ** The client's sync helpers (the browser side)

    [window.appData] is [undefined] until a helper loads it and an object
    from then on; [localStorage] holds JSON text under two keys, kept here
    as the values the text denotes.  A helper awaits one [fetch]: what comes
    back is an input of its model.  Ids are strings, and writing to
    [localStorage] does not fail. *)

Module Client.

Record state : Type := State {
  appData : option obj;
  currentUser : value;
  saved_appData : option obj;
  saved_currentUser : option value;
}.

(** [localStorage.setItem('apExamAppData', JSON.stringify(window.appData))],
    after [window.appData] has become [data]. *)
Definition mirror (data : obj) (c : state) : state :=
  {| appData := Some data; currentUser := currentUser c;
     saved_appData := Some (json_obj data); saved_currentUser := saved_currentUser c |}.

(** What [await fetch(..)] comes to: a rejection, or a response with its
    status and what [res.json()] reads from its text ([None]: no JSON). *)
Inductive exchange : Type :=
| Unreachable
| Reply (status : nat) (body : option value).

(** [res.ok] *)
Definition ok (status : nat) : bool := (200 <=? status) && (status <=? 299).

(** How a helper ends: it returns, it throws the [Error] it made, or it
    fails with another exception (a rejected [fetch], text that is no JSON, a
    TypeError). *)
Inductive result : Type :=
| Returns (v : value)
| ThrowsError (message : string)
| Fails.

(** [const err = await res.json().catch(() => ({ error: 'unknown' }));
     throw new Error(err.error || fallback)] *)
Definition refuse (fallback : string) (body : option value) : result :=
  match get_field (default (VObj (object [("error", VStr "unknown")])) body) "error" with
  | None => Fails
  | Some e =>
      match to_string (js_or e (VStr fallback)) with
      | Some message => ThrowsError message
      | None => Fails
      end
  end.

(** The object a server handler gets as [req.body] when the helper sends
    [JSON.stringify(payload)]. *)
Definition sent (payload : list (string * value)) : obj := json_obj (object payload).

(** [loadRemoteData()] *)
Definition fallback (c : state) : state * result :=
  match saved_appData c with
  | Some saved =>
      ({| appData := Some saved; currentUser := currentUser c;
          saved_appData := saved_appData c; saved_currentUser := saved_currentUser c |},
       Returns (VObj saved))
  | None => (c, Returns (from_option VObj VUndefined (appData c)))
  end.

Definition loadRemoteData (c : state) (x : exchange) : state * result :=
  match x with
  | Reply status (Some data) =>
      if ok status then
        match get_field data "courses", get_field data "communityNotes",
              get_field data "users", get_field data "analytics" with
        | Some courses, Some communityNotes, Some users, Some analytics =>
            let loaded :=
              object [("courses", js_or courses (VArr []));
                      ("communityNotes", js_or communityNotes (VArr []));
                      ("users", js_or users (VArr []));
                      ("analytics", js_or analytics (VObj (object [("sessions", VArr [])])))] in
            (mirror loaded c, Returns (VObj loaded))
        | _, _, _, _ => fallback c
        end
      else fallback c
  | _ => fallback c
  end.

(** [window.appData[k] = window.appData[k] || []; window.appData[k].push(x)] *)
Definition pushed (k : string) (x : value) (c : state) : option state :=
  match appData c with
  | Some data =>
      match js_or (get data k) (VArr []) with
      | VArr l => Some (mirror (<[k := VArr (l ++ [x])]> data) c)
      | _ => None
      end
  | None => None
  end.

(** [list.findIndex(n => n.id === x.id)], from position [i]; the outer
    [None] when reading an [id] throws. *)
Fixpoint findIndex (x : value) (i : nat) (l : list value) : option (option nat) :=
  match l with
  | [] => Some None
  | n :: l' =>
      match get_field n "id", get_field x "id" with
      | Some a, Some b => if strict_eq a b then Some (Some i) else findIndex x (S i) l'
      | _, _ => None
      end
  end.

(** [const idx = window.appData[k].findIndex(n => n.id === x.id);
     if (idx !== -1) window.appData[k][idx] = x] *)
Definition replaced (k : string) (x : value) (c : state) : option state :=
  match appData c with
  | Some data =>
      match get data k with
      | VArr l =>
          match findIndex x 0 l with
          | Some (Some idx) => Some (mirror (<[k := VArr (<[idx := x]> l)]> data) c)
          | Some None => Some (mirror data c)
          | None => None
          end
      | _ => None
      end
  | None => None
  end.

(** [list.filter(n => n.id !== id)]; [None] when reading an [id] throws. *)
Fixpoint without (id : string) (l : list value) : option (list value) :=
  match l with
  | [] => Some []
  | n :: l' =>
      match get_field n "id", without id l' with
      | Some a, Some rest => Some (if strict_eq a (VStr id) then rest else n :: rest)
      | _, _ => None
      end
  end.

(** [list.find(n => n.id === id)], with its position. *)
Fixpoint find_id (id : string) (i : nat) (l : list value) : option (option (nat * value)) :=
  match l with
  | [] => Some None
  | n :: l' =>
      match get_field n "id" with
      | Some a => if strict_eq a (VStr id) then Some (Some (i, n)) else find_id id (S i) l'
      | None => None
      end
  end.

(** The helpers that change a note or a course: each answers a response that
    is not [ok] with [refuse]. *)
Definition answered (failed : string) (c : state) (x : exchange)
           (merge : value -> option state) : state * result :=
  match x with
  | Unreachable => (c, Fails)
  | Reply status body =>
      if ok status then
        match body with
        | Some v => match merge v with
                    | Some c' => (c', Returns v)
                    | None => (c, Fails)
                    end
        | None => (c, Fails)
        end
      else (c, refuse failed body)
  end.

(** [createRemoteNote({ courseId, title, content, authorId })] *)
Definition createRemoteNote_sends (args : obj) : obj :=
  sent [("courseId", get args "courseId"); ("title", get args "title");
        ("content", get args "content"); ("authorId", get args "authorId")].

Definition createRemoteNote (c : state) (x : exchange) : state * result :=
  answered "Failed to create note" c x (fun note => pushed "communityNotes" note c).

(** [editRemoteNote(noteId, { content, title, authorId, forceDev = false })] *)
Definition editRemoteNote_sends (args : obj) : obj :=
  sent [("content", get args "content"); ("title", get args "title");
        ("authorId", get args "authorId");
        ("forceDev", match get args "forceDev" with
                     | VUndefined => VBool false
                     | forceDev => forceDev
                     end)].

Definition editRemoteNote (c : state) (x : exchange) : state * result :=
  answered "Failed to edit note" c x (fun note => replaced "communityNotes" note c).

(** [deleteRemoteNote(noteId, { authorId, forceDev = false } = {})]; the
    response's text is read only when the response is not [ok]. *)
Definition deleteRemoteNote_sends (args : option obj) : obj :=
  sent [("authorId", get (default ∅ args) "authorId");
        ("forceDev", match get (default ∅ args) "forceDev" with
                     | VUndefined => VBool false
                     | forceDev => forceDev
                     end)].

Definition deleteRemoteNote (c : state) (noteId : string) (x : exchange) : state * result :=
  match x with
  | Unreachable => (c, Fails)
  | Reply status body =>
      if ok status then
        match appData c with
        | Some data =>
            match js_or (get data "communityNotes") (VArr []) with
            | VArr l =>
                match without noteId l with
                | Some l' => (mirror (<["communityNotes" := VArr l']> data) c,
                              Returns (VBool true))
                | None => (c, Fails)
                end
            | _ => (c, Fails)
            end
        | None => (c, Fails)
        end
      else (c, refuse "Failed to delete note" body)
  end.

(** [rateRemoteNote(noteId, userId, rating)].  The note is changed where it
    is, assignment by assignment, so a TypeError on the way leaves the
    assignments before it in [window.appData] (and the mirror as it was). *)
Definition rateRemoteNote_sends (userId : string) (rating : value) : obj :=
  sent [("userId", VStr userId); ("rating", rating)].

Definition rateRemoteNote (c : state) (noteId userId : string) (rating : value)
           (x : exchange) : state * result :=
  match x with
  | Unreachable => (c, Fails)
  | Reply status body =>
      if ok status then
        match body, appData c with
        | Some data, Some app =>
            match get app "communityNotes" with
            | VArr l =>
                match find_id noteId 0 l with
                | None => (c, Fails)
                | Some None => (mirror app c, Returns data)
                | Some (Some (i, VObj note)) =>
                    match get_field data "averageRating" with
                    | None => (c, Fails)
                    | Some average =>
                        let note1 := <["averageRating" := average]> note in
                        let ratings := js_or (get note1 "ratings") (VArr []) in
                        let note2 := <["ratings" := ratings]> note1 in
                        let put n := <["communityNotes" := VArr (<[i := VObj n]> l)]> app in
                        let unsaved n :=
                          {| appData := Some (put n); currentUser := currentUser c;
                             saved_appData := saved_appData c;
                             saved_currentUser := saved_currentUser c |} in
                        match ratings with
                        | VArr rs =>
                            match upsert (VStr userId) rating rs with
                            | Some rs' =>
                                (mirror (put (<["ratings" := VArr rs']> note1)) c, Returns data)
                            | None => (unsaved note2, Fails)
                            end
                        | _ => (unsaved note2, Fails)
                        end
                    end
                | Some (Some (_, _)) => (c, Fails)    (* not reached: what has a string [id] is an object *)
                end
            | _ => (c, Fails)
            end
        | _, _ => (c, Fails)
        end
      else (c, refuse "Failed to rate note" body)
  end.

(** [createRemoteCourse({ title, icon, description, notes })] *)
Definition createRemoteCourse_sends (args : obj) : obj :=
  sent [("title", get args "title"); ("icon", get args "icon");
        ("description", get args "description"); ("notes", get args "notes")].

Definition createRemoteCourse (c : state) (x : exchange) : state * result :=
  answered "Failed to create course" c x (fun course => pushed "courses" course c).

(** [editRemoteCourse(courseId, updates)] *)
Definition editRemoteCourse_sends (updates : obj) : obj := json_obj updates.

Definition editRemoteCourse (c : state) (x : exchange) : state * result :=
  answered "Failed to edit course" c x (fun course => replaced "courses" course c).

(** [signupRemote({ name, email, password })] *)
Definition signupRemote_sends (args : obj) : obj :=
  sent [("name", get args "name"); ("email", get args "email");
        ("password", get args "password")].

Definition signupRemote (c : state) (x : exchange) : state * result :=
  answered "Signup failed" c x (fun _ => Some c).

(** [loginRemote({ email, password })] *)
Definition loginRemote_sends (args : obj) : obj :=
  sent [("email", get args "email"); ("password", get args "password")].

Definition loginRemote (c : state) (x : exchange) : state * result :=
  answered "Login failed" c x
    (fun user => Some {| appData := appData c; currentUser := user;
                         saved_appData := saved_appData c;
                         saved_currentUser := json user |}).

(** What the client gets when the server answers [body] with [status]:
    [res.json(body)] sends [JSON.stringify(body)]. *)
Definition reply (status : nat) (body : value) : exchange := Reply status (json body).

(** The cache holds the collection [k] as the server's store has it. *)
Definition cached (k : string) (c : state) (l : list obj) : Prop :=
  exists data, appData c = Some data /\ get data k = VArr (VObj <$> l).

(** The mirror in [localStorage] is the text of [window.appData]. *)
Definition mirrored (c : state) : Prop :=
  exists data, appData c = Some data /\ saved_appData c = Some (json_obj data).

(** A helper that does not return leaves the client as it was. *)
Definition unchanged_unless_returned (c : state) (r : state * result) : Prop :=
  match r with
  | (_, Returns _) => True
  | (c', _) => c' = c
  end.

End Client.

(** Stores and bodies of the examples. *)
Module Examples.

Definition alice : obj :=
  object [("id", VStr "u1"); ("email", VStr "a@b.com"); ("password", VStr "x");
          ("name", VStr "A"); ("createdAt", VStr "2024-01-01T00:00:00.000Z")].

Definition note_by (ratings : list value) : obj :=
  object [("id", VStr "n1"); ("courseId", VStr "c1"); ("title", VStr "Limits");
          ("content", VStr "Epsilon and delta"); ("author", VStr "A");
          ("authorId", VStr "u1"); ("createdAt", VStr "2024-01-02T00:00:00.000Z");
          ("downloads", VNum 0); ("ratings", VArr ratings); ("averageRating", VNum 0)].

Definition entry (userId rating : value) : value :=
  VObj (object [("userId", userId); ("rating", rating)]).

Definition with_note (ratings : list value) : store :=
  {| courses := default_courses; users := [alice]; communityNotes := [note_by ratings];
     analytics := VObj (object [("sessions", VArr [])]) |}.

Definition signup_body : obj :=
  object [("email", VStr "a@b.com"); ("password", VStr "x"); ("name", VStr "A")].

Definition rating_body (userId rating : value) : obj :=
  object [("userId", userId); ("rating", rating)].

Definition untitled_body : obj :=
  object [("courseId", VStr "c1"); ("content", VStr "C"); ("authorId", VStr "u1")].

Definition stranger_body : obj :=
  object [("courseId", VStr "c1"); ("title", VStr "T"); ("content", VStr "C");
          ("authorId", VStr "nobody")].

Definition edit_body : obj :=
  object [("content", VStr "Now with examples"); ("forceDev", VBool true)].

End Examples.

(** Client states and arguments of the examples. *)
Module Browser.

Definition loaded (notes : list obj) : Client.state :=
  {| Client.appData :=
       Some (object [("courses", VArr (VObj <$> default_courses));
                     ("communityNotes", VArr (VObj <$> notes));
                     ("users", VArr []);
                     ("analytics", VObj (object [("sessions", VArr [])]))]);
     Client.currentUser := VUndefined;
     Client.saved_appData := None;
     Client.saved_currentUser := None |}.

Definition note_args : obj :=
  object [("courseId", VStr "c1"); ("title", VStr "Series"); ("content", VStr "Ratio test");
          ("authorId", VStr "u1")].

Definition new_note : obj :=
  object [("id", VStr "n2"); ("courseId", VStr "c1"); ("title", VStr "Series");
          ("content", VStr "Ratio test"); ("author", VStr "A"); ("authorId", VStr "u1");
          ("createdAt", VStr "2024-01-03T00:00:00.000Z"); ("downloads", VNum 0);
          ("ratings", VArr []); ("averageRating", VNum 0)].

Definition edit_args : obj :=
  object [("content", VStr "Now with examples"); ("authorId", VStr "u1")].

Definition course_args : obj :=
  object [("title", VStr "AP Biology"); ("description", VStr "Cells and systems")].

Definition new_course : obj :=
  object [("id", VStr "c4"); ("title", VStr "AP Biology"); ("icon", VStr "📘");
          ("description", VStr "Cells and systems"); ("notes", VStr ""); ("links", VArr [])].

Definition retitled : obj := object [("title", VStr "AP Calculus BC")].

Definition renamed : obj := object [("id", VStr "calc")].

Definition first_course : obj :=
  object [("id", VStr "c1"); ("title", VStr "AP Calculus AB"); ("icon", VStr "📊");
          ("description", VStr "Master differential and integral calculus");
          ("notes", VStr "# AP Calculus AB

## Key Concepts
- Limits
- Derivatives

");
          ("links", VArr [VObj (object [("title", VStr "CollegeBoard");
                                        ("url", VStr "https://apstudents.collegeboard.org")])])].

Definition login_args : obj := object [("email", VStr "a@b.com"); ("password", VStr "x")].

Definition document : value :=
  VObj (object [("courses", VArr (VObj <$> courses (Examples.with_note [])));
                ("communityNotes", VArr (VObj <$> communityNotes (Examples.with_note [])));
                ("users", VArr (public_user <$> users (Examples.with_note [])));
                ("analytics", analytics (Examples.with_note []))]).

End Browser.

(** * Properties *)

(** Case analysis on everything a handler tests, in the goal or in [H]. *)
Ltac split_branches :=
  repeat match goal with
         | |- context [match ?x with _ => _ end] => destruct x
         end.

Ltac split_branches_in H :=
  repeat match type of H with
         | context [match ?x with _ => _ end] => destruct x
         end.

(** ** Values *)

Lemma get_absent (o : obj) (k : string) : o !! k = None -> get o k = VUndefined.
Proof. intros H. unfold get. now rewrite H. Qed.

Lemma absent_missing (body : obj) (k : string) : body !! k = None -> missing body k.
Proof. intros H. unfold missing. now rewrite get_absent. Qed.

Lemma strict_eq_str (v : value) (s : string) : strict_eq v (VStr s) = true <-> v = VStr s.
Proof.
  destruct v; simpl; split; intros H; try discriminate.
  - apply String.eqb_eq in H. now subst.
  - injection H as ->. apply String.eqb_refl.
Qed.

Lemma strict_eq_str_false (v : value) (s : string) : strict_eq v (VStr s) = false <-> v <> VStr s.
Proof.
  rewrite <- strict_eq_str. destruct (strict_eq v (VStr s)); split; congruence.
Qed.

Lemma has_id (id : string) (o : obj) : has "id" (VStr id) o = true <-> get o "id" = VStr id.
Proof. apply strict_eq_str. Qed.

(** ** [===] on numbers *)

Lemma SFeqb_true (a b : spec_float) :
  SFeqb a b = true ->
  match a, b with
  | S754_zero _, S754_zero _ => True
  | S754_nan, _ | _, S754_nan => False
  | _, _ => a = b
  end.
Proof.
  unfold SFeqb, SFcompare.
  destruct a as [sa|sa| |sa ma ea], b as [sb|sb| |sb mb eb];
    try destruct sa; try destruct sb; simpl; try discriminate; try tauto.
  - destruct (Z.compare_spec ea eb) as [->| |]; try discriminate.
    change (PosDef.Pos.compare_cont Eq ma mb) with (Pos.compare ma mb).
    destruct (Pos.compare_spec ma mb) as [->| |]; simpl; try discriminate. reflexivity.
  - destruct (Z.compare_spec ea eb) as [->| |]; try discriminate.
    change (PosDef.Pos.compare_cont Eq ma mb) with (Pos.compare ma mb).
    destruct (Pos.compare_spec ma mb) as [->| |]; simpl; try discriminate. reflexivity.
Qed.

Lemma float_eqb_trans (x y z : float) :
  PrimFloat.eqb x y = true -> PrimFloat.eqb y z = true -> PrimFloat.eqb x z = true.
Proof.
  rewrite !FloatAxioms.eqb_spec. intros Hxy Hyz.
  pose proof (SFeqb_true _ _ Hxy) as H1. pose proof (SFeqb_true _ _ Hyz) as H2.
  destruct (Prim2SF x) as [sx|sx| |sx mx ex], (Prim2SF y) as [sy|sy| |sy my ey];
    try contradiction; try discriminate;
    destruct (Prim2SF z) as [sz|sz| |sz mz ez];
    try contradiction; try discriminate; try reflexivity;
    try (injection H1 as -> ; exact Hyz); try (injection H1 as -> -> ->; exact Hyz).
Qed.

Lemma strict_eq_trans (a b c : value) :
  strict_eq a b = true -> strict_eq b c = true -> strict_eq a c = true.
Proof.
  destruct a, b; simpl; try discriminate; destruct c; simpl; try discriminate; auto.
  - intros H1 H2. apply Bool.eqb_prop in H1, H2. subst. apply Bool.eqb_reflx.
  - apply float_eqb_trans.
  - intros H1 H2. apply String.eqb_eq in H1, H2. subst. apply String.eqb_refl.
Qed.

(** A value that [===] a truthy one is no [undefined]. *)
Lemma strict_eq_truthy (u v : value) :
  strict_eq u v = true -> truthy v = true -> u <> VUndefined.
Proof. intros H Hv ->. destruct v; simpl in *; discriminate. Qed.

Lemma float_eqb_sym (x y : float) : PrimFloat.eqb x y = true -> PrimFloat.eqb y x = true.
Proof.
  rewrite !FloatAxioms.eqb_spec. intros Hxy. pose proof (SFeqb_true _ _ Hxy) as H.
  destruct (Prim2SF x) as [sx|sx| |sx mx ex], (Prim2SF y) as [sy|sy| |sy my ey];
    try contradiction; try discriminate; try reflexivity;
    try (injection H as ->; exact Hxy); try (injection H as -> -> ->; exact Hxy).
Qed.

(** Values that are [===] are truthy together. *)
Lemma strict_eq_truthy_eq (a b : value) : strict_eq a b = true -> truthy a = truthy b.
Proof.
  destruct a, b; simpl; try discriminate; try reflexivity.
  - intros H. now apply Bool.eqb_prop in H.
  - intros H. pose proof (float_eqb_sym _ _ H) as H'.
    unfold PrimFloat.is_nan.
    rewrite (float_eqb_trans x x0 x H H'), (float_eqb_trans x0 x x0 H' H). simpl.
    rewrite !orb_false_r. f_equal.
    destruct (PrimFloat.eqb x 0) eqn:Ex, (PrimFloat.eqb x0 0) eqn:Ey; try reflexivity.
    + rewrite (float_eqb_trans x0 x 0 H' Ex) in Ey. discriminate.
    + rewrite (float_eqb_trans x x0 0 H Ey) in Ex. discriminate.
  - intros H. apply String.eqb_eq in H. now subst.
Qed.

Lemma strict_eq_sym (a b : value) : strict_eq a b = true -> strict_eq b a = true.
Proof.
  destruct a, b; simpl; try discriminate; auto.
  - intros H. apply Bool.eqb_prop in H. subst. apply Bool.eqb_reflx.
  - apply float_eqb_sym.
  - intros H. apply String.eqb_eq in H. subst. apply String.eqb_refl.
Qed.

Lemma strict_eq_sym_false (a b : value) : strict_eq a b = false -> strict_eq b a = false.
Proof.
  intros H. destruct (strict_eq b a) eqn:E; [|reflexivity].
  apply strict_eq_sym in E. congruence.
Qed.

Lemma SFeqb_abs (a b : spec_float) : SFeqb a b = true -> SFeqb (SFabs a) (SFabs b) = true.
Proof.
  intros H. pose proof (SFeqb_true _ _ H) as E.
  destruct a as [sa|sa| |sa ma ea], b as [sb|sb| |sb mb eb];
    try contradiction; try discriminate; try reflexivity.
  injection E as -> -> ->. unfold SFeqb, SFcompare. simpl.
  rewrite Z.compare_refl.
  change (PosDef.Pos.compare_cont Eq mb mb) with (Pos.compare mb mb).
  now rewrite Pos.compare_refl.
Qed.

(** Numbers that are [===] are finite together. *)
Lemma float_eqb_finite (x y : float) :
  PrimFloat.eqb x y = true -> PrimFloat.is_finite x = PrimFloat.is_finite y.
Proof.
  intros H. pose proof (float_eqb_sym _ _ H) as H'.
  unfold PrimFloat.is_finite, PrimFloat.is_nan, PrimFloat.is_infinity.
  rewrite (float_eqb_trans x y x H H'), (float_eqb_trans y x y H' H). simpl. f_equal.
  assert (Ha : PrimFloat.eqb (PrimFloat.abs x) (PrimFloat.abs y) = true).
  { rewrite FloatAxioms.eqb_spec, !FloatAxioms.abs_spec. apply SFeqb_abs.
    now rewrite <- FloatAxioms.eqb_spec. }
  pose proof (float_eqb_sym _ _ Ha) as Ha'.
  destruct (PrimFloat.eqb (PrimFloat.abs x) PrimFloat.infinity) eqn:Ex,
           (PrimFloat.eqb (PrimFloat.abs y) PrimFloat.infinity) eqn:Ey; try reflexivity.
  - rewrite (float_eqb_trans _ _ _ Ha' Ex) in Ey. discriminate.
  - rewrite (float_eqb_trans _ _ _ Ha Ey) in Ex. discriminate.
Qed.

(** ** JSON *)

Lemma size_elem (l : list value) (x : value) : x ∈ l -> size x <= list_sum (List.map size l).
Proof. induction 1; simpl; lia. Qed.

Lemma size_lookup (o : obj) (k : string) (x : value) :
  o !! k = Some x -> size x <= map_fold (fun _ x n => size x + n) 0 o.
Proof.
  revert k x.
  apply (map_fold_weak_ind (fun n (o : obj) => forall k x, o !! k = Some x -> size x <= n)).
  - intros k x H. now rewrite lookup_empty in H.
  - intros i y m r Hi IH k x Hk. destruct (decide (k = i)) as [->|Hne].
    + rewrite lookup_insert_eq in Hk. injection Hk as ->. lia.
    + rewrite lookup_insert_ne in Hk by congruence. specialize (IH k x Hk). lia.
Qed.

(** Induction on a value, with the property at hand for the elements of an
    array and for the property values of an object. *)
Lemma value_induction (P : value -> Prop) :
  P VUndefined -> P VNull -> (forall b, P (VBool b)) -> (forall x, P (VNum x)) ->
  (forall s, P (VStr s)) ->
  (forall l, Forall P l -> P (VArr l)) ->
  (forall o : obj, map_Forall (fun _ => P) o -> P (VObj o)) ->
  forall v, P v.
Proof.
  intros H1 H2 H3 H4 H5 H6 H7 v.
  remember (size v) as n eqn:Hn. revert v Hn.
  induction n as [n IH] using lt_wf_ind. intros v ->.
  destruct v as [| | | | |l|o]; auto.
  - apply H6. apply Forall_forall. intros x Hx.
    apply (IH (size x)); [|reflexivity]. pose proof (size_elem l x Hx). simpl. lia.
  - apply H7. intros k x Hk.
    apply (IH (size x)); [|reflexivity]. pose proof (size_lookup o k x Hk). simpl. lia.
Qed.

Lemma json_number_idem (x : float) : json (json_number x) = Some (json_number x).
Proof.
  unfold json_number. destruct (PrimFloat.is_finite x) eqn:Hf; [|reflexivity].
  destruct (PrimFloat.eqb x 0) eqn:Hz; simpl; unfold json_number.
  - reflexivity.
  - now rewrite Hf, Hz.
Qed.

(** What has been through JSON goes through it unchanged. *)
Lemma json_idem (v v' : value) : json v = Some v' -> json v' = Some v'.
Proof.
  revert v'. induction v as [| | | | |l IH|o IH] using value_induction; intros v' H;
    simpl in H; try discriminate; injection H as <-; try reflexivity.
  - apply json_number_idem.
  - simpl. do 2 f_equal. rewrite List.map_map. apply List.map_ext_in. intros e He.
    apply list_elem_of_In in He. rewrite Forall_forall in IH. specialize (IH e He).
    destruct (json e) as [e'|]; simpl; [now rewrite (IH e' eq_refl)|reflexivity].
  - simpl. do 2 f_equal. apply map_eq. intros k. rewrite !lookup_omap.
    destruct (o !! k) as [x|] eqn:Hk; simpl; [|reflexivity].
    destruct (json x) as [x'|] eqn:Hx; simpl; [|reflexivity].
    exact (IH k x Hk x' Hx).
Qed.

Lemma json_obj_idem (o : obj) : json_obj (json_obj o) = json_obj o.
Proof.
  apply map_eq. intros k. unfold json_obj. rewrite !lookup_omap.
  destruct (o !! k) as [x|]; simpl; [|reflexivity].
  destruct (json x) as [x'|] eqn:Hx; simpl; [|reflexivity]. now apply (json_idem x).
Qed.

Lemma read_back_idem (v : value) : read_back (read_back v) = read_back v.
Proof.
  unfold read_back. destruct (json v) as [v'|] eqn:Hv; simpl; [|reflexivity].
  now rewrite (json_idem v v' Hv).
Qed.

Lemma written_idem (s : store) : written (written s) = written s.
Proof.
  unfold written. simpl. rewrite <- !list_fmap_compose, read_back_idem.
  f_equal; apply list_fmap_ext; intros i o _; apply json_obj_idem.
Qed.

Lemma get_json_obj (o : obj) (k : string) : get (json_obj o) k = read_back (get o k).
Proof.
  unfold get, json_obj, read_back. rewrite lookup_omap.
  destruct (o !! k) as [x|]; reflexivity.
Qed.

Lemma read_back_str (v : value) (t : string) : read_back v = VStr t <-> v = VStr t.
Proof.
  split; [|now intros ->].
  destruct v; unfold read_back; simpl; try discriminate; try tauto.
  unfold json_number. now destruct (PrimFloat.is_finite x), (PrimFloat.eqb x 0).
Qed.

Lemma json_number_cases (x : float) :
  (json_number x = VNum x /\ PrimFloat.is_finite x = true /\ PrimFloat.eqb x 0 = false)
  \/ (json_number x = VNum 0 /\ PrimFloat.is_finite x = true /\ PrimFloat.eqb x 0 = true)
  \/ (json_number x = VNull /\ PrimFloat.is_finite x = false).
Proof.
  unfold json_number. destruct (PrimFloat.is_finite x), (PrimFloat.eqb x 0); auto.
Qed.

(** What is truthy once read back was so before, and is as it was unless it
    is an array or an object. *)
Lemma read_back_truthy (a : value) : truthy (read_back a) = true -> truthy a = true.
Proof.
  destruct a; unfold read_back; simpl; try auto.
  destruct (json_number_cases x) as [(-> & _)|[(-> & _)|(-> & _)]]; simpl; auto; discriminate.
Qed.

(** Values that are [===] once read back, and truthy, were [===] before. *)
Lemma read_back_strict_eq (a b : value) :
  truthy (read_back a) = true -> strict_eq (read_back a) (read_back b) = true ->
  strict_eq a b = true.
Proof.
  destruct a; unfold read_back; simpl; try discriminate.
  - destruct b; simpl; try discriminate; auto.
    destruct (json_number_cases x) as [(-> & _)|[(-> & _)|(-> & _)]]; discriminate.
  - destruct (json_number_cases x) as [(-> & _ & Hz)|[(-> & _)|(-> & _)]];
      [|discriminate|discriminate].
    intros _. destruct b; simpl; try discriminate.
    destruct (json_number_cases x0) as [(-> & _)|[(-> & _)|(-> & _)]]; simpl;
      try discriminate; auto.
    intros H. congruence.
  - destruct b; simpl; try discriminate; auto.
    destruct (json_number_cases x) as [(-> & _)|[(-> & _)|(-> & _)]]; discriminate.
Qed.

(** Values that are [===] still are once read back. *)
Lemma strict_eq_read_back (a b : value) :
  strict_eq a b = true -> strict_eq (read_back a) (read_back b) = true.
Proof.
  destruct a, b; unfold read_back; simpl; try discriminate; auto.
  intros H. pose proof (float_eqb_finite _ _ H) as Hf.
  pose proof (float_eqb_sym _ _ H) as H'.
  destruct (json_number_cases x) as [(-> & F & Z)|[(-> & F & Z)|(-> & F)]],
           (json_number_cases x0) as [(-> & F' & Z')|[(-> & F' & Z')|(-> & F')]];
    simpl; try congruence; try reflexivity.
  - rewrite (float_eqb_trans _ _ _ H Z') in Z. discriminate.
  - rewrite (float_eqb_trans _ _ _ H' Z) in Z'. discriminate.
Qed.

(** The first entity with the id is, in the file, the first with the id. *)
Lemma designates_json (id : string) (l : list obj) (i : nat) (o : obj) :
  designates id l i o -> designates id (json_obj <$> l) i (json_obj o).
Proof.
  intros (Hi & Ho & Hlt). split; [|split].
  - now rewrite list_lookup_fmap, Hi.
  - rewrite get_json_obj. now apply read_back_str.
  - intros j o' Hj Hl. rewrite list_lookup_fmap in Hl.
    destruct (l !! j) as [x|] eqn:Hx; [|discriminate]. injection Hl as <-.
    rewrite get_json_obj, read_back_str. now apply (Hlt j).
Qed.

Lemma unknown_json (id : string) (l : list obj) : unknown id l -> unknown id (json_obj <$> l).
Proof.
  intros H o Ho. apply list_elem_of_fmap in Ho as (x & -> & Hx).
  rewrite get_json_obj, read_back_str. now apply H.
Qed.

(** ** [find] *)

Lemma find_first_Some {A : Type} (p : A -> bool) (l : list A) (i : nat) (x : A) :
  find_first p l = Some (i, x) <->
  l !! i = Some x /\ p x = true /\ forall j y, j < i -> l !! j = Some y -> p y = false.
Proof.
  unfold find_first. rewrite list_find_Some. split.
  - intros (Hl & Hp & Hlt). split; [exact Hl|]. split.
    + now apply Is_true_true.
    + intros j y Hj Hy. specialize (Hlt j y Hy Hj).
      destruct (p y); [|reflexivity]. exfalso. now apply Hlt.
  - intros (Hl & Hp & Hlt). split; [exact Hl|]. split.
    + now apply Is_true_true.
    + intros j y Hy Hj Hpy. apply Is_true_true in Hpy.
      rewrite (Hlt j y Hj Hy) in Hpy. discriminate.
Qed.

Lemma find_first_None {A : Type} (p : A -> bool) (l : list A) :
  find_first p l = None <-> forall x, x ∈ l -> p x = false.
Proof.
  unfold find_first. rewrite list_find_None, Forall_forall. split.
  - intros H x Hx. specialize (H x Hx). destruct (p x); [|reflexivity].
    exfalso. now apply H.
  - intros H x Hx Hp. apply Is_true_true in Hp. rewrite (H x Hx) in Hp. discriminate.
Qed.

Lemma elem_of_list_insert {A : Type} (l : list A) (k : nat) (x y : A) :
  y ∈ <[k := x]> l -> y = x \/ y ∈ l.
Proof.
  intros Hy. apply list_elem_of_lookup in Hy as (j & Hj).
  destruct (decide (j = k)) as [->|Hne].
  - destruct (decide (k < length l)) as [Hlt|Hge].
    + rewrite list_lookup_insert_eq in Hj by exact Hlt. left. congruence.
    + rewrite list_insert_ge in Hj by lia. right. apply list_elem_of_lookup. eauto.
  - rewrite list_lookup_insert_ne in Hj by congruence. right. apply list_elem_of_lookup. eauto.
Qed.

Lemma find_designates (id : string) (l : list obj) (i : nat) (o : obj) :
  find_first (has "id" (VStr id)) l = Some (i, o) <-> designates id l i o.
Proof.
  rewrite find_first_Some. unfold designates. rewrite has_id.
  split; intros (H1 & H2 & H3); (split; [exact H1|]; split; [exact H2|]);
    intros j y Hj Hy; specialize (H3 j y Hj Hy).
  - intros E. apply has_id in E. congruence.
  - unfold has. now apply strict_eq_str_false.
Qed.

Lemma find_unknown (id : string) (l : list obj) :
  find_first (has "id" (VStr id)) l = None <-> unknown id l.
Proof.
  rewrite find_first_None. unfold unknown.
  split; intros H o Ho; specialize (H o Ho).
  - now apply strict_eq_str_false.
  - unfold has. now apply strict_eq_str_false.
Qed.

Lemma designates_here (id : string) (o : obj) (l : list obj) :
  get o "id" = VStr id -> designates id (o :: l) 0 o.
Proof.
  intros H. split; [reflexivity|]. split; [exact H|]. intros j o' Hj. lia.
Qed.

Lemma designates_later (id : string) (o o' : obj) (l : list obj) (i : nat) :
  get o' "id" <> VStr id -> designates id l i o -> designates id (o' :: l) (S i) o.
Proof.
  intros Hne (H1 & H2 & H3). split; [exact H1|]. split; [exact H2|].
  intros [|j] x Hj Hx.
  - simpl in Hx. injection Hx as <-. exact Hne.
  - simpl in Hx. apply (H3 j x); [lia | exact Hx].
Qed.

Lemma unknown_nil (id : string) : unknown id [].
Proof. intros o Ho. now apply elem_of_nil in Ho. Qed.

Lemma unknown_cons (id : string) (o : obj) (l : list obj) :
  get o "id" <> VStr id -> unknown id l -> unknown id (o :: l).
Proof.
  intros Hne Hl x Hx. apply elem_of_cons in Hx as [->|Hx]; [exact Hne | now apply Hl].
Qed.

(** ** POST /api/notes/:id/rate: a rating of 0 *)

(** C6. A rating of 0 is taken as a missing rating: whatever else the body
    holds, the request is answered 400 with [{error: "Missing userId or
    rating"}], as it is when the body has no rating, and the document (so
    every note's ratings) stays as it was. *)
Theorem rate_zero_is_missing (s : store) (id : string) (body : obj) :
  rate s id (<["rating" := VNum 0]> body) = (s, error 400 "Missing userId or rating")
  /\ rate s id (delete "rating" body) = (s, error 400 "Missing userId or rating").
Proof.
  unfold rate, get. split.
  - rewrite lookup_insert_eq. simpl.
    replace (truthy (VNum 0)) with false by reflexivity.
    now rewrite orb_true_r.
  - rewrite lookup_delete_eq. simpl. now rewrite orb_true_r.
Qed.

(** ** POST /api/notes: what is refused *)

(** C3. When one of courseId, title, content, authorId is missing, or no user
    has the authorId, POST /api/notes answers 400 (with "Missing fields" or
    "Invalid author") and leaves the document as it was: no note is
    appended. *)
Theorem post_note_rejects (fresh now : string) (s : store) (body : obj) :
  missing body "courseId" \/ missing body "title" \/ missing body "content"
  \/ missing body "authorId"
  \/ (forall u, u ∈ users s -> strict_eq (get u "id") (get body "authorId") = false) ->
  post_note fresh now s body = (s, error 400 "Missing fields")
  \/ post_note fresh now s body = (s, error 400 "Invalid author").
Proof.
  unfold missing, post_note. intros H.
  destruct (truthy (get body "courseId")) eqn:E1; [|now left].
  destruct (truthy (get body "title")) eqn:E2; [|now left].
  destruct (truthy (get body "content")) eqn:E3; [|now left].
  destruct (truthy (get body "authorId")) eqn:E4; [|now left].
  simpl. destruct H as [H|[H|[H|[H|H]]]]; try discriminate.
  right. apply find_first_None in H. unfold has. now rewrite H.
Qed.

Lemma post_note_rejects_witness :
  (post_note "n2" "2024-01-03T00:00:00.000Z" (Examples.with_note []) Examples.untitled_body
   = (Examples.with_note [], error 400 "Missing fields")
   \/ post_note "n2" "2024-01-03T00:00:00.000Z" (Examples.with_note []) Examples.untitled_body
      = (Examples.with_note [], error 400 "Invalid author"))
  /\ (post_note "n2" "2024-01-03T00:00:00.000Z" (Examples.with_note []) Examples.stranger_body
      = (Examples.with_note [], error 400 "Missing fields")
      \/ post_note "n2" "2024-01-03T00:00:00.000Z" (Examples.with_note []) Examples.stranger_body
         = (Examples.with_note [], error 400 "Invalid author")).
Proof.
  split.
  - apply post_note_rejects. right; left. apply absent_missing. reflexivity.
  - apply post_note_rejects. right; right; right; right.
    intros u Hu. apply list_elem_of_singleton in Hu. subst u. reflexivity.
Defined.

(** ** PUT and DELETE /api/notes/:id: who may *)

(** C4. For the note that the id designates, a PUT or a DELETE whose authorId
    is not the note's ([!==]) and whose forceDev flag is not set is answered
    403, and the document stays as it was. *)
Theorem note_change_forbidden (s : store) (id : string) (i : nat) (note : obj) :
  designates id (communityNotes s) i note ->
  (forall body : obj,
      strict_eq (get note "authorId") (get body "authorId") = false ->
      truthy (get body "forceDev") = false ->
      put_note s id body = (s, error 403 "Not allowed"))
  /\ (forall body : option obj,
         strict_eq (get note "authorId") (get (default ∅ body) "authorId") = false ->
         truthy (get (default ∅ body) "forceDev") = false ->
         delete_note s id body = (s, error 403 "Not allowed")).
Proof.
  intros Hd. apply find_designates in Hd. split; intros body Hne Hdev.
  - unfold put_note. now rewrite Hd, Hne, Hdev.
  - unfold delete_note. now rewrite Hd, Hne, Hdev.
Qed.

Lemma note_change_forbidden_witness :
  put_note (Examples.with_note []) "n1" (object [("title", VStr "Mine"); ("authorId", VStr "u2")])
  = (Examples.with_note [], error 403 "Not allowed")
  /\ delete_note (Examples.with_note []) "n1" None
     = (Examples.with_note [], error 403 "Not allowed").
Proof.
  assert (Hd : designates "n1" (communityNotes (Examples.with_note [])) 0 (Examples.note_by [])).
  { apply designates_here. reflexivity. }
  destruct (note_change_forbidden (Examples.with_note []) "n1" 0 (Examples.note_by []) Hd)
    as [Hput Hdel].
  split.
  - apply Hput; reflexivity.
  - apply Hdel; reflexivity.
Defined.

(** ** GET /api/data *)

Lemma public_user_fields (u : obj) :
  exists o, public_user u = VObj o
            /\ o !! "id" = Some (get u "id") /\ o !! "name" = Some (get u "name")
            /\ o !! "email" = Some (get u "email")
            /\ forall k, k <> "id" -> k <> "name" -> k <> "email" -> o !! k = None.
Proof.
  eexists. split; [reflexivity|]. repeat split; try reflexivity.
  intros k H1 H2 H3. unfold object. simpl.
  rewrite !lookup_insert_ne by congruence. apply lookup_empty.
Qed.

(** C9. GET /api/data answers, in every state of the document and without
    changing it, an object that holds the courses, the community notes and
    the analytics as they are stored, the users, and nothing else; the users
    are one record per stored user, in order, that holds the user's id, name
    and email and nothing else: no record has a password property, whatever
    password is stored. *)
Theorem get_data_strips_passwords (s : store) :
  exists (resp : obj) (us : list value),
    get_data s = (s, Respond 200 (VObj resp))
    /\ dom resp = {["courses"; "communityNotes"; "users"; "analytics"]}
    /\ resp !! "courses" = Some (VArr (VObj <$> courses s))
    /\ resp !! "communityNotes" = Some (VArr (VObj <$> communityNotes s))
    /\ resp !! "analytics" = Some (analytics s)
    /\ resp !! "users" = Some (VArr us)
    /\ length us = length (users s)
    /\ forall i u, users s !! i = Some u ->
         exists o, us !! i = Some (VObj o)
                   /\ dom o = {["id"; "name"; "email"]}
                   /\ o !! "password" = None
                   /\ o !! "id" = Some (default VUndefined (u !! "id"))
                   /\ o !! "name" = Some (default VUndefined (u !! "name"))
                   /\ o !! "email" = Some (default VUndefined (u !! "email")).
Proof.
  eexists. exists (public_user <$> users s).
  split; [reflexivity|]. split.
  { unfold object. simpl. rewrite !dom_insert_L. set_solver. }
  repeat (split; [reflexivity|]).
  split; [apply length_fmap|].
  intros i u Hu. destruct (public_user_fields u) as (o & Ho & Hid & Hname & Hemail & Hrest).
  exists o. rewrite list_lookup_fmap, Hu. simpl. rewrite Ho.
  split; [reflexivity|]. split.
  { injection Ho as <-. unfold object. simpl. rewrite !dom_insert_L. set_solver. }
  split; [apply Hrest; discriminate|]. auto.
Qed.

Lemma get_data_strips_passwords_witness :
  exists (resp : obj) (us : list value) (o : obj),
    get_data (Examples.with_note []) = (Examples.with_note [], Respond 200 (VObj resp))
    /\ resp !! "users" = Some (VArr us) /\ length us = 1
    /\ us !! 0 = Some (VObj o)
    /\ dom o = {["id"; "name"; "email"]}
    /\ o !! "password" = None
    /\ o !! "id" = Some (VStr "u1") /\ o !! "name" = Some (VStr "A")
    /\ o !! "email" = Some (VStr "a@b.com").
Proof.
  destruct (get_data_strips_passwords (Examples.with_note []))
    as (resp & us & Hget & _ & _ & _ & _ & Hus & Hlen & Hrec).
  destruct (Hrec 0 Examples.alice eq_refl) as (o & Ho & Hdom & Hpw & Hid & Hname & Hemail).
  exists resp, us, o. repeat (split; [assumption|]). exact Hemail.
Defined.

(** ** PUT /api/courses/:id *)

Lemma assign_lookup (target source : obj) (k : string) :
  k <> "__proto__" -> assign target source !! k = from_option Some (target !! k) (source !! k).
Proof.
  intros Hk. unfold assign.
  destruct (target !! "__proto__"); rewrite lookup_union, ?lookup_delete_ne by congruence;
    destruct (source !! k), (target !! k); reflexivity.
Qed.

Lemma assign_proto (target source : obj) :
  assign target source !! "__proto__"
  = match target !! "__proto__" with
    | Some v => Some (default v (source !! "__proto__"))
    | None => None
    end.
Proof.
  unfold assign. destruct (target !! "__proto__") as [v|] eqn:Ht.
  - rewrite lookup_union, Ht. now destruct (source !! "__proto__").
  - now rewrite lookup_union, lookup_delete_eq, Ht.
Qed.

(** C7, amended. For the course that the id designates and any body, PUT
    /api/courses/:id puts every property of the body, [id] among them but
    [__proto__] apart, on the stored course, keeps the course's other
    properties, leaves the result in the course's place (and the rest of the
    document as it was) and answers it.  A property [__proto__] of the body
    is put on a course that has an own property of that name, and on no
    other.  When no course has the id the answer is 404 and the document is
    left as it was. *)
Theorem put_course_merges (s : store) (id : string) (body : obj) :
  (forall i course,
      designates id (courses s) i course ->
      exists course' : obj,
        snd (put_course s id body) = Respond 200 (VObj course')
        /\ courses (fst (put_course s id body)) = <[i := course']> (courses s)
        /\ courses (fst (put_course s id body)) !! i = Some course'
        /\ users (fst (put_course s id body)) = users s
        /\ communityNotes (fst (put_course s id body)) = communityNotes s
        /\ analytics (fst (put_course s id body)) = analytics s
        /\ (forall k v, k <> "__proto__" -> body !! k = Some v -> course' !! k = Some v)
        /\ (forall k, k <> "__proto__" -> body !! k = None -> course' !! k = course !! k)
        /\ (course !! "__proto__" = None -> course' !! "__proto__" = None)
        /\ (forall v, course !! "__proto__" = Some v ->
             course' !! "__proto__" = Some (default v (body !! "__proto__"))))
  /\ (unknown id (courses s) -> put_course s id body = (s, error 404 "Not found")).
Proof.
  split.
  - intros i course Hd. pose proof Hd as (Hi & _). apply find_designates in Hd.
    exists (assign course body). unfold put_course. rewrite Hd. simpl.
    split; [reflexivity|]. split; [reflexivity|]. split.
    { apply list_lookup_insert_eq. apply lookup_lt_is_Some. eauto. }
    repeat (split; [reflexivity|]). split; [|split; [|split]].
    + intros k v Hk Hb. now rewrite assign_lookup, Hb.
    + intros k Hk Hb. now rewrite assign_lookup, Hb.
    + intros Hc. now rewrite assign_proto, Hc.
    + intros v Hc. now rewrite assign_proto, Hc.
  - intros Hu. apply find_unknown in Hu. unfold put_course. now rewrite Hu.
Qed.

Lemma put_course_merges_witness :
  (exists course' : obj,
      snd (put_course (Examples.with_note []) "c2"
             (object [("id", VStr "c9"); ("title", VStr "AP Physics 2")]))
      = Respond 200 (VObj course')
      /\ courses (fst (put_course (Examples.with_note []) "c2"
                        (object [("id", VStr "c9"); ("title", VStr "AP Physics 2")]))) !! 1
         = Some course'
      /\ course' !! "id" = Some (VStr "c9")
      /\ course' !! "title" = Some (VStr "AP Physics 2")
      /\ course' !! "description" = Some (VStr "Mechanics & waves")
      /\ course' !! "__proto__" = None)
  /\ put_course (Examples.with_note []) "c7" ∅ = (Examples.with_note [], error 404 "Not found").
Proof.
  destruct (put_course_merges (Examples.with_note []) "c2"
              (object [("id", VStr "c9"); ("title", VStr "AP Physics 2")])) as [Hfound _].
  destruct (put_course_merges (Examples.with_note []) "c7" ∅) as [_ Hnone].
  split.
  - destruct (Hfound 1 (default_courses !!! 1))
      as (course' & Hput & _ & Hat & _ & _ & _ & Hin & Hout & Hproto & _).
    + apply designates_later; [vm_compute; discriminate|].
      apply designates_here. reflexivity.
    + exists course'. split; [exact Hput|]. split; [exact Hat|]. split; [|split; [|split]].
      * apply Hin; [discriminate|reflexivity].
      * apply Hin; [discriminate|reflexivity].
      * rewrite Hout; [reflexivity|discriminate|reflexivity].
      * apply Hproto. reflexivity.
  - apply Hnone.
    repeat (apply unknown_cons; [vm_compute; discriminate|]). apply unknown_nil.
Defined.

(** C7 as stated fails on a body with a property [__proto__]: the answered
    and stored course takes the body's title and not the body's [__proto__]. *)
Lemma put_course_leaves_proto_out :
  object [("__proto__", VObj (object [("admin", VBool true)])); ("title", VStr "Waves")]
  !! "__proto__" = Some (VObj (object [("admin", VBool true)]))
  /\ exists course' : obj,
       snd (put_course (Examples.with_note []) "c2"
              (object [("__proto__", VObj (object [("admin", VBool true)]));
                       ("title", VStr "Waves")]))
       = Respond 200 (VObj course')
       /\ courses (fst (put_course (Examples.with_note []) "c2"
                         (object [("__proto__", VObj (object [("admin", VBool true)]));
                                  ("title", VStr "Waves")]))) !! 1
          = Some course'
       /\ course' !! "title" = Some (VStr "Waves")
       /\ course' !! "__proto__" = None.
Proof.
  split; [reflexivity|]. eexists. repeat split; reflexivity.
Qed.

(** ** PUT /api/notes/:id *)

Lemma edited_title (body note : obj) :
  (present body "title" -> get (edited body note) "title" = get body "title")
  /\ (missing body "title" -> edited body note !! "title" = note !! "title").
Proof.
  unfold present, missing, edited, get. split; intros ->.
  - destruct (truthy _); [rewrite lookup_insert_ne by discriminate|];
      now rewrite lookup_insert_eq.
  - destruct (truthy _); [rewrite lookup_insert_ne by discriminate|]; reflexivity.
Qed.

Lemma edited_content (body note : obj) :
  (present body "content" -> get (edited body note) "content" = get body "content")
  /\ (missing body "content" -> edited body note !! "content" = note !! "content").
Proof.
  unfold present, missing, edited, get. split; intros ->.
  - now rewrite lookup_insert_eq.
  - destruct (truthy _); [rewrite lookup_insert_ne by discriminate|]; reflexivity.
Qed.

Lemma edited_other (body note : obj) (k : string) :
  k <> "title" -> k <> "content" -> edited body note !! k = note !! k.
Proof.
  intros H1 H2. unfold edited.
  destruct (truthy (get body "title")), (truthy (get body "content"));
    rewrite ?lookup_insert_ne by congruence; reflexivity.
Qed.

Lemma put_note_allowed (s : store) (id : string) (body : obj) (i : nat) (note : obj) :
  designates id (communityNotes s) i note ->
  strict_eq (get note "authorId") (get body "authorId") = true
  \/ truthy (get body "forceDev") = true ->
  put_note s id body
  = (with_notes (<[i := edited body note]> (communityNotes s)) s,
     Respond 200 (VObj (edited body note))).
Proof.
  intros Hd Hok. apply find_designates in Hd. unfold put_note. rewrite Hd.
  destruct Hok as [-> | ->]; simpl; rewrite ?andb_false_r; reflexivity.
Qed.

(** C8. For the note that the id designates, a PUT /api/notes/:id that
    passes the check (the body's authorId is the note's, or forceDev is set)
    puts the body's title on the note when one is provided, and the body's
    content when one is provided, keeps each of the two when none is, leaves
    the note in its place in the document and answers it; when no note has
    the id the answer is 404.  (Provided is what the handler tests,
    [if (title)]: there and not falsy.) *)
Theorem put_note_overwrites (s : store) (id : string) (body : obj) :
  (forall i note,
      designates id (communityNotes s) i note ->
      strict_eq (get note "authorId") (get body "authorId") = true
      \/ truthy (get body "forceDev") = true ->
      exists note' : obj,
        snd (put_note s id body) = Respond 200 (VObj note')
        /\ communityNotes (fst (put_note s id body)) = <[i := note']> (communityNotes s)
        /\ communityNotes (fst (put_note s id body)) !! i = Some note'
        /\ (present body "title" -> note' !! "title" = body !! "title")
        /\ (missing body "title" -> note' !! "title" = note !! "title")
        /\ (present body "content" -> note' !! "content" = body !! "content")
        /\ (missing body "content" -> note' !! "content" = note !! "content"))
  /\ (unknown id (communityNotes s) ->
      put_note s id body = (s, error 404 "Note not found")).
Proof.
  assert (Hp : forall k, present body k -> Some (get body k) = body !! k).
  { unfold present, get. intros k. now destruct (body !! k). }
  split.
  - intros i note Hd Hok. exists (edited body note).
    rewrite (put_note_allowed s id body i note Hd Hok). simpl.
    split; [reflexivity|]. split; [reflexivity|]. split.
    { apply list_lookup_insert_eq. apply lookup_lt_is_Some. destruct Hd as [Hd _]. eauto. }
    destruct (edited_title body note) as [Ht Ht'], (edited_content body note) as [Hc Hc'].
    repeat split; auto.
    + intros H. rewrite <- (Hp _ H). unfold present, edited in *. rewrite H.
      destruct (truthy (get body "content")); [rewrite lookup_insert_ne by discriminate|];
        now rewrite lookup_insert_eq.
    + intros H. rewrite <- (Hp _ H). unfold present, edited in *. rewrite H.
      now rewrite lookup_insert_eq.
  - intros Hu. apply find_unknown in Hu. unfold put_note. now rewrite Hu.
Qed.

Lemma put_note_overwrites_witness :
  (exists note' : obj,
      snd (put_note (Examples.with_note []) "n1"
             (object [("title", VStr "Series"); ("authorId", VStr "u1")]))
      = Respond 200 (VObj note')
      /\ communityNotes (fst (put_note (Examples.with_note []) "n1"
                               (object [("title", VStr "Series"); ("authorId", VStr "u1")])))
         = [note']
      /\ note' !! "title" = Some (VStr "Series")
      /\ note' !! "content" = Some (VStr "Epsilon and delta"))
  /\ put_note (Examples.with_note []) "n7" ∅ = (Examples.with_note [], error 404 "Note not found").
Proof.
  destruct (put_note_overwrites (Examples.with_note []) "n1"
              (object [("title", VStr "Series"); ("authorId", VStr "u1")])) as [Hfound _].
  destruct (put_note_overwrites (Examples.with_note []) "n7" ∅) as [_ Hnone].
  split.
  - destruct (Hfound 0 (Examples.note_by [])) as (note' & Hput & Hin & _ & Ht & _ & _ & Hc).
    + apply designates_here. reflexivity.
    + left. reflexivity.
    + exists note'. split; [exact Hput|]. split; [exact Hin|]. split.
      * rewrite Ht; reflexivity.
      * rewrite Hc; reflexivity.
  - apply Hnone. apply unknown_cons; [vm_compute; discriminate|]. apply unknown_nil.
Defined.

(** C10. A PUT /api/notes/:id that succeeds changes the note that the id
    designates in no property but title and content (so id, courseId, author,
    authorId, createdAt, downloads, ratings and averageRating stay), and
    changes no other note, no course, no user and not the analytics. *)
Theorem put_note_frame (s s' : store) (id : string) (body : obj) (resp : value) :
  put_note s id body = (s', Respond 200 resp) ->
  exists i note note',
    designates id (communityNotes s) i note
    /\ communityNotes s' = <[i := note']> (communityNotes s)
    /\ (forall k, k <> "title" -> k <> "content" -> note' !! k = note !! k)
    /\ (forall j, j <> i -> communityNotes s' !! j = communityNotes s !! j)
    /\ length (communityNotes s') = length (communityNotes s)
    /\ courses s' = courses s /\ users s' = users s /\ analytics s' = analytics s.
Proof.
  unfold put_note. intros H.
  destruct (find_first _ _) as [[i note]|] eqn:Hf; [|discriminate].
  apply find_designates in Hf.
  destruct (_ && _); [discriminate|].
  injection H as <- _. fold (edited body note).
  exists i, note, (edited body note). split; [exact Hf|]. split; [reflexivity|]. split.
  - intros k. apply edited_other.
  - split; [|split; [apply length_insert|repeat split]].
    intros j Hj. simpl. now apply list_lookup_insert_ne.
Qed.

Lemma put_note_frame_witness :
  exists i note note',
    designates "n1" (communityNotes (Examples.with_note [])) i note
    /\ communityNotes (fst (put_note (Examples.with_note []) "n1" Examples.edit_body))
       = <[i := note']> (communityNotes (Examples.with_note []))
    /\ (forall k, k <> "title" -> k <> "content" -> note' !! k = note !! k)
    /\ (forall j, j <> i ->
        communityNotes (fst (put_note (Examples.with_note []) "n1" Examples.edit_body)) !! j
        = communityNotes (Examples.with_note []) !! j)
    /\ length (communityNotes (fst (put_note (Examples.with_note []) "n1" Examples.edit_body)))
       = length (communityNotes (Examples.with_note []))
    /\ courses (fst (put_note (Examples.with_note []) "n1" Examples.edit_body))
       = courses (Examples.with_note [])
    /\ users (fst (put_note (Examples.with_note []) "n1" Examples.edit_body))
       = users (Examples.with_note [])
    /\ analytics (fst (put_note (Examples.with_note []) "n1" Examples.edit_body))
       = analytics (Examples.with_note []).
Proof.
  apply (put_note_frame (Examples.with_note []) _ "n1" Examples.edit_body
           (VObj (edited Examples.edit_body (Examples.note_by [])))).
  reflexivity.
Defined.

(** ** POST /api/auth/signup *)

Lemma signup_new (fresh now : string) (s : store) (body : obj) :
  present body "email" -> present body "password" -> present body "name" ->
  (forall u, u ∈ users s -> strict_eq (get u "email") (get body "email") = false) ->
  signup fresh now s body
  = (with_users (users s ++ [object [("id", VStr fresh); ("email", get body "email");
                                      ("password", get body "password");
                                      ("name", get body "name"); ("createdAt", VStr now)]]) s,
     Respond 200 (VObj (object [("id", VStr fresh); ("email", get body "email");
                                ("name", get body "name")]))).
Proof.
  unfold present, signup. intros -> -> -> Hnew. simpl.
  apply find_first_None in Hnew. unfold has at 1. now rewrite Hnew.
Qed.

Lemma signup_taken (fresh now : string) (s : store) (body : obj) :
  present body "email" -> present body "password" -> present body "name" ->
  (exists u, u ∈ users s /\ strict_eq (get u "email") (get body "email") = true) ->
  signup fresh now s body = (s, error 400 "Email exists").
Proof.
  unfold present, signup. intros -> -> -> (u & Hu & He). simpl.
  destruct (find_first _ _) as [[i x]|] eqn:Hf; [reflexivity|].
  apply find_first_None with (x := u) in Hf; [|exact Hu].
  unfold has in Hf. congruence.
Qed.

Lemma emails_unique_snoc (us : list obj) (u : obj) :
  emails_unique us ->
  (forall x, x ∈ us -> strict_eq (get x "email") (get u "email") = false) ->
  emails_unique (us ++ [u]).
Proof.
  intros Hus Hnew.
  assert (Hlast : forall i x, i < length us -> (us ++ [u]) !! i = Some x -> x ∈ us).
  { intros i x Hi Hx. rewrite lookup_app_l in Hx by lia. apply list_elem_of_lookup. eauto. }
  assert (Hend : forall i x, ~ i < length us -> (us ++ [u]) !! i = Some x ->
                             i = length us /\ x = u).
  { intros i x Hi Hx.
    assert (Hlt : i < length (us ++ [u])) by (apply lookup_lt_is_Some; eauto).
    rewrite length_app in Hlt. simpl in Hlt. assert (i = length us) as -> by lia.
    rewrite list_lookup_middle in Hx by reflexivity. now injection Hx as <-. }
  intros i j ui uj Hij Hi Hj Ht.
  destruct (decide (i < length us)) as [Hil|Hil], (decide (j < length us)) as [Hjl|Hjl].
  - rewrite lookup_app_l in Hi, Hj by lia. now apply (Hus i j).
  - destruct (Hend j uj Hjl Hj) as [_ ->]. apply Hnew. now apply (Hlast i).
  - destruct (Hend i ui Hil Hi) as [_ ->]. apply strict_eq_sym_false, Hnew.
    now apply (Hlast j).
  - destruct (Hend i ui Hil Hi) as [-> _], (Hend j uj Hjl Hj) as [-> _]. congruence.
Qed.

Lemma emails_unique_strings (us : list obj) :
  emails_unique us ->
  forall i j ui uj e,
    i <> j -> us !! i = Some ui -> us !! j = Some uj -> e <> EmptyString ->
    ui !! "email" = Some (VStr e) -> uj !! "email" <> Some (VStr e).
Proof.
  intros Hus i j ui uj e Hij Hi Hj He Hei Hej.
  specialize (Hus i j ui uj Hij Hi Hj). unfold get in Hus. rewrite Hei, Hej in Hus.
  simpl in Hus. rewrite String.eqb_refl in Hus.
  destruct (String.eqb_spec e ""); [contradiction|]. now specialize (Hus eq_refl).
Qed.

Lemma signup_keeps_emails_unique (fresh now : string) (s : store) (body : obj) :
  emails_unique (users s) -> emails_unique (users (fst (signup fresh now s body))).
Proof.
  intros Hs. unfold signup.
  destruct (_ || _); [exact Hs|].
  destruct (find_first _ _) as [[i x]|] eqn:Hf; [exact Hs|].
  simpl. apply emails_unique_snoc; [exact Hs|].
  intros x Hx. now apply (proj1 (find_first_None _ _) Hf).
Qed.

(** Only a signup changes the users. *)
Lemma handle_keeps_users (s : store) (r : request) :
  (forall fresh now body, r <> Signup fresh now body) -> users (fst (handle s r)) = users s.
Proof.
  intros Hr. destruct r; simpl;
    try (unfold get_data, post_course, put_course, get_course, post_note, put_note,
           delete_note, rate, login;
         split_branches; reflexivity).
  now destruct (Hr fresh now body).
Qed.

(** Emails that differ in the document differ in the file. *)
Lemma emails_unique_written (us : list obj) :
  emails_unique us -> emails_unique (json_obj <$> us).
Proof.
  intros Hus i j ui uj Hij Hi Hj Ht. rewrite list_lookup_fmap in Hi, Hj.
  destruct (us !! i) as [x|] eqn:Hx; [|discriminate]. injection Hi as <-.
  destruct (us !! j) as [y|] eqn:Hy; [|discriminate]. injection Hj as <-.
  rewrite !get_json_obj in *.
  destruct (strict_eq (read_back (get x "email")) (read_back (get y "email"))) eqn:E;
    [|reflexivity].
  rewrite <- (Hus i j x y Hij Hx Hy (read_back_truthy _ Ht)).
  symmetry. now apply read_back_strict_eq.
Qed.

Lemma handle_keeps_emails_unique (s : store) (r : request) :
  emails_unique (users s) -> emails_unique (users (written (fst (handle s r)))).
Proof.
  intros Hs. simpl. apply emails_unique_written.
  destruct r; try (rewrite handle_keeps_users by discriminate; exact Hs).
  now apply signup_keeps_emails_unique.
Qed.

Lemma run_keeps_emails_unique (rs : list request) (s : store) :
  emails_unique (users s) -> emails_unique (users (run s rs)).
Proof.
  revert s. induction rs as [|r rs IH]; intros s Hs; [exact Hs|].
  unfold run. simpl. apply IH. now apply handle_keeps_emails_unique.
Qed.

Lemma present_lookup (body : obj) (k : string) :
  present body k -> Some (get body k) = body !! k.
Proof. unfold present, get. now destruct (body !! k). Qed.

(** C5, amended. A signup whose email, password and name are present and
    whose email no user has yet appends the user, with the body's email,
    password and name, and answers its id, email and name and nothing else
    (no password); a signup after it with an email that is the same as the
    file has kept it, and a signup with an email that a user already has,
    are answered 400 with [{error: "Email exists"}] and append nothing.  So
    the emails of the users, once different, stay different through every
    sequence of requests, and are different after every sequence that starts
    from the document [initDb] makes: no two users then have the same string
    as email.  (An email is present when the handler's test [!email] fails;
    two emails are the same when [===] says so, and the emails that are said
    to differ are the truthy ones: the file keeps an email that is no finite
    number, such as 1e400, as [null].) *)
Theorem signup_emails_unique (fresh now : string) (s : store) (body : obj) :
  (present body "email" -> present body "password" -> present body "name" ->
   ((forall u, u ∈ users s -> strict_eq (get u "email") (get body "email") = false) ->
    exists user resp : obj,
      snd (signup fresh now s body) = Respond 200 (VObj resp)
      /\ users (fst (signup fresh now s body)) = users s ++ [user]
      /\ courses (fst (signup fresh now s body)) = courses s
      /\ communityNotes (fst (signup fresh now s body)) = communityNotes s
      /\ analytics (fst (signup fresh now s body)) = analytics s
      /\ dom user = {["id"; "email"; "password"; "name"; "createdAt"]}
      /\ user !! "id" = Some (VStr fresh) /\ user !! "email" = body !! "email"
      /\ user !! "password" = body !! "password" /\ user !! "name" = body !! "name"
      /\ user !! "createdAt" = Some (VStr now)
      /\ dom resp = {["id"; "email"; "name"]}
      /\ resp !! "id" = Some (VStr fresh) /\ resp !! "email" = body !! "email"
      /\ resp !! "name" = body !! "name" /\ resp !! "password" = None
      /\ forall fresh' now' body',
           present body' "email" -> present body' "password" -> present body' "name" ->
           strict_eq (read_back (get body "email")) (get body' "email") = true ->
           signup fresh' now' (written (fst (signup fresh now s body))) body'
           = (written (fst (signup fresh now s body)), error 400 "Email exists"))
   /\ ((exists u, u ∈ users s /\ strict_eq (get u "email") (get body "email") = true) ->
       signup fresh now s body = (s, error 400 "Email exists")))
  /\ (forall rs, emails_unique (users s) -> emails_unique (users (run s rs)))
  /\ (forall rs, emails_unique (users (run (initDb None) rs)))
  /\ (forall rs i j ui uj e,
         i <> j ->
         users (run (initDb None) rs) !! i = Some ui ->
         users (run (initDb None) rs) !! j = Some uj ->
         e <> EmptyString ->
         ui !! "email" = Some (VStr e) -> uj !! "email" <> Some (VStr e)).
Proof.
  assert (Hinit : forall rs, emails_unique (users (run (initDb None) rs))).
  { intros rs. apply run_keeps_emails_unique. intros i j ui uj _ Hi. discriminate. }
  split; [|split; [|split]].
  - intros He Hp Hn. split.
    + intros Hnew. rewrite (signup_new fresh now s body He Hp Hn Hnew).
      eexists _, _. simpl.
      do 16 (split; [first [ reflexivity | now apply present_lookup
                           | unfold object; simpl; rewrite !dom_insert_L; set_solver ]|]).
      intros fresh' now' body' He' Hp' Hn' Hsame. apply signup_taken; auto.
      eexists. split.
      * simpl. rewrite fmap_app. apply elem_of_app. right.
        apply list_elem_of_singleton. reflexivity.
      * rewrite get_json_obj. exact Hsame.
    + now apply signup_taken.
  - intros rs. apply run_keeps_emails_unique.
  - exact Hinit.
  - intros rs. apply emails_unique_strings, Hinit.
Qed.

Lemma signup_emails_unique_witness :
  (exists user resp : obj,
      snd (signup "u1" "2024-01-01T00:00:00.000Z" (initDb None) Examples.signup_body)
      = Respond 200 (VObj resp)
      /\ users (fst (signup "u1" "2024-01-01T00:00:00.000Z" (initDb None)
                       Examples.signup_body)) = [user]
      /\ user !! "id" = Some (VStr "u1") /\ user !! "email" = Some (VStr "a@b.com")
      /\ user !! "password" = Some (VStr "x") /\ user !! "name" = Some (VStr "A")
      /\ resp !! "id" = Some (VStr "u1") /\ resp !! "email" = Some (VStr "a@b.com")
      /\ resp !! "name" = Some (VStr "A") /\ resp !! "password" = None
      /\ snd (signup "u2" "2024-01-05T00:00:00.000Z"
                (written (fst (signup "u1" "2024-01-01T00:00:00.000Z" (initDb None)
                                 Examples.signup_body)))
                Examples.signup_body)
         = error 400 "Email exists")
  /\ signup "u2" "2024-01-05T00:00:00.000Z" (with_users [Examples.alice] (initDb None))
       Examples.signup_body
     = (with_users [Examples.alice] (initDb None), error 400 "Email exists").
Proof.
  destruct (signup_emails_unique "u1" "2024-01-01T00:00:00.000Z" (initDb None)
              Examples.signup_body) as [H1 _].
  destruct (signup_emails_unique "u2" "2024-01-05T00:00:00.000Z"
              (with_users [Examples.alice] (initDb None)) Examples.signup_body) as [H2 _].
  split.
  - destruct H1 as [H1 _]; try reflexivity.
    destruct H1 as (user & resp & Hresp & Hus & _ & _ & _ & _ & Hid & Hem & Hpw & Hna & _ & _
                    & Hrid & Hrem & Hrna & Hrpw & Hagain).
    { intros u Hu. now apply elem_of_nil in Hu. }
    exists user, resp. repeat (split; [assumption|]).
    rewrite (Hagain "u2" "2024-01-05T00:00:00.000Z" Examples.signup_body); reflexivity.
  - apply H2; try reflexivity. exists Examples.alice. split; [|reflexivity].
    apply list_elem_of_singleton. reflexivity.
Defined.

(** C5 as stated fails on an email that the file does not keep: 1e400 reads
    as infinity, is written as [null], and is accepted again; the two users
    then have the same email, [null]. *)
Lemma signup_infinity_twice :
  snd (signup "u1" "2024-01-01T00:00:00.000Z" (initDb None)
         (object [("email", VNum infinity); ("password", VStr "x"); ("name", VStr "A")]))
  = Respond 200 (VObj (object [("id", VStr "u1"); ("email", VNum infinity);
                               ("name", VStr "A")]))
  /\ snd (signup "u2" "2024-01-05T00:00:00.000Z"
            (written (fst (signup "u1" "2024-01-01T00:00:00.000Z" (initDb None)
                             (object [("email", VNum infinity); ("password", VStr "x");
                                      ("name", VStr "A")]))))
            (object [("email", VNum infinity); ("password", VStr "x"); ("name", VStr "A")]))
     = Respond 200 (VObj (object [("id", VStr "u2"); ("email", VNum infinity);
                                  ("name", VStr "A")]))
  /\ (fun u : obj => u !! "email")
     <$> users (run (initDb None)
                  [Signup "u1" "2024-01-01T00:00:00.000Z"
                     (object [("email", VNum infinity); ("password", VStr "x");
                              ("name", VStr "A")]);
                   Signup "u2" "2024-01-05T00:00:00.000Z"
                     (object [("email", VNum infinity); ("password", VStr "x");
                              ("name", VStr "A")])])
     = [Some VNull; Some VNull]
  /\ strict_eq VNull VNull = true.
Proof. repeat split; reflexivity. Qed.

(** ** POST /api/notes/:id/rate *)

Lemma find_rating_spec (userId : value) (rs : list value) (k : nat) :
  match find_rating userId k rs with
  | FindThrows => exists r, r ∈ rs /\ get_field r "userId" = None
  | Missing =>
      forall r, r ∈ rs -> exists u, get_field r "userId" = Some u /\ strict_eq u userId = false
  | Existing i r =>
      exists j u, i = k + j /\ rs !! j = Some r
                  /\ get_field r "userId" = Some u /\ strict_eq u userId = true
                  /\ forall j' r', j' < j -> rs !! j' = Some r' ->
                       exists u', get_field r' "userId" = Some u' /\ strict_eq u' userId = false
  end.
Proof.
  revert k. induction rs as [|r rs IH]; intros k; simpl.
  - intros r Hr. now apply elem_of_nil in Hr.
  - destruct (get_field r "userId") as [u|] eqn:Hu.
    + destruct (strict_eq u userId) eqn:He.
      * exists 0, u. repeat split; auto; try lia.
      * specialize (IH (S k)). destruct (find_rating userId (S k) rs) as [i x| |].
        -- destruct IH as (j & u' & -> & Hj & Hu' & He' & Hfirst).
           exists (S j), u'. repeat split; auto; try lia.
           intros [|j'] r' Hj' Hr'; simpl in Hr'.
           ++ injection Hr' as <-. eauto.
           ++ apply (Hfirst j'); [lia | exact Hr'].
        -- intros x Hx. apply elem_of_cons in Hx as [->|Hx]; eauto.
        -- destruct IH as (x & Hx & Hnone). exists x. split; [now right | exact Hnone].
    + exists r. split; [now left | exact Hu].
Qed.

Lemma get_field_object (r : value) (k : string) (u : value) :
  get_field r k = Some u -> u <> VUndefined -> exists o, r = VObj o /\ get o k = u.
Proof.
  destruct r; simpl; intros H Hu; try discriminate; try (injection H as <-; congruence).
  injection H as <-. eauto.
Qed.

Lemma get_field_set_rating (rating r : value) (k : string) :
  k <> "rating" -> get_field (set_rating rating r) k = get_field r k.
Proof.
  intros Hk. destruct r; simpl; try reflexivity.
  unfold get. now rewrite lookup_insert_ne by congruence.
Qed.

Lemma get_field_entry (userId rating : value) :
  get_field (VObj (object [("userId", userId); ("rating", rating)])) "userId" = Some userId
  /\ get_field (VObj (object [("userId", userId); ("rating", rating)])) "rating" = Some rating.
Proof. split; reflexivity. Qed.

(** What [upsert] does when it does not throw: it rewrites the rating of the
    user's entry where it is, or appends an entry when the user has none. *)
Lemma upsert_cases (userId rating : value) (rs rs' : list value) :
  truthy userId = true ->
  upsert userId rating rs = Some rs' ->
  (exists k o u, rs !! k = Some (VObj o) /\ get o "userId" = u /\ strict_eq u userId = true
                 /\ rs' = <[k := VObj (<["rating" := rating]> o)]> rs
                 /\ forall j r, j < k -> rs !! j = Some r ->
                      exists u', get_field r "userId" = Some u' /\ strict_eq u' userId = false)
  \/ ((forall r, r ∈ rs -> exists u, get_field r "userId" = Some u /\ strict_eq u userId = false)
      /\ rs' = rs ++ [VObj (object [("userId", userId); ("rating", rating)])]).
Proof.
  intros Ht. unfold upsert. pose proof (find_rating_spec userId rs 0) as Hspec.
  destruct (find_rating userId 0 rs) as [i r| |]; [| |discriminate].
  - destruct Hspec as (j & u & -> & Hj & Hu & He & Hfirst). simpl.
    destruct (get_field_object r "userId" u Hu (strict_eq_truthy _ _ He Ht)) as (o & -> & Ho).
    simpl. intros H. injection H as <-. left. exists j, o, u. repeat split; auto.
  - intros H. injection H as <-. right. split; [exact Hspec | reflexivity].
Qed.

Lemma upsert_keeps_one_entry (userId rating : value) (rs rs' : list value) :
  truthy userId = true -> upsert userId rating rs = Some rs' ->
  one_entry_per_user rs -> one_entry_per_user rs'.
Proof.
  intros Ht Hup Hrs.
  destruct (upsert_cases _ _ _ _ Ht Hup) as [(k & o & u & Hk & Ho & He & -> & _)|[Hnone ->]].
  - assert (Hsame : forall i r, <[k := VObj (<["rating" := rating]> o)]> rs !! i = Some r ->
                      exists r0, rs !! i = Some r0
                                 /\ get_field r "userId" = get_field r0 "userId").
    { intros i r Hi. destruct (decide (i = k)) as [->|Hne].
      - rewrite list_lookup_insert_eq in Hi by (apply lookup_lt_is_Some; eauto).
        injection Hi as <-. exists (VObj o). split; [exact Hk|].
        apply (get_field_set_rating rating (VObj o)). discriminate.
      - rewrite list_lookup_insert_ne in Hi by congruence. eauto. }
    intros i j ri rj ui uj Hij Hi Hj Hui Huj.
    destruct (Hsame i ri Hi) as (ri0 & Hi0 & Ei). destruct (Hsame j rj Hj) as (rj0 & Hj0 & Ej).
    rewrite Ei in Hui. rewrite Ej in Huj. now apply (Hrs i j ri0 rj0).
  - set (e := VObj (object [("userId", userId); ("rating", rating)])).
    assert (Hold : forall i x, i < length rs -> (rs ++ [e]) !! i = Some x -> x ∈ rs).
    { intros i x Hi Hx. rewrite lookup_app_l in Hx by lia. apply list_elem_of_lookup. eauto. }
    assert (Hend : forall i x, ~ i < length rs -> (rs ++ [e]) !! i = Some x ->
                               i = length rs /\ x = e).
    { intros i x Hi Hx.
      assert (Hlt : i < length (rs ++ [e])) by (apply lookup_lt_is_Some; eauto).
      rewrite length_app in Hlt. simpl in Hlt. assert (i = length rs) as -> by lia.
      rewrite list_lookup_middle in Hx by reflexivity. now injection Hx as <-. }
    intros i j ri rj ui uj Hij Hi Hj Hui Huj Htr.
    destruct (decide (i < length rs)) as [Hil|Hil], (decide (j < length rs)) as [Hjl|Hjl].
    + rewrite lookup_app_l in Hi, Hj by lia. now apply (Hrs i j ri rj).
    + destruct (Hend j rj Hjl Hj) as [_ ->]. unfold e in Huj.
      rewrite (proj1 (get_field_entry userId rating)) in Huj. injection Huj as <-.
      destruct (Hnone ri (Hold i ri Hil Hi)) as (u & Hu & He). congruence.
    + destruct (Hend i ri Hil Hi) as [_ ->]. unfold e in Hui.
      rewrite (proj1 (get_field_entry userId rating)) in Hui. injection Hui as <-.
      destruct (Hnone rj (Hold j rj Hjl Hj)) as (u & Hu & He).
      apply strict_eq_sym_false. congruence.
    + destruct (Hend i ri Hil Hi) as [-> _], (Hend j rj Hjl Hj) as [-> _]. congruence.
Qed.

Lemma js_add_numbers (a x : float) :
  js_add (VNum a) (VNum x) = Some (VNum (PrimFloat.add a x)).
Proof. reflexivity. Qed.

Lemma js_div_numbers (a x : float) : js_div (VNum a) (VNum x) = Some (PrimFloat.div a x).
Proof. reflexivity. Qed.

(** On numbers [reduce] sums them, from the left. *)
Lemma total_from_numbers (rs : list value) (xs : list float) (a : float) :
  rating_values rs xs -> total_from (VNum a) rs = Some (VNum (fold_left PrimFloat.add xs a)).
Proof.
  intros H. revert a. induction H as [|r x rs xs Hr _ IH]; intros a; simpl; [reflexivity|].
  rewrite Hr, js_add_numbers. apply IH.
Qed.

(** [reduce] has thrown on an entry that is [undefined] or [null]. *)
Lemma total_from_Some (rs : list value) (acc : value) :
  is_Some (total_from acc rs) -> forall r, r ∈ rs -> get_field r "rating" <> None.
Proof.
  revert acc. induction rs as [|r rs IH]; intros acc H x Hx; simpl in H.
  - now apply elem_of_nil in Hx.
  - destruct (get_field r "rating") as [y|] eqn:Hy; [|destruct H; discriminate].
    destruct (js_add acc y) as [acc'|]; [|destruct H; discriminate].
    apply elem_of_cons in Hx as [->|Hx]; [congruence|]. now apply (IH acc').
Qed.

Lemma get_field_both (r : value) (k k' : string) :
  get_field r k <> None -> get_field r k' <> None.
Proof. destruct r; simpl; congruence. Qed.

(** What a rating that succeeds has done. *)
Lemma rate_inv (s s' : store) (id : string) (body : obj) (resp : value) :
  rate s id body = (s', Respond 200 resp) ->
  exists i note rs rs' total average,
    designates id (communityNotes s) i note
    /\ truthy (get body "userId") = true /\ truthy (get body "rating") = true
    /\ js_or (get note "ratings") (VArr []) = VArr rs
    /\ upsert (get body "userId") (get body "rating") rs = Some rs'
    /\ total_from (VNum 0) rs' = Some total
    /\ js_div total (VNum (Number.of_nat (length rs'))) = Some average
    /\ s' = with_notes (<[i := rated note rs' average]> (communityNotes s)) s
    /\ resp = VObj (object [("averageRating", VNum average);
                            ("ratingsCount", VNum (Number.of_nat (length rs')))]).
Proof.
  unfold rate. intros H.
  destruct (truthy (get body "userId")) eqn:Hu; [|discriminate].
  destruct (truthy (get body "rating")) eqn:Hr; [|discriminate].
  simpl in H.
  destruct (find_first _ _) as [[i note]|] eqn:Hf; [|discriminate].
  apply find_designates in Hf.
  destruct (js_or _ _) as [| | | | |rs|] eqn:Hrs; try discriminate.
  destruct (upsert _ _ rs) as [rs'|] eqn:Hup; [|discriminate].
  destruct (total_from _ rs') as [total|] eqn:Htot; [|discriminate].
  destruct (js_div total _) as [average|] eqn:Hdiv; [|discriminate].
  injection H as <- <-. exists i, note, rs, rs', total, average.
  split; [exact Hf|]. repeat split; auto.
Qed.

(** When a rating succeeds. *)
Lemma rate_ok (s : store) (id : string) (body : obj) (i : nat) (note : obj)
      (rs rs' : list value) (total : value) (average : float) :
  designates id (communityNotes s) i note ->
  truthy (get body "userId") = true -> truthy (get body "rating") = true ->
  js_or (get note "ratings") (VArr []) = VArr rs ->
  upsert (get body "userId") (get body "rating") rs = Some rs' ->
  total_from (VNum 0) rs' = Some total ->
  js_div total (VNum (Number.of_nat (length rs'))) = Some average ->
  rate s id body
  = (with_notes (<[i := rated note rs' average]> (communityNotes s)) s,
     Respond 200 (VObj (object [("averageRating", VNum average);
                                ("ratingsCount", VNum (Number.of_nat (length rs')))]))).
Proof.
  intros Hd Hu Hr Hrs Hup Htot Hdiv. apply find_designates in Hd.
  unfold rate. rewrite Hu, Hr. simpl. rewrite Hd, Hrs, Hup, Htot, Hdiv. reflexivity.
Qed.

Lemma rated_fields (note : obj) (rs : list value) (average : float) :
  get (rated note rs average) "ratings" = VArr rs
  /\ get (rated note rs average) "averageRating" = VNum average
  /\ get (rated note rs average) "id" = get note "id"
  /\ ratings_of (rated note rs average) = rs.
Proof.
  assert (H : get (rated note rs average) "ratings" = VArr rs).
  { unfold rated, get. rewrite lookup_insert_ne by discriminate.
    now rewrite lookup_insert_eq. }
  split; [exact H|]. split; [|split].
  - unfold rated, get. now rewrite lookup_insert_eq.
  - unfold rated, get. now rewrite !lookup_insert_ne by discriminate.
  - unfold ratings_of. now rewrite H.
Qed.

(** C1, amended. After a rating that succeeds, the note holds the new
    ratings and the new averageRating, in its place in the document; the
    answer holds that averageRating and, as ratingsCount, the length of the
    note's ratings, and nothing else; the answer as it is sent and the note
    as it is written to db.json carry that averageRating when it is a finite
    number, and [null] when it is not.  When the rating values the note then
    holds are numbers, the averageRating is their arithmetic mean (in
    doubles: their sum, added up from 0 in the order of the list, over their
    count). *)
Theorem rate_average_is_mean (s s' : store) (id : string) (body : obj) (resp : value) :
  rate s id body = (s', Respond 200 resp) ->
  exists i note note' rs' (average : float),
    designates id (communityNotes s) i note
    /\ communityNotes s' = <[i := note']> (communityNotes s)
    /\ communityNotes s' !! i = Some note'
    /\ note' !! "ratings" = Some (VArr rs')
    /\ note' !! "averageRating" = Some (VNum average)
    /\ resp = VObj (<["averageRating" := VNum average]>
                      (<["ratingsCount" := VNum (Number.of_nat (length rs'))]> ∅))
    /\ (exists sent : obj,
           json resp = Some (VObj sent)
           /\ sent !! "averageRating" = Some (json_number average))
    /\ (exists stored : obj,
           communityNotes (written s') !! i = Some stored
           /\ stored !! "averageRating" = Some (json_number average))
    /\ ((forall e, e ∈ rs' -> exists x, get_field e "rating" = Some (VNum x)) ->
        is_mean_of_ratings (VNum average) rs').
Proof.
  intros H.
  destruct (rate_inv _ _ _ _ _ H)
    as (i & note & rs & rs' & total & average & Hd & _ & _ & _ & _ & Htot & Hdiv & -> & ->).
  assert (Hat : <[i := rated note rs' average]> (communityNotes s) !! i
                = Some (rated note rs' average)).
  { apply list_lookup_insert_eq. apply lookup_lt_is_Some. destruct Hd as [Hd _]. eauto. }
  exists i, note, (rated note rs' average), rs', average.
  split; [exact Hd|]. split; [reflexivity|]. split; [exact Hat|].
  split. { unfold rated. rewrite lookup_insert_ne by discriminate. apply lookup_insert_eq. }
  split; [apply lookup_insert_eq|]. split; [reflexivity|]. split; [|split].
  - eexists. split; [reflexivity|]. rewrite lookup_omap. unfold object. simpl.
    now rewrite lookup_insert_eq.
  - eexists. simpl. rewrite list_lookup_fmap, Hat. split; [reflexivity|].
    unfold json_obj, rated. rewrite lookup_omap. now rewrite lookup_insert_eq.
  - intros Hnum.
    assert (Hxs : exists xs, rating_values rs' xs).
    { clear - Hnum. induction rs' as [|e rs' IH].
      - exists []. constructor.
      - destruct (Hnum e) as (x & Hx); [now left|].
        destruct IH as (xs & Hxs); [intros e' He'; apply Hnum; now right|].
        exists (x :: xs). now constructor. }
    destruct Hxs as (xs & Hxs). exists xs. split; [exact Hxs|]. f_equal.
    rewrite (total_from_numbers rs' xs _ Hxs) in Htot. injection Htot as <-.
    rewrite js_div_numbers in Hdiv. injection Hdiv as <-. unfold mean, rating_values in *.
    now rewrite (Forall2_length _ _ _ Hxs).
Qed.

Lemma rate_average_is_mean_witness :
  (exists i note note' rs' (average : float),
      designates "n1"
        (communityNotes (Examples.with_note [Examples.entry (VStr "u2") (VNum 5)])) i note
      /\ communityNotes (fst (rate (Examples.with_note [Examples.entry (VStr "u2") (VNum 5)])
                               "n1" (Examples.rating_body (VStr "u1") (VNum 3))))
         = <[i := note']>
             (communityNotes (Examples.with_note [Examples.entry (VStr "u2") (VNum 5)]))
      /\ communityNotes (fst (rate (Examples.with_note [Examples.entry (VStr "u2") (VNum 5)])
                               "n1" (Examples.rating_body (VStr "u1") (VNum 3)))) !! i
         = Some note'
      /\ note' !! "ratings" = Some (VArr rs')
      /\ note' !! "averageRating" = Some (VNum average)
      /\ VObj (<["averageRating" := VNum 4]> (<["ratingsCount" := VNum 2]> ∅))
         = VObj (<["averageRating" := VNum average]>
                   (<["ratingsCount" := VNum (Number.of_nat (length rs'))]> ∅))
      /\ (exists sent : obj,
             json (VObj (<["averageRating" := VNum 4]> (<["ratingsCount" := VNum 2]> ∅)))
             = Some (VObj sent)
             /\ sent !! "averageRating" = Some (json_number average))
      /\ (exists stored : obj,
             communityNotes
               (written (fst (rate (Examples.with_note [Examples.entry (VStr "u2") (VNum 5)])
                                "n1" (Examples.rating_body (VStr "u1") (VNum 3))))) !! i
             = Some stored
             /\ stored !! "averageRating" = Some (json_number average))
      /\ ((forall e, e ∈ rs' -> exists x, get_field e "rating" = Some (VNum x)) ->
          is_mean_of_ratings (VNum average) rs'))
  /\ (fun n : obj => (n !! "ratings", n !! "averageRating"))
     <$> communityNotes (fst (rate (Examples.with_note [Examples.entry (VStr "u2") (VNum 5)])
                                "n1" (Examples.rating_body (VStr "u1") (VNum 3))))
     = [(Some (VArr [VObj (<["userId" := VStr "u2"]> (<["rating" := VNum 5]> ∅));
                     VObj (<["userId" := VStr "u1"]> (<["rating" := VNum 3]> ∅))]),
         Some (VNum 4))]
  /\ mean [5%float; 3%float] = 4%float.
Proof.
  split; [|split; reflexivity].
  apply (rate_average_is_mean
           (Examples.with_note [Examples.entry (VStr "u2") (VNum 5)]) _ "n1"
           (Examples.rating_body (VStr "u1") (VNum 3))
           (VObj (<["averageRating" := VNum 4]> (<["ratingsCount" := VNum 2]> ∅)))).
  reflexivity.
Defined.

(** C1 as stated fails on ratings that are strings: after "5" by one user and
    "3" by another the handler answers 26.5, for [0 + "5" + "3"] is the string
    "053"; the mean of 5 and 3 is 4. *)
Lemma rate_strings_average_is_no_mean :
  snd (rate (Examples.with_note []) "n1" (Examples.rating_body (VStr "u2") (VStr "5")))
  = Respond 200 (VObj (object [("averageRating", VNum 5); ("ratingsCount", VNum 1)]))
  /\ snd (rate (written (fst (rate (Examples.with_note []) "n1"
                                (Examples.rating_body (VStr "u2") (VStr "5")))))
            "n1" (Examples.rating_body (VStr "u1") (VStr "3")))
     = Respond 200 (VObj (object [("averageRating", VNum 26.5); ("ratingsCount", VNum 2)]))
  /\ ratings_in (fst (rate (written (fst (rate (Examples.with_note []) "n1"
                                            (Examples.rating_body (VStr "u2") (VStr "5")))))
                        "n1" (Examples.rating_body (VStr "u1") (VStr "3")))) "n1"
     = [Examples.entry (VStr "u2") (VStr "5"); Examples.entry (VStr "u1") (VStr "3")]
  /\ ~ is_mean_of_ratings (VNum 26.5)
         [Examples.entry (VStr "u2") (VStr "5"); Examples.entry (VStr "u1") (VStr "3")]
  /\ mean [Text.to_number "5"; Text.to_number "3"] = 4%float
  /\ PrimFloat.eqb 26.5 4 = false.
Proof.
  repeat (split; [reflexivity|]). split; [|split; reflexivity].
  intros (xs & Hxs & _). inversion Hxs as [|r x rs xs' Hr _]. discriminate.
Qed.

(** ** Rating twice *)

Lemma designates_insert (id : string) (l : list obj) (i : nat) (o o' : obj) :
  designates id l i o -> get o' "id" = get o "id" -> designates id (<[i := o']> l) i o'.
Proof.
  intros (H1 & H2 & H3) Hid. split; [|split].
  - apply list_lookup_insert_eq. apply lookup_lt_is_Some. eauto.
  - congruence.
  - intros j x Hj Hx. rewrite list_lookup_insert_ne in Hx by lia. now apply (H3 j).
Qed.

Lemma designates_unique (id : string) (l : list obj) (i i' : nat) (o o' : obj) :
  designates id l i o -> designates id l i' o' -> i = i' /\ o = o'.
Proof.
  intros H H'. apply find_designates in H, H'. rewrite H in H'. now injection H' as -> ->.
Qed.

Lemma ratings_in_designated (s : store) (id : string) (i : nat) (note : obj) :
  designates id (communityNotes s) i note -> ratings_in s id = ratings_of note.
Proof. intros Hd. apply find_designates in Hd. unfold ratings_in. now rewrite Hd. Qed.

(** The entries of a note as the file has them. *)
Lemma ratings_of_json (note : obj) :
  ratings_of (json_obj note) = (fun e => default VNull (json e)) <$> ratings_of note.
Proof.
  unfold ratings_of. rewrite get_json_obj.
  destruct (get note "ratings") as [| |b|x|t|l|o]; unfold read_back; simpl;
    try reflexivity.
  - now destruct b.
  - destruct (json_number_cases x) as [(-> & _)|[(-> & _)|(-> & _)]]; unfold js_or;
      destruct (truthy (VNum x)); reflexivity.
  - unfold js_or. now destruct (truthy (VStr t)).
Qed.

Lemma get_field_json (e : value) (k : string) (u' : value) :
  get_field (default VNull (json e)) k = Some u' ->
  exists u, get_field e k = Some u /\ u' = read_back u.
Proof.
  destruct e; simpl; try discriminate;
    try (intros [= <-]; exists VUndefined; split; reflexivity).
  - destruct (json_number_cases x) as [(-> & _)|[(-> & _)|(-> & _)]]; simpl;
      try discriminate; intros [= <-]; exists VUndefined; split; reflexivity.
  - intros [= <-]. exists (get o k). split; [reflexivity|]. apply get_json_obj.
Qed.

Lemma one_entry_json (rs : list value) :
  one_entry_per_user rs -> one_entry_per_user ((fun e => default VNull (json e)) <$> rs).
Proof.
  intros Hrs i j ri rj ui uj Hij Hi Hj Hui Huj Ht. rewrite list_lookup_fmap in Hi, Hj.
  destruct (rs !! i) as [x|] eqn:Hx; [|discriminate]. injection Hi as <-.
  destruct (rs !! j) as [y|] eqn:Hy; [|discriminate]. injection Hj as <-.
  destruct (get_field_json _ _ _ Hui) as (u & Hu & ->).
  destruct (get_field_json _ _ _ Huj) as (v & Hv & ->).
  destruct (strict_eq (read_back u) (read_back v)) eqn:E; [|reflexivity].
  rewrite <- (Hrs i j x y u v Hij Hx Hy Hu Hv (read_back_truthy _ Ht)).
  symmetry. now apply read_back_strict_eq.
Qed.

Lemma ratings_unique_written (s : store) : ratings_unique s -> ratings_unique (written s).
Proof.
  intros Hs n Hn. simpl in Hn. apply list_elem_of_fmap in Hn as (x & -> & Hx).
  rewrite ratings_of_json. now apply one_entry_json, Hs.
Qed.

Lemma json_truthy (v : value) : truthy v = true -> json v = Some (read_back v).
Proof. destruct v; simpl; try discriminate; reflexivity. Qed.

(** A handler that does not answer 200 to a rating has written nothing. *)
Lemma rate_cases (s s' : store) (id : string) (body : obj) (out : outcome) :
  rate s id body = (s', out) -> s' = s \/ exists resp, out = Respond 200 resp.
Proof.
  unfold rate. intros H. split_branches_in H; injection H as <- <-; eauto.
Qed.

Lemma designated_elem (id : string) (l : list obj) (i : nat) (o : obj) :
  designates id l i o -> o ∈ l.
Proof. intros (H & _). apply list_elem_of_lookup. eauto. Qed.

(** After a rating that succeeded, the file holds an entry of that user's:
    its [userId] is what the file has kept of the rating's. *)
Lemma rate_leaves_entry (s s1 : store) (id : string) (b1 : obj) (r1 u2 : value) :
  rate s id b1 = (s1, Respond 200 r1) ->
  strict_eq (read_back (get b1 "userId")) u2 = true ->
  exists j r u, ratings_in (written s1) id !! j = Some r
                /\ get_field r "userId" = Some u /\ strict_eq u u2 = true.
Proof.
  intros H1 Hsame.
  destruct (rate_inv _ _ _ _ _ H1)
    as (i & note & rs & rs1 & total & average & Hd & Hu1 & _ & Hrs & Hup & _ & _ & -> & _).
  set (note1 := rated note rs1 average).
  destruct (rated_fields note rs1 average) as (_ & _ & Hid & Hof). fold note1 in Hid, Hof.
  assert (Hd1 : designates id (communityNotes (written
                  (with_notes (<[i := note1]> (communityNotes s)) s))) i (json_obj note1)).
  { simpl. apply designates_json. now apply (designates_insert id _ i note). }
  rewrite (ratings_in_designated _ id i _ Hd1), ratings_of_json, Hof.
  destruct (upsert_cases _ _ _ _ Hu1 Hup) as [(k & o & u & Hk & Ho & He & -> & _)|[_ ->]].
  - exists k, (VObj (json_obj (<["rating" := get b1 "rating"]> o))), (read_back u).
    split; [|split].
    + rewrite list_lookup_fmap, list_lookup_insert_eq by (apply lookup_lt_is_Some; eauto).
      reflexivity.
    + simpl. rewrite get_json_obj. unfold get at 1.
      rewrite lookup_insert_ne by discriminate. now rewrite <- Ho.
    + apply (strict_eq_trans _ (read_back (get b1 "userId"))); [|exact Hsame].
      now apply strict_eq_read_back.
  - exists (length rs),
      (VObj (json_obj (object [("userId", get b1 "userId"); ("rating", get b1 "rating")]))),
      (read_back (get b1 "userId")).
    split; [|split; [|exact Hsame]].
    + rewrite list_lookup_fmap, list_lookup_middle by reflexivity. reflexivity.
    + simpl. now rewrite get_json_obj.
Qed.

(** A rating that succeeds on a note that holds an entry of the user's
    rewrites the rating of that entry, where it is. *)
Lemma rate_in_place (s s2 : store) (id : string) (body : obj) (r2 : value) :
  rate s id body = (s2, Respond 200 r2) ->
  (exists j r u, ratings_in s id !! j = Some r
                 /\ get_field r "userId" = Some u /\ strict_eq u (get body "userId") = true) ->
  exists k o,
    ratings_in s id !! k = Some (VObj o)
    /\ strict_eq (get o "userId") (get body "userId") = true
    /\ ratings_in s2 id = <[k := VObj (<["rating" := get body "rating"]> o)]> (ratings_in s id).
Proof.
  intros H (j & r & u & Hj & Hu & He).
  destruct (rate_inv _ _ _ _ _ H)
    as (i & note & rs & rs' & total & average & Hd & Ht & _ & Hrs & Hup & _ & _ & -> & _).
  assert (Hin : ratings_in s id = rs).
  { rewrite (ratings_in_designated _ id i note Hd). unfold ratings_of. now rewrite Hrs. }
  assert (Hin' : ratings_in (with_notes (<[i := rated note rs' average]> (communityNotes s)) s) id
                 = rs').
  { erewrite ratings_in_designated.
    - apply rated_fields.
    - simpl. apply (designates_insert id _ i note); [exact Hd|]. apply rated_fields. }
  rewrite Hin, Hin' in *.
  destruct (upsert_cases _ _ _ _ Ht Hup) as [(k & o & u' & Hk & Ho & He' & -> & _)|[Hnone _]].
  - exists k, o. subst u'. auto.
  - destruct (Hnone r) as (u' & Hu' & He'); [apply list_elem_of_lookup; eauto|]. congruence.
Qed.

(** 5 then 3 on a note nobody has rated. *)
Lemma rate_five_then_three (s : store) (id : string) (i : nat) (note : obj) (b1 b2 : obj) :
  designates id (communityNotes s) i note -> unrated note ->
  present b1 "userId" -> get b1 "rating" = VNum 5 ->
  present b2 "userId" -> get b2 "rating" = VNum 3 ->
  strict_eq (read_back (get b1 "userId")) (get b2 "userId") = true ->
  snd (rate s id b1)
  = Respond 200 (VObj (<["averageRating" := VNum 5]> (<["ratingsCount" := VNum 1]> ∅)))
  /\ snd (rate (written (fst (rate s id b1))) id b2)
     = Respond 200 (VObj (<["averageRating" := VNum 3]> (<["ratingsCount" := VNum 1]> ∅)))
  /\ exists o note2 : obj,
       ratings_in (fst (rate (written (fst (rate s id b1))) id b2)) id = [VObj o]
       /\ o !! "userId" = Some (read_back (get b1 "userId"))
       /\ o !! "rating" = Some (VNum 3)
       /\ communityNotes (fst (rate (written (fst (rate s id b1))) id b2)) !! i = Some note2
       /\ note2 !! "ratings" = Some (VArr [VObj o])
       /\ note2 !! "averageRating" = Some (VNum 3).
Proof.
  intros Hd Hun Hu1 Hr1 Hu2 Hr2 Hsame.
  set (o1 := object [("userId", get b1 "userId"); ("rating", VNum 5)]).
  set (note1 := rated note [VObj o1] 5).
  set (s1 := with_notes (<[i := note1]> (communityNotes s)) s).
  assert (H1 : rate s id b1
               = (s1, Respond 200 (VObj (object [("averageRating", VNum 5);
                                                 ("ratingsCount", VNum 1)])))).
  { apply (rate_ok s id b1 i note [] [VObj o1] (VNum 5) 5); auto.
    - now rewrite Hr1.
    - now rewrite Hr1. }
  rewrite H1. simpl fst. simpl snd. split; [reflexivity|].
  assert (Hdw : designates id (communityNotes (written s1)) i (json_obj note1)).
  { simpl. apply designates_json. apply (designates_insert id _ i note); [exact Hd|].
    apply rated_fields. }
  set (o2 := <["rating" := VNum 3]> (json_obj o1)).
  assert (H2 : rate (written s1) id b2
               = (with_notes (<[i := rated (json_obj note1) [VObj o2] 3]>
                                (communityNotes (written s1))) (written s1),
                  Respond 200 (VObj (object [("averageRating", VNum 3);
                                             ("ratingsCount", VNum 1)])))).
  { apply (rate_ok (written s1) id b2 i (json_obj note1) [VObj (json_obj o1)] [VObj o2] (VNum 3) 3);
      auto.
    - now rewrite Hr2.
    - rewrite get_json_obj. unfold note1.
      now rewrite (proj1 (rated_fields note [VObj o1] 5)).
    - rewrite Hr2. unfold upsert, find_rating. cbn [get_field]. rewrite get_json_obj.
      change (get o1 "userId") with (get b1 "userId"). rewrite Hsame. reflexivity.
    - unfold total_from, o2. cbn [get_field]. unfold get. rewrite lookup_insert_eq.
      reflexivity. }
  rewrite H2. simpl fst. simpl snd. split; [reflexivity|].
  exists o2, (rated (json_obj note1) [VObj o2] 3).
  split; [|split; [|split; [|split; [|split]]]].
  - erewrite ratings_in_designated.
    + apply rated_fields.
    + simpl. apply (designates_insert id _ i (json_obj note1)); [exact Hdw|]. apply rated_fields.
  - unfold o2, json_obj. rewrite lookup_insert_ne by discriminate. rewrite lookup_omap.
    unfold o1, object. simpl. rewrite lookup_insert_eq. simpl. now apply json_truthy.
  - apply lookup_insert_eq.
  - simpl. apply list_lookup_insert_eq. apply lookup_lt_is_Some. destruct Hdw as [Hdw _].
    simpl in Hdw. eauto.
  - unfold rated. rewrite lookup_insert_ne by discriminate. apply lookup_insert_eq.
  - apply lookup_insert_eq.
Qed.

Lemma rate_keeps_ratings_unique (s : store) (id : string) (body : obj) :
  ratings_unique s -> ratings_unique (fst (rate s id body)).
Proof.
  intros Hs. destruct (rate s id body) as [s' out] eqn:H. simpl.
  destruct (rate_cases _ _ _ _ _ H) as [->|(resp & ->)]; [exact Hs|].
  destruct (rate_inv _ _ _ _ _ H)
    as (i & note & rs & rs' & total & average & Hd & Hu & _ & Hrs & Hup & _ & _ & -> & _).
  intros n Hn. simpl in Hn. apply elem_of_list_insert in Hn as [->|Hn]; [|now apply Hs].
  rewrite (proj2 (proj2 (proj2 (rated_fields note rs' _)))).
  apply (upsert_keeps_one_entry _ _ rs rs' Hu Hup).
  specialize (Hs note (designated_elem _ _ _ _ Hd)).
  unfold ratings_of in Hs. now rewrite Hrs in Hs.
Qed.

Lemma one_entry_nil : one_entry_per_user [].
Proof. intros i j ri rj ui uj _ Hi. discriminate. Qed.

Lemma ratings_of_edited (body note : obj) : ratings_of (edited body note) = ratings_of note.
Proof. unfold ratings_of, get. now rewrite edited_other by discriminate. Qed.

Lemma handle_keeps_ratings_unique (s : store) (r : request) :
  ratings_unique s -> ratings_unique (fst (handle s r)).
Proof.
  intros Hs. destruct r; simpl; try exact Hs.
  - unfold post_course. now destruct (_ || _).
  - unfold put_course. now destruct (find_first _ _) as [[i c]|].
  - unfold get_course. now destruct (find_first _ _) as [[i c]|].
  - unfold post_note. destruct (_ || _); [exact Hs|].
    destruct (find_first _ _) as [[i u]|]; [|exact Hs].
    intros n Hn. simpl in Hn. apply elem_of_app in Hn as [Hn|Hn]; [now apply Hs|].
    apply list_elem_of_singleton in Hn as ->. apply one_entry_nil.
  - unfold put_note. destruct (find_first _ _) as [[i note]|] eqn:Hf; [|exact Hs].
    destruct (_ && _); [exact Hs|]. fold (edited body note).
    intros n Hn. simpl in Hn. apply elem_of_list_insert in Hn as [->|Hn]; [|now apply Hs].
    rewrite ratings_of_edited. apply Hs.
    apply find_designates in Hf. now apply (designated_elem id _ i).
  - unfold delete_note. destruct (find_first _ _) as [[i note]|]; [|exact Hs].
    destruct (_ && _); [exact Hs|].
    intros n Hn. simpl in Hn. apply Hs.
    apply list_elem_of_In in Hn. apply filter_In in Hn as [Hn _]. now apply list_elem_of_In.
  - now apply rate_keeps_ratings_unique.
  - unfold signup. destruct (_ || _); [exact Hs|]. now destruct (find_first _ _) as [[i u]|].
  - unfold login. now destruct (find_first _ _) as [[i u]|].
Qed.

Lemma run_keeps_ratings_unique (rs : list request) (s : store) :
  ratings_unique s -> ratings_unique (run s rs).
Proof.
  revert s. induction rs as [|r rs IH]; intros s Hs; [exact Hs|].
  unfold run. simpl. apply IH. now apply ratings_unique_written, handle_keeps_ratings_unique.
Qed.

(** C2, amended. A rating by a user whose rating the note already holds is
    written over that user's entry, where it is:
    - every note of the document holds at most one entry per userId, through
      every sequence of requests once it is so, and so from the document
      [initDb] makes;
    - after a rating that succeeded, a rating by the same userId leaves the
      length of the note's ratings as it is, and when it succeeds it changes
      that user's entry, and only its rating;
    - on a note nobody has rated yet, rating 5 and then rating 3 by the same
      userId are answered averageRating 5, ratingsCount 1 and then
      averageRating 3, ratingsCount 1, and the note then holds the one entry,
      with rating 3, and averageRating 3.
    The second request reads what the first left in db.json, and its userId
    is the same when it is [===] what the file has kept of the first's (a
    string, a finite number, [true]); entries are told apart by a userId that
    is truthy. *)
Theorem rate_same_user_updates_in_place (s : store) (id : string) (b1 b2 : obj) :
  (forall rs, ratings_unique s -> ratings_unique (run s rs))
  /\ (forall rs, ratings_unique (run (initDb None) rs))
  /\ (forall s1 r1,
         rate s id b1 = (s1, Respond 200 r1) ->
         strict_eq (read_back (get b1 "userId")) (get b2 "userId") = true ->
         length (ratings_in (fst (rate (written s1) id b2)) id)
         = length (ratings_in (written s1) id)
         /\ (forall s2 r2,
                rate (written s1) id b2 = (s2, Respond 200 r2) ->
                exists k o,
                  ratings_in (written s1) id !! k = Some (VObj o)
                  /\ strict_eq (get o "userId") (get b2 "userId") = true
                  /\ ratings_in s2 id
                     = <[k := VObj (<["rating" := get b2 "rating"]> o)]>
                         (ratings_in (written s1) id)))
  /\ (forall i note,
         designates id (communityNotes s) i note -> unrated note ->
         present b1 "userId" -> get b1 "rating" = VNum 5 ->
         present b2 "userId" -> get b2 "rating" = VNum 3 ->
         strict_eq (read_back (get b1 "userId")) (get b2 "userId") = true ->
         snd (rate s id b1)
         = Respond 200 (VObj (<["averageRating" := VNum 5]> (<["ratingsCount" := VNum 1]> ∅)))
         /\ snd (rate (written (fst (rate s id b1))) id b2)
            = Respond 200 (VObj (<["averageRating" := VNum 3]>
                                   (<["ratingsCount" := VNum 1]> ∅)))
         /\ exists o note2 : obj,
              ratings_in (fst (rate (written (fst (rate s id b1))) id b2)) id = [VObj o]
              /\ o !! "userId" = Some (read_back (get b1 "userId"))
              /\ o !! "rating" = Some (VNum 3)
              /\ communityNotes (fst (rate (written (fst (rate s id b1))) id b2)) !! i
                 = Some note2
              /\ note2 !! "ratings" = Some (VArr [VObj o])
              /\ note2 !! "averageRating" = Some (VNum 3)).
Proof.
  split; [|split; [|split]].
  - intros rs. apply run_keeps_ratings_unique.
  - intros rs. apply run_keeps_ratings_unique. intros n Hn. now apply elem_of_nil in Hn.
  - intros s1 r1 H1 Hsame.
    pose proof (rate_leaves_entry s s1 id b1 r1 _ H1 Hsame) as Hentry.
    split; [|intros s2 r2 H2; exact (rate_in_place _ _ _ _ _ H2 Hentry)].
    destruct (rate (written s1) id b2) as [s2 out] eqn:H2. simpl.
    destruct (rate_cases _ _ _ _ _ H2) as [->|(r2 & ->)]; [reflexivity|].
    destruct (rate_in_place _ _ _ _ _ H2 Hentry) as (k & o & _ & _ & ->).
    apply length_insert.
  - intros i note. apply rate_five_then_three.
Qed.

Lemma rate_same_user_updates_in_place_witness :
  (snd (rate (Examples.with_note []) "n1" (Examples.rating_body (VStr "u1") (VNum 5)))
   = Respond 200 (VObj (<["averageRating" := VNum 5]> (<["ratingsCount" := VNum 1]> ∅)))
   /\ snd (rate (written (fst (rate (Examples.with_note []) "n1"
                                  (Examples.rating_body (VStr "u1") (VNum 5)))))
             "n1" (Examples.rating_body (VStr "u1") (VNum 3)))
      = Respond 200 (VObj (<["averageRating" := VNum 3]> (<["ratingsCount" := VNum 1]> ∅)))
   /\ exists o note2 : obj,
        ratings_in (fst (rate (written (fst (rate (Examples.with_note []) "n1"
                                               (Examples.rating_body (VStr "u1") (VNum 5)))))
                           "n1" (Examples.rating_body (VStr "u1") (VNum 3)))) "n1"
        = [VObj o]
        /\ o !! "userId" = Some (read_back (VStr "u1"))
        /\ o !! "rating" = Some (VNum 3)
        /\ communityNotes
             (fst (rate (written (fst (rate (Examples.with_note []) "n1"
                                         (Examples.rating_body (VStr "u1") (VNum 5)))))
                     "n1" (Examples.rating_body (VStr "u1") (VNum 3)))) !! 0
           = Some note2
        /\ note2 !! "ratings" = Some (VArr [VObj o])
        /\ note2 !! "averageRating" = Some (VNum 3))
  /\ (fun n : obj => (n !! "ratings", n !! "averageRating"))
     <$> communityNotes
           (fst (rate (written (fst (rate (Examples.with_note []) "n1"
                                       (Examples.rating_body (VStr "u1") (VNum 5)))))
                   "n1" (Examples.rating_body (VStr "u1") (VNum 3))))
     = [(Some (VArr [VObj (<["userId" := VStr "u1"]> (<["rating" := VNum 3]> ∅))]),
         Some (VNum 3))].
Proof.
  split; [|reflexivity].
  destruct (rate_same_user_updates_in_place (Examples.with_note []) "n1"
              (Examples.rating_body (VStr "u1") (VNum 5))
              (Examples.rating_body (VStr "u1") (VNum 3))) as (_ & _ & _ & Hscenario).
  apply (Hscenario 0 (Examples.note_by [])); try reflexivity.
  apply designates_here. reflexivity.
Defined.

(** C2 as stated fails on a note that another user has rated: after 4 by
    that user, 5 and then 3 by one user are answered averageRating 3.5 and
    ratingsCount 2.  It fails as well for a userId that the file does not
    keep: 1e400 reads as infinity and is written as [null], so that a second
    rating with it is appended, and answered ratingsCount 2. *)
Lemma rate_five_then_three_on_rated_note :
  snd (rate (Examples.with_note [Examples.entry (VStr "u2") (VNum 4)]) "n1"
         (Examples.rating_body (VStr "u1") (VNum 5)))
  = Respond 200 (VObj (object [("averageRating", VNum 4.5); ("ratingsCount", VNum 2)]))
  /\ snd (rate (written (fst (rate (Examples.with_note [Examples.entry (VStr "u2") (VNum 4)])
                                "n1" (Examples.rating_body (VStr "u1") (VNum 5)))))
            "n1" (Examples.rating_body (VStr "u1") (VNum 3)))
     = Respond 200 (VObj (object [("averageRating", VNum 3.5); ("ratingsCount", VNum 2)]))
  /\ PrimFloat.eqb 3.5 3 = false
  /\ PrimFloat.eqb 2 1 = false
  /\ snd (rate (Examples.with_note []) "n1" (Examples.rating_body (VNum infinity) (VNum 5)))
     = Respond 200 (VObj (object [("averageRating", VNum 5); ("ratingsCount", VNum 1)]))
  /\ snd (rate (written (fst (rate (Examples.with_note []) "n1"
                                (Examples.rating_body (VNum infinity) (VNum 5)))))
            "n1" (Examples.rating_body (VNum infinity) (VNum 3)))
     = Respond 200 (VObj (object [("averageRating", VNum 4); ("ratingsCount", VNum 2)])).
Proof. repeat split; reflexivity. Qed.

(** ** POST /api/courses, then GET /api/courses/:id *)

Lemma designates_last (id : string) (l : list obj) (o : obj) :
  unknown id l -> get o "id" = VStr id -> designates id (l ++ [o]) (length l) o.
Proof.
  intros Hl Ho. split; [now apply list_lookup_middle|]. split; [exact Ho|].
  intros j o' Hj Ho'. rewrite lookup_app_l in Ho' by exact Hj.
  apply Hl. apply list_elem_of_lookup. eauto.
Qed.

(** A course created with an id that no course has yet is answered with that
    id, appended, and answered again by GET /api/courses/:id of that id. *)
Theorem post_course_round_trip (fresh : string) (s : store) (body : obj) :
  present body "title" -> present body "description" -> unknown fresh (courses s) ->
  exists course : obj,
    post_course fresh s body
    = (with_courses (courses s ++ [course]) s, Respond 200 (VObj course))
    /\ get course "id" = VStr fresh
    /\ get course "title" = get body "title"
    /\ get course "description" = get body "description"
    /\ get_course (with_courses (courses s ++ [course]) s) fresh
       = (with_courses (courses s ++ [course]) s, Respond 200 (VObj course)).
Proof.
  unfold present. intros Ht Hd Hnew. unfold post_course. rewrite Ht, Hd. simpl.
  eexists. split; [reflexivity|]. repeat (split; [reflexivity|]).
  unfold get_course. simpl.
  match goal with
  | |- context [find_first _ (?l ++ [?c])] =>
      rewrite (proj2 (find_designates fresh (l ++ [c]) (length l) c))
  end; [reflexivity|].
  apply designates_last; [exact Hnew | reflexivity].
Qed.

Lemma post_course_round_trip_witness :
  exists course : obj,
    post_course "c4" (initDb None)
      (object [("title", VStr "AP Biology"); ("description", VStr "Cells and systems")])
    = (with_courses (default_courses ++ [course]) (initDb None), Respond 200 (VObj course))
    /\ get course "id" = VStr "c4"
    /\ get course "title" = VStr "AP Biology"
    /\ get course "description" = VStr "Cells and systems"
    /\ get_course (with_courses (default_courses ++ [course]) (initDb None)) "c4"
       = (with_courses (default_courses ++ [course]) (initDb None), Respond 200 (VObj course)).
Proof.
  apply (post_course_round_trip "c4" (initDb None)
           (object [("title", VStr "AP Biology"); ("description", VStr "Cells and systems")]));
    try reflexivity.
  repeat (apply unknown_cons; [vm_compute; discriminate|]). apply unknown_nil.
Defined.

(** ** DELETE /api/notes/:id *)

Lemma filter_shorter {A : Type} (f : A -> bool) (l : list A) (x : A) :
  x ∈ l -> f x = false -> length (List.filter f l) < length l.
Proof.
  intros Hx Hf. induction l as [|y l IH]; [now apply elem_of_nil in Hx|].
  pose proof (filter_length_le f l) as Hle. simpl.
  apply elem_of_cons in Hx as [<-|Hx].
  - rewrite Hf. lia.
  - specialize (IH Hx). destruct (f y); simpl; lia.
Qed.

(** A DELETE by the note's author, or with forceDev set, is answered
    [{success: true}]; afterwards the document holds the notes with another
    id, all of them and in their order, and no note with the id: the notes
    are fewer, and the courses, the users and the analytics are as they
    were. *)
Theorem delete_note_removes (s : store) (id : string) (body : option obj) (i : nat) (note : obj) :
  designates id (communityNotes s) i note ->
  strict_eq (get note "authorId") (get (default ∅ body) "authorId") = true
  \/ truthy (get (default ∅ body) "forceDev") = true ->
  exists notes' : list obj,
    snd (delete_note s id body) = Respond 200 (VObj (<["success" := VBool true]> ∅))
    /\ communityNotes (fst (delete_note s id body)) = notes'
    /\ courses (fst (delete_note s id body)) = courses s
    /\ users (fst (delete_note s id body)) = users s
    /\ analytics (fst (delete_note s id body)) = analytics s
    /\ unknown id notes'
    /\ notes' = List.filter (fun n => negb (has "id" (VStr id) n)) (communityNotes s)
    /\ (forall n, n ∈ communityNotes s -> get n "id" <> VStr id -> n ∈ notes')
    /\ (forall n, n ∈ notes' -> n ∈ communityNotes s)
    /\ length notes' < length (communityNotes s).
Proof.
  intros Hd Hok. pose proof Hd as Hd'. apply find_designates in Hd. unfold delete_note.
  rewrite Hd.
  assert (Hgo : negb (truthy (get (default ∅ body) "forceDev"))
                && negb (strict_eq (get note "authorId") (get (default ∅ body) "authorId"))
                = false).
  { destruct Hok as [-> | ->]; simpl; [apply andb_false_r | reflexivity]. }
  rewrite Hgo. eexists. simpl. repeat (split; [reflexivity|]).
  split; [|split; [reflexivity|split; [|split]]].
  - intros o Ho. apply list_elem_of_In, filter_In in Ho as [_ Ho].
    apply negb_true_iff in Ho. unfold has in Ho. now apply strict_eq_str_false.
  - intros n Hn Hne. apply list_elem_of_In, filter_In. split; [now apply list_elem_of_In|].
    apply negb_true_iff. unfold has. now apply strict_eq_str_false.
  - intros n Hn. apply list_elem_of_In, filter_In in Hn as [Hn _]. now apply list_elem_of_In.
  - apply (filter_shorter _ _ note).
    + destruct Hd' as (Hi & _). apply list_elem_of_lookup. eauto.
    + destruct Hd' as (_ & Hid & _). apply negb_false_iff. now apply has_id.
Qed.

Lemma delete_note_removes_witness :
  (exists notes' : list obj,
      snd (delete_note (Examples.with_note []) "n1" (Some (object [("authorId", VStr "u1")])))
      = Respond 200 (VObj (<["success" := VBool true]> ∅))
      /\ communityNotes (fst (delete_note (Examples.with_note []) "n1"
                               (Some (object [("authorId", VStr "u1")])))) = notes'
      /\ courses (fst (delete_note (Examples.with_note []) "n1"
                        (Some (object [("authorId", VStr "u1")]))))
         = courses (Examples.with_note [])
      /\ users (fst (delete_note (Examples.with_note []) "n1"
                      (Some (object [("authorId", VStr "u1")]))))
         = users (Examples.with_note [])
      /\ analytics (fst (delete_note (Examples.with_note []) "n1"
                          (Some (object [("authorId", VStr "u1")]))))
         = analytics (Examples.with_note [])
      /\ unknown "n1" notes'
      /\ notes' = List.filter (fun n => negb (has "id" (VStr "n1") n))
                    (communityNotes (Examples.with_note []))
      /\ (forall n, n ∈ communityNotes (Examples.with_note []) -> get n "id" <> VStr "n1" ->
                    n ∈ notes')
      /\ (forall n, n ∈ notes' -> n ∈ communityNotes (Examples.with_note []))
      /\ length notes' < length (communityNotes (Examples.with_note [])))
  /\ communityNotes (fst (delete_note (Examples.with_note []) "n1"
                           (Some (object [("authorId", VStr "u1")])))) = [].
Proof.
  split; [|reflexivity].
  apply (delete_note_removes (Examples.with_note []) "n1" _ 0 (Examples.note_by [])).
  - apply designates_here. reflexivity.
  - left. reflexivity.
Defined.

(** ** POST /api/auth/login *)

(** A login is answered with the id, email and name of the first user whose
    email and password both are the body's ([===]), and with 400 and
    [{error: "Invalid credentials"}] when there is none; it never changes the
    document, and its answer holds no password. *)
Theorem login_matches (s : store) (body : obj) :
  (forall i user,
      find_first (fun u => has "email" (get body "email") u
                           && has "password" (get body "password") u) (users s)
      = Some (i, user) ->
      login s body
      = (s, Respond 200 (VObj (object [("id", get user "id"); ("email", get user "email");
                                       ("name", get user "name")])))
      /\ strict_eq (get user "email") (get body "email") = true
      /\ strict_eq (get user "password") (get body "password") = true
      /\ object [("id", get user "id"); ("email", get user "email"); ("name", get user "name")]
         !! "password" = None)
  /\ ((forall u, u ∈ users s ->
                 strict_eq (get u "email") (get body "email") = false
                 \/ strict_eq (get u "password") (get body "password") = false) ->
      login s body = (s, error 400 "Invalid credentials")).
Proof.
  split.
  - intros i user Hf. unfold login. rewrite Hf. split; [reflexivity|].
    apply find_first_Some in Hf as (_ & Hp & _). apply andb_true_iff in Hp as [He Hp].
    repeat split; assumption.
  - intros Hnone. unfold login.
    assert (Hf : find_first (fun u => has "email" (get body "email") u
                                      && has "password" (get body "password") u) (users s)
                 = None).
    { apply find_first_None. intros u Hu. unfold has.
      destruct (Hnone u Hu) as [-> | ->]; [reflexivity | apply andb_false_r]. }
    now rewrite Hf.
Qed.

Lemma login_matches_witness :
  login (Examples.with_note []) (object [("email", VStr "a@b.com"); ("password", VStr "x")])
  = (Examples.with_note [],
     Respond 200 (VObj (object [("id", VStr "u1"); ("email", VStr "a@b.com");
                                ("name", VStr "A")])))
  /\ login (Examples.with_note []) (object [("email", VStr "a@b.com"); ("password", VStr "y")])
     = (Examples.with_note [], error 400 "Invalid credentials").
Proof.
  destruct (login_matches (Examples.with_note [])
              (object [("email", VStr "a@b.com"); ("password", VStr "x")])) as [Hyes _].
  destruct (login_matches (Examples.with_note [])
              (object [("email", VStr "a@b.com"); ("password", VStr "y")])) as [_ Hno].
  split.
  - apply (Hyes 0 Examples.alice). reflexivity.
  - apply Hno. intros u Hu. apply list_elem_of_singleton in Hu. subst u. right. reflexivity.
Defined.

(** * More of the server *)

(** ** What a request can do to the document *)

(** A request is answered 200, 400, 403 or 404, or the handler throws (only
    a rating can); whatever is not answered 200 leaves the document as it
    was read. *)
Theorem handle_outcomes (s : store) (r : request) :
  match handle s r with
  | (s', Respond status _) =>
      status = 200 \/ (s' = s /\ (status = 400 \/ status = 403 \/ status = 404))
  | (s', Throws) => s' = s /\ exists id body, r = Rate id body
  end.
Proof.
  destruct (handle s r) as [s' out] eqn:H.
  destruct r; simpl in H;
    unfold get_data, post_course, put_course, get_course, post_note, put_note,
      delete_note, rate, signup, login, error in H;
    split_branches_in H; injection H as <- <-; eauto 8.
Qed.

Lemma handle_appends_users (s : store) (r : request) :
  exists more, users (fst (handle s r)) = users s ++ more.
Proof.
  destruct r; try (exists []; rewrite handle_keeps_users by discriminate;
                   now rewrite app_nil_r).
  simpl. unfold signup. destruct (_ || _); [exists []; now rewrite app_nil_r|].
  destruct (find_first _ _) as [[i u]|]; [exists []; now rewrite app_nil_r|].
  simpl. eauto.
Qed.

Lemma handle_keeps_courses_length (s : store) (r : request) :
  length (courses s) <= length (courses (fst (handle s r))).
Proof.
  destruct r; simpl;
    unfold get_data, post_course, put_course, get_course, post_note, put_note,
      delete_note, rate, signup, login;
    split_branches; simpl; rewrite ?length_app, ?length_insert; lia.
Qed.

Lemma handle_keeps_analytics (s : store) (r : request) :
  analytics (fst (handle s r)) = analytics s.
Proof.
  destruct r; simpl;
    unfold get_data, post_course, put_course, get_course, post_note, put_note,
      delete_note, rate, signup, login;
    split_branches; reflexivity.
Qed.

Lemma run_as_read (s : store) (rs : list request) : as_read s -> as_read (run s rs).
Proof.
  revert s. induction rs as [|r rs IH]; intros s Hs; [exact Hs|].
  unfold run. simpl foldl. fold (run (written (fst (handle s r))) rs).
  apply IH, written_idem.
Qed.

(** Through every sequence of requests the users, as the file keeps them,
    only grow at the end (no user is removed or changed), no course is
    removed, and the analytics, as the file keeps them, stay as they are.
    From a document as it is read, as every handler gets it, the users and
    the analytics are those of the file: the users after the requests are the
    users before them and then the new ones, and the analytics are the
    same. *)
Theorem run_append_only (s : store) (rs : list request) :
  (exists more, users (written (run s rs)) = users (written s) ++ more)
  /\ length (courses s) <= length (courses (run s rs))
  /\ analytics (written (run s rs)) = analytics (written s)
  /\ (as_read s ->
      (exists more, users (run s rs) = users s ++ more)
      /\ analytics (run s rs) = analytics s).
Proof.
  assert (H : (exists more, users (written (run s rs)) = users (written s) ++ more)
              /\ length (courses s) <= length (courses (run s rs))
              /\ analytics (written (run s rs)) = analytics (written s)).
  { revert s. induction rs as [|r rs IH]; intros s.
    - split; [exists []; now rewrite app_nil_r|]. split; [apply le_n | reflexivity].
    - unfold run. simpl foldl. fold (run (written (fst (handle s r))) rs).
      destruct (IH (written (fst (handle s r)))) as ((more & Hu) & Hc & Ha).
      rewrite written_idem in Hu, Ha.
      destruct (handle_appends_users s r) as (more0 & Hu0).
      split; [|split].
      + exists ((json_obj <$> more0) ++ more). rewrite Hu. simpl.
        now rewrite Hu0, fmap_app, app_assoc.
      + pose proof (handle_keeps_courses_length s r) as Hl. simpl in Hc.
        rewrite length_fmap in Hc. lia.
      + rewrite Ha. simpl. now rewrite handle_keeps_analytics. }
  destruct H as (Hu & Hc & Ha). split; [exact Hu|]. split; [exact Hc|]. split; [exact Ha|].
  intros Hs. pose proof (run_as_read s rs Hs) as Hr. unfold as_read in Hs, Hr.
  rewrite Hs, Hr in Hu, Ha. split; assumption.
Qed.

Lemma run_append_only_witness :
  users (written (run (Examples.with_note [])
                    [Signup "u2" "2024-01-05T00:00:00.000Z"
                       (object [("email", VStr "c@d.org"); ("password", VStr "pw");
                                ("name", VStr "C")])]))
  = users (written (Examples.with_note []))
    ++ [object [("id", VStr "u2"); ("email", VStr "c@d.org"); ("password", VStr "pw");
                ("name", VStr "C"); ("createdAt", VStr "2024-01-05T00:00:00.000Z")]]
  /\ (exists more,
         users (run (Examples.with_note [])
                  [Signup "u2" "2024-01-05T00:00:00.000Z"
                     (object [("email", VStr "c@d.org"); ("password", VStr "pw");
                              ("name", VStr "C")])])
         = users (Examples.with_note []) ++ more)
  /\ length (courses (Examples.with_note []))
     <= length (courses (run (Examples.with_note [])
                           [Signup "u2" "2024-01-05T00:00:00.000Z"
                              (object [("email", VStr "c@d.org"); ("password", VStr "pw");
                                       ("name", VStr "C")])]))
  /\ analytics (run (Examples.with_note [])
                  [Signup "u2" "2024-01-05T00:00:00.000Z"
                     (object [("email", VStr "c@d.org"); ("password", VStr "pw");
                              ("name", VStr "C")])])
     = analytics (Examples.with_note []).
Proof.
  destruct (run_append_only (Examples.with_note [])
              [Signup "u2" "2024-01-05T00:00:00.000Z"
                 (object [("email", VStr "c@d.org"); ("password", VStr "pw");
                          ("name", VStr "C")])])
    as (_ & Hc & _ & Hread).
  destruct (Hread eq_refl) as (Hu & Ha).
  split; [reflexivity|]. split; [exact Hu|]. split; [exact Hc | exact Ha].
Defined.

(** ** The authors of the notes *)


Lemma rated_other (note : obj) (rs : list value) (average : float) (k : string) :
  k <> "ratings" -> k <> "averageRating" -> rated note rs average !! k = note !! k.
Proof. intros H1 H2. unfold rated. now rewrite !lookup_insert_ne by congruence. Qed.

Lemma handle_keeps_authors_known (s : store) (r : request) :
  authors_known s -> authors_known (fst (handle s r)).
Proof.
  intros Hs. destruct r; simpl; try exact Hs.
  - unfold post_course. now destruct (_ || _).
  - unfold put_course. now destruct (find_first _ _) as [[i c]|].
  - unfold get_course. now destruct (find_first _ _) as [[i c]|].
  - unfold post_note. destruct (_ || _); [exact Hs|].
    destruct (find_first _ _) as [[i u]|] eqn:Hf; [|exact Hs].
    apply find_first_Some in Hf as (Hi & Hu & _).
    intros n Hn. simpl in Hn. apply elem_of_app in Hn as [Hn|Hn]; [now apply Hs|].
    apply list_elem_of_singleton in Hn as ->. exists u. split; [|split].
    + simpl. apply list_elem_of_lookup. eauto.
    + exact Hu.
    + reflexivity.
  - unfold put_note. destruct (find_first _ _) as [[i note]|] eqn:Hf; [|exact Hs].
    destruct (_ && _); [exact Hs|]. fold (edited body note).
    apply find_designates in Hf.
    intros n Hn. simpl in Hn. apply elem_of_list_insert in Hn as [->|Hn]; [|now apply Hs].
    destruct (Hs note (designated_elem _ _ _ _ Hf)) as (u & Hu & Hid & Hname).
    exists u. unfold get in *. rewrite !edited_other by discriminate. auto.
  - unfold delete_note. destruct (find_first _ _) as [[i note]|]; [|exact Hs].
    destruct (_ && _); [exact Hs|].
    intros n Hn. simpl in Hn. apply Hs.
    apply list_elem_of_In in Hn. apply filter_In in Hn as [Hn _]. now apply list_elem_of_In.
  - destruct (rate s id body) as [s' out] eqn:H. simpl.
    destruct (rate_cases _ _ _ _ _ H) as [->|(resp & ->)]; [exact Hs|].
    destruct (rate_inv _ _ _ _ _ H)
      as (i & note & rs & rs' & total & average & Hd & _ & _ & _ & _ & _ & _ & -> & _).
    intros n Hn. simpl in Hn. apply elem_of_list_insert in Hn as [->|Hn]; [|now apply Hs].
    destruct (Hs note (designated_elem _ _ _ _ Hd)) as (u & Hu & Hid & Hname).
    exists u. unfold get in *. rewrite !rated_other by discriminate. auto.
  - unfold signup. destruct (_ || _); [exact Hs|].
    destruct (find_first _ _) as [[i u]|]; [exact Hs|].
    intros n Hn. simpl in Hn. destruct (Hs n Hn) as (u & Hu & Hrest).
    exists u. split; [|exact Hrest]. simpl. apply elem_of_app. now left.
  - unfold login. now destruct (find_first _ _) as [[i u]|].
Qed.

(** A note's author is known in the file as it is in the document. *)
Lemma authors_known_written (s : store) : authors_known s -> authors_known (written s).
Proof.
  intros Hs n Hn. simpl in Hn. apply list_elem_of_fmap in Hn as (x & -> & Hx).
  destruct (Hs x Hx) as (u & Hu & Hid & Hname).
  exists (json_obj u). split; [|split].
  - simpl. apply list_elem_of_fmap. eauto.
  - rewrite !get_json_obj. now apply strict_eq_read_back.
  - rewrite !get_json_obj. now rewrite Hname.
Qed.

(** Every note of the document names an author among the users and carries
    that user's name, through every sequence of requests once it is so, and
    so from the document [initDb] makes: no request lets a note's author or
    authorId change, and no user is removed or renamed. *)
Theorem run_keeps_authors_known (rs : list request) :
  (forall s, authors_known s -> authors_known (run s rs))
  /\ authors_known (run (initDb None) rs).
Proof.
  assert (H : forall s, authors_known s -> authors_known (run s rs)).
  { induction rs as [|r rs IH]; intros s Hs; [exact Hs|].
    unfold run. simpl. apply IH.
    now apply authors_known_written, handle_keeps_authors_known. }
  split; [exact H|]. apply H. intros n Hn. now apply elem_of_nil in Hn.
Qed.

(** ** [initDb] *)

(** [initDb] leaves a document with courses: it makes the document of a
    missing file, with the three default courses, no user, no note and
    analytics without sessions; it puts the default courses in a document
    without any course, and only there; it keeps the users, the notes and
    the analytics of the document it is given, and running it again changes
    nothing. *)
Theorem initDb_seeds_once (data : option store) :
  courses (initDb data) <> []
  /\ initDb (Some (initDb data)) = initDb data
  /\ (data = None ->
      courses (initDb data) = default_courses /\ users (initDb data) = []
      /\ communityNotes (initDb data) = []
      /\ analytics (initDb data) = VObj (<["sessions" := VArr []]> ∅))
  /\ (fun c : obj => c !! "id") <$> default_courses
     = [Some (VStr "c1"); Some (VStr "c2"); Some (VStr "c3")]
  /\ (forall d, data = Some d -> courses d <> [] -> initDb data = d)
  /\ (forall d, data = Some d -> courses d = [] -> courses (initDb data) = default_courses)
  /\ (forall d, data = Some d ->
        users (initDb data) = users d /\ communityNotes (initDb data) = communityNotes d
        /\ analytics (initDb data) = analytics d).
Proof.
  assert (Hne : forall x, courses (initDb x) <> []).
  { intros x. unfold initDb. destruct (courses (default _ x)) eqn:Hc.
    - unfold with_courses, default_courses. cbn [courses]. discriminate.
    - rewrite Hc. discriminate. }
  split; [exact (Hne data)|]. split; [|split; [|split; [|split; [|split]]]].
  - change (initDb (Some (initDb data)))
      with (match courses (initDb data) with
            | [] => with_courses default_courses (initDb data)
            | _ :: _ => initDb data
            end).
    destruct (courses (initDb data)) eqn:Hc; [|reflexivity].
    now destruct (Hne data).
  - intros ->. repeat split.
  - reflexivity.
  - intros d -> Hd.
    change (initDb (Some d))
      with (match courses d with [] => with_courses default_courses d | _ :: _ => d end).
    destruct (courses d); [congruence | reflexivity].
  - intros d -> Hd.
    change (initDb (Some d))
      with (match courses d with [] => with_courses default_courses d | _ :: _ => d end).
    now rewrite Hd.
  - intros d ->.
    change (initDb (Some d))
      with (match courses d with [] => with_courses default_courses d | _ :: _ => d end).
    destruct (courses d); repeat split.
Qed.

Lemma initDb_seeds_once_witness :
  (courses (initDb None) = default_courses /\ users (initDb None) = []
   /\ communityNotes (initDb None) = []
   /\ analytics (initDb None) = VObj (<["sessions" := VArr []]> ∅))
  /\ initDb (Some (Examples.with_note [])) = Examples.with_note []
  /\ courses (initDb (Some (with_courses [] (Examples.with_note [])))) = default_courses.
Proof.
  destruct (initDb_seeds_once None) as (_ & _ & Hnone & _).
  destruct (initDb_seeds_once (Some (Examples.with_note []))) as (_ & _ & _ & _ & Hkeep & _).
  destruct (initDb_seeds_once (Some (with_courses [] (Examples.with_note []))))
    as (_ & _ & _ & _ & _ & Hseed & _).
  split; [exact (Hnone eq_refl)|]. split.
  - apply (Hkeep (Examples.with_note []) eq_refl). discriminate.
  - apply (Hseed (with_courses [] (Examples.with_note [])) eq_refl). reflexivity.
Defined.

(** ** POST /api/courses *)

(** A body without title or description is answered 400 and nothing is
    stored.  Otherwise the course is appended to the courses of the document
    (whose users, notes and analytics stay) and answered; it holds six
    properties and no other: the generated id (whatever id the body brings),
    the body's title and description, the body's icon and notes or their
    defaults when those are missing, and no links (whatever links the body
    brings). *)
Theorem post_course_validates (fresh : string) (s : store) (body : obj) :
  (missing body "title" \/ missing body "description" ->
   post_course fresh s body = (s, error 400 "Missing title/description"))
  /\ (present body "title" -> present body "description" ->
      exists course : obj,
        snd (post_course fresh s body) = Respond 200 (VObj course)
        /\ courses (fst (post_course fresh s body)) = courses s ++ [course]
        /\ users (fst (post_course fresh s body)) = users s
        /\ communityNotes (fst (post_course fresh s body)) = communityNotes s
        /\ analytics (fst (post_course fresh s body)) = analytics s
        /\ course !! "id" = Some (VStr fresh)
        /\ course !! "title" = body !! "title"
        /\ course !! "description" = body !! "description"
        /\ course !! "icon"
           = Some (if truthy (get body "icon") then get body "icon" else VStr "📘")
        /\ course !! "notes"
           = Some (if truthy (get body "notes") then get body "notes" else VStr "")
        /\ course !! "links" = Some (VArr [])
        /\ forall k, k ∉ ["id"; "title"; "description"; "icon"; "notes"; "links"] ->
                     course !! k = None).
Proof.
  split.
  - unfold missing, post_course. intros [-> | ->]; simpl; [reflexivity | now rewrite orb_true_r].
  - intros Ht Hd. pose proof (present_lookup _ _ Ht) as Ht'.
    pose proof (present_lookup _ _ Hd) as Hd'. unfold present in Ht, Hd.
    unfold post_course. rewrite Ht, Hd. simpl. eexists.
    do 11 (split; [first [reflexivity | exact Ht' | exact Hd']|]).
    intros k Hk. unfold object. simpl.
    rewrite !lookup_insert_ne; [apply lookup_empty | ..];
      intros <-; apply Hk; repeat constructor.
Qed.

Lemma post_course_validates_witness :
  post_course "c4" (initDb None) (object [("title", VStr "AP Biology")])
  = (initDb None, error 400 "Missing title/description")
  /\ exists course : obj,
       snd (post_course "c4" (initDb None)
              (object [("id", VStr "mine"); ("title", VStr "AP Biology");
                       ("description", VStr "Cells"); ("links", VArr [VStr "x"])]))
       = Respond 200 (VObj course)
       /\ courses (fst (post_course "c4" (initDb None)
                          (object [("id", VStr "mine"); ("title", VStr "AP Biology");
                                   ("description", VStr "Cells"); ("links", VArr [VStr "x"])])))
          = default_courses ++ [course]
       /\ course !! "id" = Some (VStr "c4")
       /\ course !! "title" = Some (VStr "AP Biology")
       /\ course !! "icon" = Some (VStr "📘")
       /\ course !! "notes" = Some (VStr "")
       /\ course !! "links" = Some (VArr []).
Proof.
  destruct (post_course_validates "c4" (initDb None) (object [("title", VStr "AP Biology")]))
    as [Hno _].
  destruct (post_course_validates "c4" (initDb None)
              (object [("id", VStr "mine"); ("title", VStr "AP Biology");
                       ("description", VStr "Cells"); ("links", VArr [VStr "x"])]))
    as [_ Hyes].
  split.
  - apply Hno. right. reflexivity.
  - destruct Hyes
      as (course & H & Hin & _ & _ & _ & Hid & Htitle & _ & Hicon & Hnotes & Hlinks & _);
      [reflexivity | reflexivity |].
    exists course. repeat split; assumption.
Defined.

(** ** PUT /api/courses/:id, then GET /api/courses/:id *)

Lemma put_course_found (s : store) (id : string) (body : obj) (i : nat) (course : obj) :
  designates id (courses s) i course ->
  put_course s id body
  = (with_courses (<[i := assign course body]> (courses s)) s,
     Respond 200 (VObj (assign course body))).
Proof. intros Hd. apply find_designates in Hd. unfold put_course. now rewrite Hd. Qed.

(** After a PUT whose body brings no id, or the course's own, a GET for the
    id is answered the course as it was merged and written to db.json: with
    what the file keeps of each property of the body ([__proto__] apart) and
    of each other property of the course.  After a PUT whose body brings
    another value as id, a GET for the id is answered 404 when no other
    course has it: the course is out of reach under the id it had. *)
Theorem put_course_then_get (s : store) (id : string) (body : obj) (i : nat) (course : obj) :
  designates id (courses s) i course ->
  (body !! "id" = None \/ body !! "id" = Some (VStr id) ->
   exists course' got : obj,
     snd (put_course s id body) = Respond 200 (VObj course')
     /\ get_course (written (fst (put_course s id body))) id
        = (written (fst (put_course s id body)), Respond 200 (VObj got))
     /\ courses (written (fst (put_course s id body))) !! i = Some got
     /\ got = json_obj course'
     /\ got !! "id" = Some (VStr id)
     /\ (forall k v, k <> "__proto__" -> body !! k = Some v -> got !! k = json v)
     /\ (forall k, k <> "__proto__" -> body !! k = None -> got !! k = course !! k ≫= json))
  /\ (forall v, body !! "id" = Some v -> v <> VStr id ->
        (forall j c, j <> i -> courses s !! j = Some c -> get c "id" <> VStr id) ->
        get_course (written (fst (put_course s id body))) id
        = (written (fst (put_course s id body)), error 404 "Not found")).
Proof.
  intros Hd. rewrite (put_course_found s id body i course Hd). simpl fst. simpl snd.
  assert (Hat : <[i := assign course body]> (courses s) !! i = Some (assign course body)).
  { apply list_lookup_insert_eq. apply lookup_lt_is_Some. destruct Hd as [Hd _]. eauto. }
  split.
  - intros Hid.
    assert (Hget : get (assign course body) "id" = VStr id).
    { destruct Hd as (_ & Hc & _). unfold get in *.
      rewrite assign_lookup by discriminate. destruct Hid as [-> | ->]; [exact Hc|reflexivity]. }
    exists (assign course body), (json_obj (assign course body)).
    split; [reflexivity|]. split; [|split; [|split; [reflexivity|split; [|split]]]].
    + unfold get_course. simpl.
      rewrite (proj2 (find_designates id _ i (json_obj (assign course body)))); [reflexivity|].
      apply designates_json. apply (designates_insert id _ i course); [exact Hd|].
      destruct Hd as (_ & Hc & _). congruence.
    + simpl. now rewrite list_lookup_fmap, Hat.
    + pose proof (get_json_obj (assign course body) "id") as H. rewrite Hget in H.
      unfold get in H. destruct (json_obj (assign course body) !! "id") as [x|] eqn:E;
        simpl in H; [now rewrite H|discriminate].
    + intros k v Hk Hb. unfold json_obj. rewrite lookup_omap, assign_lookup, Hb by exact Hk.
      reflexivity.
    + intros k Hk Hb. unfold json_obj. rewrite lookup_omap, assign_lookup, Hb by exact Hk.
      reflexivity.
  - intros v Hv Hne Hothers. unfold get_course. simpl.
    rewrite (proj2 (find_unknown id _)); [reflexivity|].
    apply unknown_json. intros o Ho. apply list_elem_of_lookup in Ho as (j & Hj).
    destruct (decide (j = i)) as [->|Hji].
    + rewrite Hat in Hj. injection Hj as <-. unfold get.
      rewrite assign_lookup, Hv by discriminate. exact Hne.
    + rewrite list_lookup_insert_ne in Hj by congruence. now apply (Hothers j).
Qed.

Lemma put_course_then_get_witness :
  (exists course' got : obj,
      snd (put_course (initDb None) "c2" (object [("title", VStr "AP Physics 2")]))
      = Respond 200 (VObj course')
      /\ get_course (written (fst (put_course (initDb None) "c2"
                                    (object [("title", VStr "AP Physics 2")])))) "c2"
         = (written (fst (put_course (initDb None) "c2"
                            (object [("title", VStr "AP Physics 2")]))),
            Respond 200 (VObj got))
      /\ got !! "id" = Some (VStr "c2")
      /\ got !! "title" = Some (VStr "AP Physics 2")
      /\ got !! "description" = Some (VStr "Mechanics & waves"))
  /\ get_course (written (fst (put_course (initDb None) "c2" (object [("id", VStr "c9")]))))
       "c2"
     = (written (fst (put_course (initDb None) "c2" (object [("id", VStr "c9")]))),
        error 404 "Not found").
Proof.
  assert (Hd : designates "c2" (courses (initDb None)) 1 (default_courses !!! 1)).
  { apply designates_later; [vm_compute; discriminate|]. apply designates_here. reflexivity. }
  split.
  - destruct (proj1 (put_course_then_get _ "c2" (object [("title", VStr "AP Physics 2")])
                      _ _ Hd))
      as (course' & got & Hput & Hget & _ & _ & Hid & Hin & Hout); [left; reflexivity|].
    exists course', got. split; [exact Hput|]. split; [exact Hget|]. split; [exact Hid|].
    split.
    + rewrite (Hin "title" (VStr "AP Physics 2")); [reflexivity|discriminate|reflexivity].
    + rewrite (Hout "description"); [reflexivity|discriminate|reflexivity].
  - apply (proj2 (put_course_then_get (initDb None) "c2" (object [("id", VStr "c9")]) 1 _ Hd)
             (VStr "c9")).
    + reflexivity.
    + discriminate.
    + intros [|[|[|j]]] c Hj Hc; try congruence; simpl in Hc;
        try discriminate; injection Hc as <-; vm_compute; discriminate.
Defined.

(** ** A note and its author *)

Lemma post_note_created (fresh now : string) (s : store) (body : obj) (i : nat) (user : obj) :
  present body "courseId" -> present body "title" -> present body "content" ->
  present body "authorId" ->
  find_first (has "id" (get body "authorId")) (users s) = Some (i, user) ->
  post_note fresh now s body
  = (with_notes
       (communityNotes s
        ++ [object [("id", VStr fresh); ("courseId", get body "courseId");
                    ("title", get body "title"); ("content", get body "content");
                    ("author", get user "name"); ("authorId", get body "authorId");
                    ("createdAt", VStr now); ("downloads", VNum 0); ("ratings", VArr []);
                    ("averageRating", VNum 0)]]) s,
     Respond 200
       (VObj (object [("id", VStr fresh); ("courseId", get body "courseId");
                      ("title", get body "title"); ("content", get body "content");
                      ("author", get user "name"); ("authorId", get body "authorId");
                      ("createdAt", VStr now); ("downloads", VNum 0); ("ratings", VArr []);
                      ("averageRating", VNum 0)]))).
Proof.
  unfold present, post_note. intros -> -> -> -> Hf. simpl. now rewrite Hf.
Qed.

Lemma delete_note_ok (s : store) (id : string) (body : option obj) (i : nat) (note : obj) :
  designates id (communityNotes s) i note ->
  strict_eq (get note "authorId") (get (default ∅ body) "authorId") = true
  \/ truthy (get (default ∅ body) "forceDev") = true ->
  delete_note s id body
  = (with_notes (List.filter (fun n => negb (has "id" (VStr id) n)) (communityNotes s)) s,
     Respond 200 (VObj (object [("success", VBool true)]))).
Proof.
  intros Hd Hok. apply find_designates in Hd. unfold delete_note. rewrite Hd.
  destruct Hok as [-> | ->]; simpl; rewrite ?andb_false_r; reflexivity.
Qed.

Lemma unknown_filter (id : string) (l : list obj) :
  unknown id (List.filter (fun n => negb (has "id" (VStr id) n)) l).
Proof.
  intros o Ho. apply list_elem_of_In, filter_In in Ho as [_ Ho].
  apply negb_true_iff in Ho. unfold has in Ho. now apply strict_eq_str_false.
Qed.

(** A note created for an author (with a generated id that no note has) is
    stored last, carries the name of the first user with that id as author,
    and has no ratings; and every PUT and every DELETE for its id that brings
    the same authorId is answered 200, without forceDev. *)
Theorem author_edits_own_note (fresh now : string) (s : store) (body : obj)
        (i : nat) (user : obj) :
  present body "courseId" -> present body "title" -> present body "content" ->
  present body "authorId" ->
  find_first (has "id" (get body "authorId")) (users s) = Some (i, user) ->
  unknown fresh (communityNotes s) ->
  exists (s1 : store) (note : obj),
    post_note fresh now s body = (s1, Respond 200 (VObj note))
    /\ designates fresh (communityNotes s1) (length (communityNotes s)) note
    /\ get note "author" = get user "name"
    /\ get note "authorId" = get body "authorId"
    /\ unrated note
    /\ forall b : obj,
         get b "authorId" = get body "authorId" ->
         put_note s1 fresh b
         = (with_notes (<[length (communityNotes s) := edited b note]> (communityNotes s1)) s1,
            Respond 200 (VObj (edited b note)))
         /\ exists notes',
              delete_note s1 fresh (Some b)
              = (with_notes notes' s1, Respond 200 (VObj (object [("success", VBool true)])))
              /\ unknown fresh notes'.
Proof.
  intros Hc Ht Hco Ha Hf Hnew.
  rewrite (post_note_created fresh now s body i user Hc Ht Hco Ha Hf).
  eexists. eexists. split; [reflexivity|].
  assert (Hself : strict_eq (get body "authorId") (get body "authorId") = true).
  { apply find_first_Some in Hf as (_ & Hu & _). unfold has in Hu.
    exact (strict_eq_trans _ _ _ (strict_eq_sym _ _ Hu) Hu). }
  match goal with
  | |- designates _ _ _ ?n /\ _ => set (note := n)
  end.
  assert (Hd : designates fresh (communityNotes (with_notes (communityNotes s ++ [note]) s))
                 (length (communityNotes s)) note)
    by (apply designates_last; [exact Hnew | reflexivity]).
  split; [exact Hd|]. repeat (split; [reflexivity|]).
  intros b Hb. split.
  - apply (put_note_allowed _ fresh b _ note Hd). left.
    change (get note "authorId") with (get body "authorId"). rewrite Hb. exact Hself.
  - eexists. split; [|apply unknown_filter].
    apply (delete_note_ok _ fresh (Some b) _ note Hd). left.
    change (get note "authorId") with (get body "authorId"). simpl. rewrite Hb. exact Hself.
Qed.

Lemma author_edits_own_note_witness :
  exists (s1 : store) (note : obj),
    post_note "n2" "2024-01-03T00:00:00.000Z" (Examples.with_note [])
      (object [("courseId", VStr "c1"); ("title", VStr "T"); ("content", VStr "C");
               ("authorId", VStr "u1")])
    = (s1, Respond 200 (VObj note))
    /\ designates "n2" (communityNotes s1) 1 note
    /\ get note "author" = VStr "A"
    /\ get note "authorId" = VStr "u1"
    /\ unrated note
    /\ forall b : obj,
         get b "authorId" = VStr "u1" ->
         put_note s1 "n2" b
         = (with_notes (<[1 := edited b note]> (communityNotes s1)) s1,
            Respond 200 (VObj (edited b note)))
         /\ exists notes',
              delete_note s1 "n2" (Some b)
              = (with_notes notes' s1, Respond 200 (VObj (object [("success", VBool true)])))
              /\ unknown "n2" notes'.
Proof.
  apply (author_edits_own_note "n2" "2024-01-03T00:00:00.000Z" (Examples.with_note [])
           (object [("courseId", VStr "c1"); ("title", VStr "T"); ("content", VStr "C");
                    ("authorId", VStr "u1")]) 0 Examples.alice); try reflexivity.
  apply unknown_cons; [vm_compute; discriminate|]. apply unknown_nil.
Defined.

(** ** POST /api/auth/signup, then POST /api/auth/login *)

(** After a signup that succeeded, a login whose email is present and whose
    email and password are the same as the file has kept those of the signup
    is answered 200 with the id, and the email and name as the file has kept
    them: what the signup was answered, as it went over the wire.  A login
    with that email and a password that is not the one the file has kept is
    answered 400.  (Two values are the same when [===] says so; the file
    keeps a string as it is, and a number that is not finite as [null].) *)
Theorem signup_then_login (fresh now : string) (s : store) (body : obj) :
  present body "email" -> present body "password" -> present body "name" ->
  (forall u, u ∈ users s -> strict_eq (get u "email") (get body "email") = false) ->
  exists resp : obj,
    snd (signup fresh now s body) = Respond 200 (VObj resp)
    /\ (forall b : obj,
          present b "email" ->
          strict_eq (read_back (get body "email")) (get b "email") = true ->
          strict_eq (read_back (get body "password")) (get b "password") = true ->
          exists got : obj,
            login (written (fst (signup fresh now s body))) b
            = (written (fst (signup fresh now s body)), Respond 200 (VObj got))
            /\ got = json_obj resp
            /\ got !! "id" = Some (VStr fresh)
            /\ got !! "email" = Some (read_back (get body "email"))
            /\ got !! "name" = Some (read_back (get body "name"))
            /\ dom got = {["id"; "email"; "name"]})
    /\ (forall b : obj,
          present b "email" ->
          strict_eq (read_back (get body "email")) (get b "email") = true ->
          strict_eq (read_back (get body "password")) (get b "password") = false ->
          login (written (fst (signup fresh now s body))) b
          = (written (fst (signup fresh now s body)), error 400 "Invalid credentials")).
Proof.
  intros He Hp Hn Hnew. rewrite (signup_new fresh now s body He Hp Hn Hnew).
  eexists. split; [reflexivity|]. simpl fst.
  match goal with
  | |- context [with_users (_ ++ [?u]) _] => set (user := u)
  end.
  assert (Hearlier : forall b y, present b "email" ->
            strict_eq (read_back (get body "email")) (get b "email") = true ->
            y ∈ users s -> has "email" (get b "email") (json_obj y) = false).
  { intros b y Hb Hsame Hy. unfold has. rewrite get_json_obj.
    destruct (strict_eq (read_back (get y "email")) (get b "email")) eqn:E; [|reflexivity].
    assert (Ht : truthy (read_back (get y "email")) = true)
      by (rewrite (strict_eq_truthy_eq _ _ E); exact Hb).
    pose proof (strict_eq_trans _ _ _ E (strict_eq_sym _ _ Hsame)) as E'.
    rewrite <- (Hnew y Hy). symmetry. exact (read_back_strict_eq _ _ Ht E'). }
  assert (Hus : users (written (with_users (users s ++ [user]) s))
                = (json_obj <$> users s) ++ [json_obj user])
    by (simpl; now rewrite fmap_app).
  split.
  - intros b Hb Hsame Hpw. unfold login.
    rewrite (proj2 (find_first_Some _ (users (written (with_users (users s ++ [user]) s)))
                      (length (users s)) (json_obj user))).
    + eexists. split; [reflexivity|].
      rewrite !get_json_obj.
      change (get user "id") with (VStr fresh). change (get user "email") with (get body "email").
      change (get user "name") with (get body "name").
      change (read_back (VStr fresh)) with (VStr fresh).
      split; [|split; [reflexivity|split; [reflexivity|split; [reflexivity|]]]].
      * unfold json_obj, object. simpl.
        rewrite !omap_insert, omap_empty.
        rewrite (json_truthy _ He), (json_truthy _ Hn). reflexivity.
      * unfold object. simpl. rewrite !dom_insert_L. set_solver.
    + rewrite Hus. split; [|split].
      * rewrite <- (length_fmap json_obj (users s)). now apply list_lookup_middle.
      * unfold has. rewrite !get_json_obj.
        change (get user "email") with (get body "email").
        change (get user "password") with (get body "password"). now rewrite Hsame, Hpw.
      * intros j y Hj Hy. rewrite lookup_app_l in Hy by (now rewrite length_fmap).
        apply list_elem_of_lookup_2, list_elem_of_fmap in Hy as (x & -> & Hx).
        now rewrite (Hearlier b x Hb Hsame Hx).
  - intros b Hb Hsame Hwrong. unfold login.
    rewrite (proj2 (find_first_None _ _)); [reflexivity|].
    intros u Hu. rewrite Hus in Hu.
    apply elem_of_app in Hu as [Hu|Hu].
    + apply list_elem_of_fmap in Hu as (x & -> & Hx). now rewrite (Hearlier b x Hb Hsame Hx).
    + apply list_elem_of_singleton in Hu as ->. unfold has. rewrite !get_json_obj.
      change (get user "password") with (get body "password").
      rewrite Hwrong. apply andb_false_r.
Qed.

Lemma signup_then_login_witness :
  exists resp : obj,
    snd (signup "u2" "2024-01-05T00:00:00.000Z" (Examples.with_note [])
           (object [("email", VStr "c@d.org"); ("password", VStr "pw"); ("name", VStr "C")]))
    = Respond 200 (VObj resp)
    /\ snd (login (written (fst (signup "u2" "2024-01-05T00:00:00.000Z" (Examples.with_note [])
                                   (object [("email", VStr "c@d.org"); ("password", VStr "pw");
                                            ("name", VStr "C")]))))
              (object [("email", VStr "c@d.org"); ("password", VStr "pw")]))
       = Respond 200 (VObj (object [("id", VStr "u2"); ("email", VStr "c@d.org");
                                    ("name", VStr "C")]))
    /\ snd (login (written (fst (signup "u2" "2024-01-05T00:00:00.000Z" (Examples.with_note [])
                                   (object [("email", VStr "c@d.org"); ("password", VStr "pw");
                                            ("name", VStr "C")]))))
              (object [("email", VStr "c@d.org"); ("password", VStr "PW")]))
       = error 400 "Invalid credentials".
Proof.
  destruct (signup_then_login "u2" "2024-01-05T00:00:00.000Z" (Examples.with_note [])
              (object [("email", VStr "c@d.org"); ("password", VStr "pw"); ("name", VStr "C")]))
    as (resp & Hresp & Hok & Hwrong); try reflexivity.
  { intros u Hu. apply list_elem_of_singleton in Hu. subst u. reflexivity. }
  exists resp. split; [exact Hresp|]. split.
  - destruct (Hok (object [("email", VStr "c@d.org"); ("password", VStr "pw")]))
      as (got & Hlogin & -> & _); [reflexivity | reflexivity | reflexivity |].
    rewrite Hlogin. injection Hresp as <-. reflexivity.
  - rewrite (Hwrong (object [("email", VStr "c@d.org"); ("password", VStr "PW")]));
      reflexivity.
Defined.

(** ** POST /api/notes/:id/rate: what it touches *)

(** A rating that succeeds changes the note that the id designates in no
    property but ratings and averageRating, and changes no other note, no
    course, no user and not the analytics. *)
Theorem rate_frame (s s' : store) (id : string) (body : obj) (resp : value) :
  rate s id body = (s', Respond 200 resp) ->
  exists i note note',
    designates id (communityNotes s) i note
    /\ communityNotes s' = <[i := note']> (communityNotes s)
    /\ (forall k, k <> "ratings" -> k <> "averageRating" -> note' !! k = note !! k)
    /\ (forall j, j <> i -> communityNotes s' !! j = communityNotes s !! j)
    /\ length (communityNotes s') = length (communityNotes s)
    /\ courses s' = courses s /\ users s' = users s /\ analytics s' = analytics s.
Proof.
  intros H.
  destruct (rate_inv _ _ _ _ _ H)
    as (i & note & rs & rs' & total & average & Hd & _ & _ & _ & _ & _ & _ & -> & _).
  eexists i, note, _. split; [exact Hd|]. split; [reflexivity|]. split.
  - intros k. apply rated_other.
  - split; [|split; [apply length_insert|repeat split]].
    intros j Hj. simpl. now apply list_lookup_insert_ne.
Qed.

Lemma rate_frame_witness :
  exists i note note',
    designates "n1" (communityNotes (Examples.with_note [])) i note
    /\ communityNotes (fst (rate (Examples.with_note []) "n1"
                              (Examples.rating_body (VStr "u1") (VNum 5))))
       = <[i := note']> (communityNotes (Examples.with_note []))
    /\ (forall k, k <> "ratings" -> k <> "averageRating" -> note' !! k = note !! k)
    /\ (forall j, j <> i ->
        communityNotes (fst (rate (Examples.with_note []) "n1"
                               (Examples.rating_body (VStr "u1") (VNum 5)))) !! j
        = communityNotes (Examples.with_note []) !! j)
    /\ length (communityNotes (fst (rate (Examples.with_note []) "n1"
                                      (Examples.rating_body (VStr "u1") (VNum 5)))))
       = length (communityNotes (Examples.with_note []))
    /\ courses (fst (rate (Examples.with_note []) "n1"
                       (Examples.rating_body (VStr "u1") (VNum 5))))
       = courses (Examples.with_note [])
    /\ users (fst (rate (Examples.with_note []) "n1"
                     (Examples.rating_body (VStr "u1") (VNum 5))))
       = users (Examples.with_note [])
    /\ analytics (fst (rate (Examples.with_note []) "n1"
                         (Examples.rating_body (VStr "u1") (VNum 5))))
       = analytics (Examples.with_note []).
Proof.
  apply (rate_frame (Examples.with_note []) _ "n1" (Examples.rating_body (VStr "u1") (VNum 5))
           (VObj (object [("averageRating", VNum 5); ("ratingsCount", VNum 1)]))).
  reflexivity.
Defined.

(** ** POST /api/notes/:id/rate: a user's first rating *)

Lemma upsert_missing (userId rating : value) (rs : list value) :
  (forall r, r ∈ rs -> exists u, get_field r "userId" = Some u /\ strict_eq u userId = false) ->
  upsert userId rating rs = Some (rs ++ [VObj (object [("userId", userId); ("rating", rating)])]).
Proof.
  intros Hnone. unfold upsert. pose proof (find_rating_spec userId rs 0) as Hspec.
  destruct (find_rating userId 0 rs) as [i r| |]; [|reflexivity|].
  - destruct Hspec as (j & u & _ & Hj & Hu & He & _).
    destruct (Hnone r) as (u' & Hu' & He'); [apply list_elem_of_lookup; eauto|]. congruence.
  - destruct Hspec as (r & Hr & Hu). destruct (Hnone r Hr) as (u' & Hu' & _). congruence.
Qed.

(** The rating of a user of whom the note holds no entry (no entry's userId
    [===] the body's): the handler appends [{userId, rating}] to the entries
    the note holds and adds the ratings up.  When the sum or the division
    throws (an entry that is [null], a rating that is an object with a
    property toString) nothing is stored.  Otherwise the answer is 200, the
    note at its place holds the entries it held, as they were, and then the
    new one, with their average, and the answer counts one more.  When the
    ratings the note holds and the body's are numbers the answer is 200, with
    their mean. *)
Theorem rate_first_time_appends (s : store) (id : string) (body : obj) (i : nat) (note : obj)
        (rs : list value) :
  designates id (communityNotes s) i note ->
  js_or (get note "ratings") (VArr []) = VArr rs ->
  present body "userId" -> present body "rating" ->
  (forall r, r ∈ rs ->
     exists u, get_field r "userId" = Some u /\ strict_eq u (get body "userId") = false) ->
  match
    total_from (VNum 0)
      (rs ++ [VObj (object [("userId", get body "userId"); ("rating", get body "rating")])])
    ≫= (fun total => js_div total (VNum (Number.of_nat (S (length rs)))))
  with
  | None => rate s id body = (s, Throws)
  | Some average =>
      exists resp note' : obj,
        snd (rate s id body) = Respond 200 (VObj resp)
        /\ communityNotes (fst (rate s id body)) = <[i := note']> (communityNotes s)
        /\ communityNotes (fst (rate s id body)) !! i = Some note'
        /\ note' !! "ratings"
           = Some (VArr (rs ++ [VObj (object [("userId", get body "userId");
                                              ("rating", get body "rating")])]))
        /\ note' !! "averageRating" = Some (VNum average)
        /\ ratings_in (fst (rate s id body)) id
           = rs ++ [VObj (object [("userId", get body "userId"); ("rating", get body "rating")])]
        /\ resp !! "averageRating" = Some (VNum average)
        /\ resp !! "ratingsCount" = Some (VNum (Number.of_nat (S (length rs))))
  end
  /\ forall xs x,
       rating_values rs xs -> get body "rating" = VNum x ->
       exists resp : obj,
         snd (rate s id body) = Respond 200 (VObj resp)
         /\ resp !! "averageRating" = Some (VNum (mean (xs ++ [x]))).
Proof.
  intros Hd Hrs Hu Hr Hnone.
  pose proof (upsert_missing (get body "userId") (get body "rating") rs Hnone) as Hup.
  set (rs' := rs ++ [VObj (object [("userId", get body "userId"); ("rating", get body "rating")])])
    in *.
  assert (Hlen : length rs' = S (length rs))
    by (unfold rs'; rewrite length_app; simpl; lia).
  assert (Hfind : find_first (has "id" (VStr id)) (communityNotes s) = Some (i, note))
    by now apply find_designates.
  split.
  - destruct (total_from (VNum 0) rs') as [total|] eqn:Htot; simpl.
    + destruct (js_div total _) as [average|] eqn:Hdiv.
      * rewrite <- Hlen in Hdiv.
        rewrite (rate_ok s id body i note rs rs' total average Hd Hu Hr Hrs Hup Htot Hdiv).
        simpl fst. simpl snd.
        assert (Hat : <[i := rated note rs' average]> (communityNotes s) !! i
                      = Some (rated note rs' average)).
        { apply list_lookup_insert_eq. apply lookup_lt_is_Some. destruct Hd as [Hd _]. eauto. }
        eexists _, (rated note rs' average).
        split; [reflexivity|]. split; [reflexivity|]. split; [exact Hat|].
        split; [|split; [|split; [|split]]].
        -- unfold rated. rewrite lookup_insert_ne by discriminate. apply lookup_insert_eq.
        -- unfold rated. apply lookup_insert_eq.
        -- erewrite ratings_in_designated.
           ++ apply rated_fields.
           ++ simpl. apply (designates_insert id _ i note); [exact Hd|]. apply rated_fields.
        -- reflexivity.
        -- rewrite Hlen. reflexivity.
      * rewrite <- Hlen in Hdiv. unfold rate. unfold present in Hu, Hr. rewrite Hu, Hr. simpl.
        now rewrite Hfind, Hrs, Hup, Htot, Hdiv.
    + unfold rate. unfold present in Hu, Hr. rewrite Hu, Hr. simpl.
      now rewrite Hfind, Hrs, Hup, Htot.
  - intros xs x Hxs Hx.
    assert (Hvals : rating_values rs' (xs ++ [x])).
    { apply Forall2_app; [exact Hxs|]. constructor; [|constructor].
      rewrite <- Hx. reflexivity. }
    pose proof (total_from_numbers rs' (xs ++ [x]) 0 Hvals) as Htot.
    rewrite (rate_ok s id body i note rs rs' _ _ Hd Hu Hr Hrs Hup Htot (js_div_numbers _ _)).
    eexists. split; [reflexivity|]. simpl. unfold mean.
    rewrite <- (Forall2_length _ _ _ Hvals). reflexivity.
Qed.

Lemma rate_first_time_appends_witness :
  (exists resp note' : obj,
      snd (rate (Examples.with_note [Examples.entry (VStr "u2") (VNum 4)]) "n1"
             (Examples.rating_body (VStr "u1") (VNum 5)))
      = Respond 200 (VObj resp)
      /\ communityNotes (fst (rate (Examples.with_note [Examples.entry (VStr "u2") (VNum 4)])
                                "n1" (Examples.rating_body (VStr "u1") (VNum 5))))
         = [note']
      /\ note' !! "ratings"
         = Some (VArr [Examples.entry (VStr "u2") (VNum 4); Examples.entry (VStr "u1") (VNum 5)])
      /\ note' !! "averageRating" = Some (VNum 4.5)
      /\ resp !! "averageRating" = Some (VNum 4.5)
      /\ resp !! "ratingsCount" = Some (VNum 2))
  /\ rate (Examples.with_note [Examples.entry (VStr "u2") (VNum 4)]) "n1"
       (Examples.rating_body (VStr "u1") (VObj (object [("toString", VNum 0)])))
     = (Examples.with_note [Examples.entry (VStr "u2") (VNum 4)], Throws).
Proof.
  assert (Hd : designates "n1"
                 (communityNotes (Examples.with_note [Examples.entry (VStr "u2") (VNum 4)])) 0
                 (Examples.note_by [Examples.entry (VStr "u2") (VNum 4)]))
    by (apply designates_here; reflexivity).
  assert (Hnone : forall r, r ∈ [Examples.entry (VStr "u2") (VNum 4)] ->
            exists v, get_field r "userId" = Some v /\ strict_eq v (VStr "u1") = false).
  { intros r Hr. apply list_elem_of_singleton in Hr. subst r.
    exists (VStr "u2"). split; reflexivity. }
  split.
  - destruct (rate_first_time_appends _ "n1" (Examples.rating_body (VStr "u1") (VNum 5)) 0 _
                [Examples.entry (VStr "u2") (VNum 4)] Hd eq_refl eq_refl eq_refl
                Hnone)
      as [(resp & note' & Hresp & Hnotes & _ & Hrs & Hav & _ & Hrav & Hcount) _].
    exists resp, note'. repeat split; assumption.
  - exact (proj1 (rate_first_time_appends _ "n1"
                    (Examples.rating_body (VStr "u1") (VObj (object [("toString", VNum 0)])))
                    0 _ [Examples.entry (VStr "u2") (VNum 4)] Hd eq_refl eq_refl eq_refl
                    Hnone)).
Defined.

(** ** After DELETE /api/notes/:id *)

(** After a DELETE that succeeded the notes are fewer, and the id is gone:
    a PUT, a second DELETE and a rating for it are answered 404 (whoever
    asks, forceDev or not) and change nothing. *)
Theorem deleted_note_is_gone (s : store) (id : string) (body : option obj) (i : nat) (note : obj) :
  designates id (communityNotes s) i note ->
  strict_eq (get note "authorId") (get (default ∅ body) "authorId") = true
  \/ truthy (get (default ∅ body) "forceDev") = true ->
  exists s' : store,
    delete_note s id body = (s', Respond 200 (VObj (object [("success", VBool true)])))
    /\ length (communityNotes s') < length (communityNotes s)
    /\ (forall b, put_note s' id b = (s', error 404 "Note not found"))
    /\ (forall b, delete_note s' id b = (s', error 404 "Not found"))
    /\ (forall b, present b "userId" -> present b "rating" ->
                  rate s' id b = (s', error 404 "Note not found")).
Proof.
  intros Hd Hok. rewrite (delete_note_ok s id body i note Hd Hok).
  eexists. split; [reflexivity|].
  pose proof (proj2 (find_unknown id _) (unknown_filter id (communityNotes s))) as Hgone.
  split; [|split; [|split]].
  - simpl. apply (filter_shorter _ _ note); [now apply (designated_elem id _ i)|].
    destruct Hd as (_ & Hid & _). apply negb_false_iff. now apply has_id.
  - intros b. unfold put_note. simpl. now rewrite Hgone.
  - intros b. unfold delete_note. simpl. now rewrite Hgone.
  - unfold present. intros b Hu Hr. unfold rate. rewrite Hu, Hr. simpl. now rewrite Hgone.
Qed.

Lemma deleted_note_is_gone_witness :
  exists s' : store,
    delete_note (Examples.with_note []) "n1" (Some (object [("forceDev", VBool true)]))
    = (s', Respond 200 (VObj (object [("success", VBool true)])))
    /\ length (communityNotes s') < length (communityNotes (Examples.with_note []))
    /\ (forall b, put_note s' "n1" b = (s', error 404 "Note not found"))
    /\ (forall b, delete_note s' "n1" b = (s', error 404 "Not found"))
    /\ (forall b, present b "userId" -> present b "rating" ->
                  rate s' "n1" b = (s', error 404 "Note not found")).
Proof.
  apply (deleted_note_is_gone (Examples.with_note []) "n1" _ 0 (Examples.note_by [])).
  - apply designates_here. reflexivity.
  - right. reflexivity.
Defined.

(** * The client against the server *)

(** ** Refusals *)

Lemma refuse_error (failed msg : string) :
  truthy (VStr msg) = true ->
  Client.refuse failed (json (VObj (object [("error", VStr msg)]))) = Client.ThrowsError msg.
Proof.
  intros H. unfold Client.refuse. simpl.
  change (omap json _) with (json_obj (object [("error", VStr msg)])).
  rewrite get_json_obj. change (get (object [("error", VStr msg)]) "error") with (VStr msg).
  change (read_back (VStr msg)) with (VStr msg). unfold js_or. now rewrite H.
Qed.

Lemma not_ok_refused (c : Client.state) (status : nat) (body : option value)
      (noteId userId : string) (rating : value) :
  Client.ok status = false ->
  Client.createRemoteNote c (Client.Reply status body)
  = (c, Client.refuse "Failed to create note" body)
  /\ Client.editRemoteNote c (Client.Reply status body)
     = (c, Client.refuse "Failed to edit note" body)
  /\ Client.deleteRemoteNote c noteId (Client.Reply status body)
     = (c, Client.refuse "Failed to delete note" body)
  /\ Client.rateRemoteNote c noteId userId rating (Client.Reply status body)
     = (c, Client.refuse "Failed to rate note" body)
  /\ Client.createRemoteCourse c (Client.Reply status body)
     = (c, Client.refuse "Failed to create course" body)
  /\ Client.editRemoteCourse c (Client.Reply status body)
     = (c, Client.refuse "Failed to edit course" body)
  /\ Client.signupRemote c (Client.Reply status body) = (c, Client.refuse "Signup failed" body)
  /\ Client.loginRemote c (Client.Reply status body) = (c, Client.refuse "Login failed" body)
  /\ Client.loadRemoteData c (Client.Reply status body) = Client.fallback c.
Proof.
  intros Hok.
  unfold Client.createRemoteNote, Client.editRemoteNote, Client.deleteRemoteNote,
    Client.rateRemoteNote, Client.createRemoteCourse, Client.editRemoteCourse,
    Client.signupRemote, Client.loginRemote, Client.loadRemoteData, Client.answered.
  rewrite Hok. repeat split. now destruct body.
Qed.

Lemma error_reaches_caller (c : Client.state) (status : nat) (msg : string)
      (noteId userId : string) (rating : value) :
  Client.ok status = false -> truthy (VStr msg) = true ->
  let x := Client.reply status (VObj (object [("error", VStr msg)])) in
  Client.createRemoteNote c x = (c, Client.ThrowsError msg)
  /\ Client.editRemoteNote c x = (c, Client.ThrowsError msg)
  /\ Client.deleteRemoteNote c noteId x = (c, Client.ThrowsError msg)
  /\ Client.rateRemoteNote c noteId userId rating x = (c, Client.ThrowsError msg)
  /\ Client.createRemoteCourse c x = (c, Client.ThrowsError msg)
  /\ Client.editRemoteCourse c x = (c, Client.ThrowsError msg)
  /\ Client.signupRemote c x = (c, Client.ThrowsError msg)
  /\ Client.loginRemote c x = (c, Client.ThrowsError msg)
  /\ Client.loadRemoteData c x = Client.fallback c.
Proof.
  intros Hok Hmsg x. unfold x, Client.reply.
  destruct (not_ok_refused c status (json (VObj (object [("error", VStr msg)])))
              noteId userId rating Hok) as (-> & -> & -> & -> & -> & -> & -> & -> & ->).
  rewrite !refuse_error by exact Hmsg. repeat split.
Qed.

(** Whatever the server refuses reaches the caller: when a handler answers
    with a status other than 200, the body is [{error: msg}] and every helper
    that gets this answer throws an [Error] whose message is the server's
    [msg], leaving [window.appData], [window.currentUser] and [localStorage]
    as they were; [loadRemoteData] takes its fallback instead. *)
Theorem server_refusal_reaches_caller (s : store) (r : request) (c : Client.state)
        (noteId userId : string) (rating : value) :
  match handle s r with
  | (_, Respond status body) =>
      status = 200
      \/ exists msg,
           body = VObj (object [("error", VStr msg)])
           /\ Client.createRemoteNote c (Client.reply status body) = (c, Client.ThrowsError msg)
           /\ Client.editRemoteNote c (Client.reply status body) = (c, Client.ThrowsError msg)
           /\ Client.deleteRemoteNote c noteId (Client.reply status body)
              = (c, Client.ThrowsError msg)
           /\ Client.rateRemoteNote c noteId userId rating (Client.reply status body)
              = (c, Client.ThrowsError msg)
           /\ Client.createRemoteCourse c (Client.reply status body)
              = (c, Client.ThrowsError msg)
           /\ Client.editRemoteCourse c (Client.reply status body) = (c, Client.ThrowsError msg)
           /\ Client.signupRemote c (Client.reply status body) = (c, Client.ThrowsError msg)
           /\ Client.loginRemote c (Client.reply status body) = (c, Client.ThrowsError msg)
           /\ Client.loadRemoteData c (Client.reply status body) = Client.fallback c
  | (_, Throws) => True
  end.
Proof.
  destruct (handle s r) as [s' out] eqn:H.
  destruct r; simpl in H;
    unfold get_data, post_course, put_course, get_course, post_note, put_note,
      delete_note, rate, signup, login, error in H;
    split_branches_in H; injection H as <- <-;
    solve [ exact I | now left
          | right; eexists; split; [reflexivity|];
            apply error_reaches_caller; reflexivity ].
Qed.

(** ** Searching the cache *)

Lemma designates_tail (id : string) (h : obj) (l : list obj) (i : nat) (o : obj) :
  designates id (h :: l) (S i) o -> get h "id" <> VStr id /\ designates id l i o.
Proof.
  intros (Hi & Ho & Hlt). split; [apply (Hlt 0 h); [lia|reflexivity]|].
  split; [exact Hi|]. split; [exact Ho|].
  intros j o' Hj Hl. apply (Hlt (S j) o'); [lia|exact Hl].
Qed.

Lemma unknown_tail (id : string) (h : obj) (l : list obj) :
  unknown id (h :: l) -> get h "id" <> VStr id /\ unknown id l.
Proof.
  intros H. split; [apply H; left|]. intros o Ho. apply H. now right.
Qed.

Lemma findIndex_designates (id : string) (l : list obj) (i : nat) (o x : obj) (k : nat) :
  designates id l i o -> get x "id" = VStr id ->
  Client.findIndex (VObj x) k (VObj <$> l) = Some (Some (k + i)).
Proof.
  intros Hd Hx. revert i k Hd. induction l as [|h l IH]; intros i k Hd.
  - now destruct Hd as [Hd _].
  - rewrite fmap_cons. cbn [Client.findIndex get_field]. rewrite Hx. destruct i as [|i].
    + destruct Hd as (Hi & Ho & _). injection Hi as ->.
      rewrite (proj2 (strict_eq_str _ _) Ho). now rewrite Nat.add_0_r.
    + destruct (designates_tail _ _ _ _ _ Hd) as [Hh Hd'].
      rewrite (proj2 (strict_eq_str_false _ _) Hh), (IH i (S k) Hd'). do 2 f_equal. lia.
Qed.

Lemma findIndex_unknown (id : string) (l : list obj) (x : obj) (k : nat) :
  unknown id l -> get x "id" = VStr id -> Client.findIndex (VObj x) k (VObj <$> l) = Some None.
Proof.
  intros Hu Hx. revert k. induction l as [|h l IH]; intros k; [reflexivity|].
  destruct (unknown_tail _ _ _ Hu) as [Hh Hu'].
  rewrite fmap_cons. cbn [Client.findIndex get_field]. rewrite Hx.
  rewrite (proj2 (strict_eq_str_false _ _) Hh). now apply IH.
Qed.

Lemma find_id_designates (id : string) (l : list obj) (i : nat) (o : obj) (k : nat) :
  designates id l i o -> Client.find_id id k (VObj <$> l) = Some (Some (k + i, VObj o)).
Proof.
  revert i k. induction l as [|h l IH]; intros i k Hd.
  - now destruct Hd as [Hd _].
  - rewrite fmap_cons. cbn [Client.find_id get_field]. destruct i as [|i].
    + destruct Hd as (Hi & Ho & _). injection Hi as ->.
      rewrite (proj2 (strict_eq_str _ _) Ho). now rewrite Nat.add_0_r.
    + destruct (designates_tail _ _ _ _ _ Hd) as [Hh Hd'].
      rewrite (proj2 (strict_eq_str_false _ _) Hh), (IH i (S k) Hd'). do 3 f_equal. lia.
Qed.

Lemma without_objects (id : string) (l : list obj) :
  Client.without id (VObj <$> l)
  = Some (VObj <$> List.filter (fun n => negb (has "id" (VStr id) n)) l).
Proof.
  induction l as [|h l IH]; [reflexivity|].
  rewrite fmap_cons. cbn [Client.without get_field List.filter]. rewrite IH. unfold has. now destruct (strict_eq (get h "id") (VStr id)).
Qed.

Lemma get_insert (o : obj) (k : string) (v : value) : get (<[k := v]> o) k = v.
Proof. unfold get. now rewrite lookup_insert_eq. Qed.

Lemma get_insert_ne (o : obj) (k k' : string) (v : value) :
  k <> k' -> get (<[k := v]> o) k' = get o k'.
Proof. intros H. unfold get. now rewrite lookup_insert_ne. Qed.

Lemma mirror_cached (k : string) (l : list obj) (data : obj) (c : Client.state) :
  Client.appData c = Some data ->
  Client.cached k (Client.mirror (<[k := VArr (VObj <$> l)]> data) c) l
  /\ Client.mirrored (Client.mirror (<[k := VArr (VObj <$> l)]> data) c)
  /\ forall k' l', k' <> k -> Client.cached k' c l' ->
       Client.cached k' (Client.mirror (<[k := VArr (VObj <$> l)]> data) c) l'.
Proof.
  intros Hc. split; [|split].
  - eexists. split; [reflexivity|]. apply get_insert.
  - eexists. split; reflexivity.
  - intros k' l' Hk (d & Hd & Hl). eexists. split; [reflexivity|].
    rewrite get_insert_ne by congruence. congruence.
Qed.

Lemma pushed_cached (k : string) (x : obj) (c : Client.state) (l : list obj) :
  Client.cached k c l ->
  exists c', Client.pushed k (VObj x) c = Some c'
             /\ Client.cached k c' (l ++ [x]) /\ Client.mirrored c'
             /\ forall k' l', k' <> k -> Client.cached k' c l' -> Client.cached k' c' l'.
Proof.
  intros (data & Hc & Hl). unfold Client.pushed. rewrite Hc, Hl. simpl.
  eexists. split; [reflexivity|].
  change [VObj x] with (VObj <$> [x]). rewrite <- fmap_app.
  now apply mirror_cached.
Qed.

Lemma replaced_cached (k id : string) (x : obj) (c : Client.state) (l : list obj)
      (i : nat) (o : obj) :
  Client.cached k c l -> designates id l i o -> get x "id" = VStr id ->
  exists c', Client.replaced k (VObj x) c = Some c'
             /\ Client.cached k c' (<[i := x]> l) /\ Client.mirrored c'
             /\ forall k' l', k' <> k -> Client.cached k' c l' -> Client.cached k' c' l'.
Proof.
  intros (data & Hc & Hl) Hd Hx. unfold Client.replaced.
  rewrite Hc, Hl, (findIndex_designates id l i o x 0 Hd Hx). simpl.
  eexists. split; [reflexivity|].
  rewrite <- list_fmap_insert. now apply mirror_cached.
Qed.

Lemma replaced_unknown (k id : string) (x : obj) (c : Client.state) (l : list obj) :
  Client.cached k c l -> unknown id l -> get x "id" = VStr id ->
  exists c', Client.replaced k (VObj x) c = Some c'
             /\ Client.cached k c' l /\ Client.mirrored c'
             /\ forall k' l', Client.cached k' c l' -> Client.cached k' c' l'.
Proof.
  intros (data & Hc & Hl) Hu Hx. unfold Client.replaced.
  rewrite Hc, Hl, (findIndex_unknown id l x 0 Hu Hx).
  eexists. split; [reflexivity|]. split; [|split].
  - eexists. split; [reflexivity|exact Hl].
  - eexists. split; reflexivity.
  - intros k' l' (d & Hd & Hl'). eexists. split; [reflexivity|]. congruence.
Qed.

(** ** Notes: the cache follows the server *)

Lemma post_note_inv (fresh now : string) (s : store) (body : obj) (note : value) :
  snd (post_note fresh now s body) = Respond 200 note ->
  exists o, note = VObj o
            /\ communityNotes (fst (post_note fresh now s body)) = communityNotes s ++ [o].
Proof.
  unfold post_note, error. intros H. split_branches_in H; try discriminate.
  injection H as <-. eauto.
Qed.

Lemma put_note_inv (s : store) (id : string) (body : obj) (note : value) :
  snd (put_note s id body) = Respond 200 note ->
  exists i o, designates id (communityNotes s) i o
              /\ note = VObj (edited body o)
              /\ communityNotes (fst (put_note s id body))
                 = <[i := edited body o]> (communityNotes s).
Proof.
  unfold put_note, error. intros H.
  destruct (find_first _ _) as [[i o]|] eqn:Hf; [|discriminate].
  apply find_designates in Hf. destruct (_ && _); [discriminate|].
  injection H as <-. exists i, o. split; [exact Hf|]. split; reflexivity.
Qed.

Lemma delete_note_inv (s : store) (id : string) (body : option obj) (resp : value) :
  snd (delete_note s id body) = Respond 200 resp ->
  communityNotes (fst (delete_note s id body))
  = List.filter (fun n => negb (has "id" (VStr id) n)) (communityNotes s).
Proof.
  unfold delete_note, error. intros H. split_branches_in H; try discriminate. reflexivity.
Qed.

Lemma post_course_inv (fresh : string) (s : store) (body : obj) (course : value) :
  snd (post_course fresh s body) = Respond 200 course ->
  exists o, course = VObj o /\ courses (fst (post_course fresh s body)) = courses s ++ [o].
Proof.
  unfold post_course, error. intros H. split_branches_in H; try discriminate.
  injection H as <-. eauto.
Qed.

Lemma put_course_inv (s : store) (id : string) (body : obj) (course : value) :
  snd (put_course s id body) = Respond 200 course ->
  exists i o, designates id (courses s) i o
              /\ course = VObj (assign o body)
              /\ courses (fst (put_course s id body)) = <[i := assign o body]> (courses s).
Proof.
  unfold put_course, error. intros H.
  destruct (find_first _ _) as [[i o]|] eqn:Hf; [|discriminate].
  apply find_designates in Hf. injection H as <-. exists i, o. split; [exact Hf|]. split; reflexivity.
Qed.

Lemma answered_merged (failed : string) (c c' : Client.state) (v : value)
      (merge : value -> option Client.state) :
  json v = Some v -> merge v = Some c' ->
  Client.answered failed c (Client.reply 200 v) merge = (c', Client.Returns v).
Proof. intros Hv Hm. unfold Client.answered, Client.reply. rewrite Hv. simpl. now rewrite Hm. Qed.

(** [createRemoteNote] keeps the cached notes in step with the server: when
    the cache holds the server's notes, the server answers the helper's POST
    with the new note and that note is read back as sent, the helper returns
    the note, the cache holds the server's notes again, the mirror in
    [localStorage] is the text of the cache, and the other collections of the
    cache are as before. *)
Theorem createRemoteNote_in_sync (fresh now : string) (s : store) (args : obj)
        (c : Client.state) (note : value) :
  Client.cached "communityNotes" c (communityNotes s) ->
  snd (post_note fresh now s (Client.createRemoteNote_sends args)) = Respond 200 note ->
  json note = Some note ->
  exists c',
    Client.createRemoteNote c (Client.reply 200 note) = (c', Client.Returns note)
    /\ Client.cached "communityNotes" c'
         (communityNotes (fst (post_note fresh now s (Client.createRemoteNote_sends args))))
    /\ Client.mirrored c'
    /\ forall k l, k <> "communityNotes" -> Client.cached k c l -> Client.cached k c' l.
Proof.
  intros Hc H Hj. destruct (post_note_inv _ _ _ _ _ H) as (o & -> & ->).
  destruct (pushed_cached "communityNotes" o c _ Hc) as (c' & Hp & Hc' & Hm & Hk).
  exists c'. split; [|auto]. now apply answered_merged.
Qed.

Lemma createRemoteNote_in_sync_witness :
  exists c',
    Client.createRemoteNote (Browser.loaded [Examples.note_by []])
      (Client.reply 200 (VObj Browser.new_note))
    = (c', Client.Returns (VObj Browser.new_note))
    /\ Client.cached "communityNotes" c'
         (communityNotes (fst (post_note "n2" "2024-01-03T00:00:00.000Z" (Examples.with_note [])
                                 (Client.createRemoteNote_sends Browser.note_args))))
    /\ Client.mirrored c'
    /\ forall k l, k <> "communityNotes" ->
         Client.cached k (Browser.loaded [Examples.note_by []]) l -> Client.cached k c' l.
Proof.
  apply (createRemoteNote_in_sync "n2" "2024-01-03T00:00:00.000Z" (Examples.with_note [])
           Browser.note_args (Browser.loaded [Examples.note_by []]) (VObj Browser.new_note)).
  - eexists. split; reflexivity.
  - reflexivity.
  - reflexivity.
Defined.

(** [editRemoteNote] keeps the cached notes in step with the server: the
    note the server edited is the one the helper replaces in the cache (both
    take the first note with the id), and the mirror follows. *)
Theorem editRemoteNote_in_sync (s : store) (noteId : string) (args : obj)
        (c : Client.state) (note : value) :
  Client.cached "communityNotes" c (communityNotes s) ->
  snd (put_note s noteId (Client.editRemoteNote_sends args)) = Respond 200 note ->
  json note = Some note ->
  exists c',
    Client.editRemoteNote c (Client.reply 200 note) = (c', Client.Returns note)
    /\ Client.cached "communityNotes" c'
         (communityNotes (fst (put_note s noteId (Client.editRemoteNote_sends args))))
    /\ Client.mirrored c'
    /\ forall k l, k <> "communityNotes" -> Client.cached k c l -> Client.cached k c' l.
Proof.
  intros Hc H Hj. destruct (put_note_inv _ _ _ _ H) as (i & o & Hd & -> & ->).
  destruct (replaced_cached "communityNotes" noteId (edited (Client.editRemoteNote_sends args) o)
              c _ i o Hc Hd) as (c' & Hp & Hc' & Hm & Hk).
  { unfold get. rewrite edited_other by discriminate. apply Hd. }
  exists c'. split; [|auto]. now apply answered_merged.
Qed.

Lemma editRemoteNote_in_sync_witness :
  exists c',
    Client.editRemoteNote (Browser.loaded [Examples.note_by []])
      (Client.reply 200 (VObj (edited (Client.editRemoteNote_sends Browser.edit_args)
                                 (Examples.note_by []))))
    = (c', Client.Returns (VObj (edited (Client.editRemoteNote_sends Browser.edit_args)
                                   (Examples.note_by []))))
    /\ Client.cached "communityNotes" c'
         (communityNotes (fst (put_note (Examples.with_note []) "n1"
                                 (Client.editRemoteNote_sends Browser.edit_args))))
    /\ Client.mirrored c'
    /\ forall k l, k <> "communityNotes" ->
         Client.cached k (Browser.loaded [Examples.note_by []]) l -> Client.cached k c' l.
Proof.
  apply (editRemoteNote_in_sync (Examples.with_note []) "n1" Browser.edit_args
           (Browser.loaded [Examples.note_by []])).
  - eexists. split; reflexivity.
  - reflexivity.
  - reflexivity.
Defined.

(** [deleteRemoteNote] keeps the cached notes in step with the server: after
    a 200 answer the helper returns [true] and drops from the cache the notes
    the server dropped; the mirror follows.  What the answer's body is does
    not matter. *)
Theorem deleteRemoteNote_in_sync (s : store) (noteId : string) (args : option obj)
        (c : Client.state) (resp : value) :
  Client.cached "communityNotes" c (communityNotes s) ->
  snd (delete_note s noteId (Some (Client.deleteRemoteNote_sends args))) = Respond 200 resp ->
  exists c',
    Client.deleteRemoteNote c noteId (Client.reply 200 resp) = (c', Client.Returns (VBool true))
    /\ Client.cached "communityNotes" c'
         (communityNotes (fst (delete_note s noteId (Some (Client.deleteRemoteNote_sends args)))))
    /\ Client.mirrored c'
    /\ forall k l, k <> "communityNotes" -> Client.cached k c l -> Client.cached k c' l.
Proof.
  intros Hc H. rewrite (delete_note_inv _ _ _ _ H).
  destruct Hc as (data & Hc & Hl).
  unfold Client.deleteRemoteNote, Client.reply. change (Client.ok 200) with true.
  rewrite Hc, Hl. unfold js_or. cbn [truthy]. cbv iota. rewrite without_objects.
  eexists. split; [reflexivity|]. now apply mirror_cached.
Qed.

Lemma deleteRemoteNote_in_sync_witness :
  exists c',
    Client.deleteRemoteNote (Browser.loaded [Examples.note_by []]) "n1"
      (Client.reply 200 (VObj (object [("success", VBool true)])))
    = (c', Client.Returns (VBool true))
    /\ Client.cached "communityNotes" c'
         (communityNotes (fst (delete_note (Examples.with_note []) "n1"
                                 (Some (Client.deleteRemoteNote_sends (Some Browser.edit_args))))))
    /\ Client.mirrored c'
    /\ forall k l, k <> "communityNotes" ->
         Client.cached k (Browser.loaded [Examples.note_by []]) l -> Client.cached k c' l.
Proof.
  apply (deleteRemoteNote_in_sync (Examples.with_note []) "n1" (Some Browser.edit_args)
           (Browser.loaded [Examples.note_by []])).
  - eexists. split; reflexivity.
  - reflexivity.
Defined.

Lemma get_object_here (k : string) (v : value) (l : list (string * value)) :
  get (object ((k, v) :: l)) k = v.
Proof. apply get_insert. Qed.

Lemma get_object_later (k k' : string) (v : value) (l : list (string * value)) :
  k <> k' -> get (object ((k, v) :: l)) k' = get (object l) k'.
Proof. apply get_insert_ne. Qed.

Lemma get_sent_here (k : string) (v : value) (l : list (string * value)) :
  json v = Some v -> get (Client.sent ((k, v) :: l)) k = v.
Proof.
  intros H. unfold Client.sent. rewrite get_json_obj, get_object_here.
  unfold read_back. now rewrite H.
Qed.

Lemma get_sent_later (k k' : string) (v : value) (l : list (string * value)) :
  k <> k' -> get (Client.sent ((k, v) :: l)) k' = get (Client.sent l) k'.
Proof.
  intros H. unfold Client.sent. now rewrite !get_json_obj, get_object_later.
Qed.

(** [rateRemoteNote] keeps the cached notes in step with the server: with a
    rating that is sent as it is (JSON keeps it), after a 200 answer that is
    read back as sent the cached note has the ratings and the averageRating
    that the server's note has; the mirror follows. *)
Theorem rateRemoteNote_in_sync (s : store) (noteId userId : string) (rating : value)
        (c : Client.state) (data : value) :
  Client.cached "communityNotes" c (communityNotes s) ->
  json rating = Some rating ->
  snd (rate s noteId (Client.rateRemoteNote_sends userId rating)) = Respond 200 data ->
  json data = Some data ->
  exists c',
    Client.rateRemoteNote c noteId userId rating (Client.reply 200 data)
    = (c', Client.Returns data)
    /\ Client.cached "communityNotes" c'
         (communityNotes (fst (rate s noteId (Client.rateRemoteNote_sends userId rating))))
    /\ Client.mirrored c'
    /\ forall k l, k <> "communityNotes" -> Client.cached k c l -> Client.cached k c' l.
Proof.
  intros (app & Hc & Hl) Hr H Hj.
  destruct (rate s noteId _) as [s' out] eqn:E. simpl in H. subst out. simpl fst.
  destruct (rate_inv _ _ _ _ _ E)
    as (i & note & rs & rs' & total & average & Hd & _ & _ & Hrs & Hup & _ & _ & -> & ->).
  unfold Client.rateRemoteNote_sends in Hup.
  rewrite get_sent_here in Hup by reflexivity.
  rewrite get_sent_later, get_sent_here in Hup by (discriminate || exact Hr).
  unfold Client.rateRemoteNote, Client.reply. rewrite Hj. change (Client.ok 200) with true.
  cbv iota. rewrite Hc, Hl, (find_id_designates noteId _ i note 0 Hd).
  cbn [get_field]. rewrite get_object_here. cbv zeta.
  rewrite get_insert_ne by discriminate. rewrite Hrs, Hup.
  eexists. split; [reflexivity|].
  rewrite <- list_fmap_insert.
  rewrite (insert_insert_ne (M := gmap string)) by discriminate.
  apply (mirror_cached "communityNotes" _ app c Hc).
Qed.

Lemma rateRemoteNote_in_sync_witness :
  exists c',
    Client.rateRemoteNote (Browser.loaded [Examples.note_by []]) "n1" "u1" (VNum 5)
      (Client.reply 200 (VObj (object [("averageRating", VNum 5); ("ratingsCount", VNum 1)])))
    = (c', Client.Returns (VObj (object [("averageRating", VNum 5); ("ratingsCount", VNum 1)])))
    /\ Client.cached "communityNotes" c'
         (communityNotes (fst (rate (Examples.with_note []) "n1"
                                 (Client.rateRemoteNote_sends "u1" (VNum 5)))))
    /\ Client.mirrored c'
    /\ forall k l, k <> "communityNotes" ->
         Client.cached k (Browser.loaded [Examples.note_by []]) l -> Client.cached k c' l.
Proof.
  apply (rateRemoteNote_in_sync (Examples.with_note []) "n1" "u1" (VNum 5)
           (Browser.loaded [Examples.note_by []])).
  - eexists. split; reflexivity.
  - reflexivity.
  - reflexivity.
  - reflexivity.
Defined.

(** ** Courses, login and loading *)

(** [createRemoteCourse] keeps the cached courses in step with the server. *)
Theorem createRemoteCourse_in_sync (fresh : string) (s : store) (args : obj)
        (c : Client.state) (course : value) :
  Client.cached "courses" c (courses s) ->
  snd (post_course fresh s (Client.createRemoteCourse_sends args)) = Respond 200 course ->
  json course = Some course ->
  exists c',
    Client.createRemoteCourse c (Client.reply 200 course) = (c', Client.Returns course)
    /\ Client.cached "courses" c'
         (courses (fst (post_course fresh s (Client.createRemoteCourse_sends args))))
    /\ Client.mirrored c'
    /\ forall k l, k <> "courses" -> Client.cached k c l -> Client.cached k c' l.
Proof.
  intros Hc H Hj. destruct (post_course_inv _ _ _ _ H) as (o & -> & ->).
  destruct (pushed_cached "courses" o c _ Hc) as (c' & Hp & Hc' & Hm & Hk).
  exists c'. split; [|auto]. now apply answered_merged.
Qed.

Lemma createRemoteCourse_in_sync_witness :
  exists c',
    Client.createRemoteCourse (Browser.loaded [Examples.note_by []])
      (Client.reply 200 (VObj Browser.new_course))
    = (c', Client.Returns (VObj Browser.new_course))
    /\ Client.cached "courses" c'
         (courses (fst (post_course "c4" (Examples.with_note [])
                          (Client.createRemoteCourse_sends Browser.course_args))))
    /\ Client.mirrored c'
    /\ forall k l, k <> "courses" ->
         Client.cached k (Browser.loaded [Examples.note_by []]) l -> Client.cached k c' l.
Proof.
  apply (createRemoteCourse_in_sync "c4" (Examples.with_note []) Browser.course_args
           (Browser.loaded [Examples.note_by []]) (VObj Browser.new_course)).
  - eexists. split; reflexivity.
  - reflexivity.
  - reflexivity.
Defined.

(** [editRemoteCourse] keeps the cached courses in step with the server when
    the answered course still has the id that was asked for. *)
Theorem editRemoteCourse_in_sync (s : store) (courseId : string) (updates : obj)
        (c : Client.state) (course : value) :
  Client.cached "courses" c (courses s) ->
  snd (put_course s courseId (Client.editRemoteCourse_sends updates)) = Respond 200 course ->
  json course = Some course ->
  get_field course "id" = Some (VStr courseId) ->
  exists c',
    Client.editRemoteCourse c (Client.reply 200 course) = (c', Client.Returns course)
    /\ Client.cached "courses" c'
         (courses (fst (put_course s courseId (Client.editRemoteCourse_sends updates))))
    /\ Client.mirrored c'
    /\ forall k l, k <> "courses" -> Client.cached k c l -> Client.cached k c' l.
Proof.
  intros Hc H Hj Hid. destruct (put_course_inv _ _ _ _ H) as (i & o & Hd & -> & ->).
  injection Hid as Hid.
  destruct (replaced_cached "courses" courseId _ c _ i o Hc Hd Hid)
    as (c' & Hp & Hc' & Hm & Hk).
  exists c'. split; [|auto]. now apply answered_merged.
Qed.

Lemma editRemoteCourse_in_sync_witness :
  exists c',
    Client.editRemoteCourse (Browser.loaded [])
      (Client.reply 200 (VObj (assign Browser.first_course
                                 (Client.editRemoteCourse_sends Browser.retitled))))
    = (c', Client.Returns (VObj (assign Browser.first_course
                                   (Client.editRemoteCourse_sends Browser.retitled))))
    /\ Client.cached "courses" c'
         (courses (fst (put_course (Examples.with_note []) "c1"
                          (Client.editRemoteCourse_sends Browser.retitled))))
    /\ Client.mirrored c'
    /\ forall k l, k <> "courses" -> Client.cached k (Browser.loaded []) l -> Client.cached k c' l.
Proof.
  apply (editRemoteCourse_in_sync (Examples.with_note []) "c1" Browser.retitled
           (Browser.loaded [])).
  - eexists. split; reflexivity.
  - reflexivity.
  - reflexivity.
  - reflexivity.
Defined.

(** [editRemoteCourse] looks the course up in the cache by the id of the
    answered course, not by [courseId]: when the update gave the course an id
    that no course had, the helper returns the course but changes nothing in
    the cache, which then no longer holds the server's courses. *)
Theorem editRemoteCourse_new_id_is_stale (s : store) (courseId id' : string) (updates : obj)
        (c : Client.state) (course : value) :
  Client.cached "courses" c (courses s) ->
  snd (put_course s courseId (Client.editRemoteCourse_sends updates)) = Respond 200 course ->
  json course = Some course ->
  get_field course "id" = Some (VStr id') -> unknown id' (courses s) ->
  exists c',
    Client.editRemoteCourse c (Client.reply 200 course) = (c', Client.Returns course)
    /\ Client.cached "courses" c' (courses s)
    /\ courses (fst (put_course s courseId (Client.editRemoteCourse_sends updates)))
       <> courses s
    /\ ~ Client.cached "courses" c'
           (courses (fst (put_course s courseId (Client.editRemoteCourse_sends updates)))).
Proof.
  intros Hc H Hj Hid Hu. destruct (put_course_inv _ _ _ _ H) as (i & o & Hd & -> & He).
  injection Hid as Hid.
  destruct (replaced_unknown "courses" id' _ c _ Hc Hu Hid) as (c' & Hp & Hc' & Hm & Hk).
  assert (Hne : courses (fst (put_course s courseId (Client.editRemoteCourse_sends updates)))
                <> courses s).
  { rewrite He. intros Heq.
    assert (Hi : <[i := assign o (Client.editRemoteCourse_sends updates)]> (courses s) !! i
                 = Some (assign o (Client.editRemoteCourse_sends updates))).
    { apply list_lookup_insert_eq. apply lookup_lt_is_Some. destruct Hd as [Hd _]. eauto. }
    rewrite Heq in Hi. apply (Hu _ (proj2 (list_elem_of_lookup _ _) (ex_intro _ i Hi))).
    exact Hid. }
  exists c'. split; [now apply answered_merged|]. split; [exact Hc'|]. split; [exact Hne|].
  intros (d & Hd1 & Hd2). destruct Hc' as (d' & Hd1' & Hd2').
  rewrite Hd1 in Hd1'. injection Hd1' as <-. rewrite Hd2 in Hd2'.
  injection Hd2' as Hd2'. apply Hne.
  assert (HI : Inj (=) (=) VObj) by (intros a b [= ->]; reflexivity).
  now apply (list_fmap_eq_inj VObj) in Hd2'.
Qed.

Lemma editRemoteCourse_new_id_is_stale_witness :
  exists c',
    Client.editRemoteCourse (Browser.loaded [])
      (Client.reply 200 (VObj (assign Browser.first_course
                                 (Client.editRemoteCourse_sends Browser.renamed))))
    = (c', Client.Returns (VObj (assign Browser.first_course
                                   (Client.editRemoteCourse_sends Browser.renamed))))
    /\ Client.cached "courses" c' (courses (Examples.with_note []))
    /\ courses (fst (put_course (Examples.with_note []) "c1"
                       (Client.editRemoteCourse_sends Browser.renamed)))
       <> courses (Examples.with_note [])
    /\ ~ Client.cached "courses" c'
           (courses (fst (put_course (Examples.with_note []) "c1"
                            (Client.editRemoteCourse_sends Browser.renamed)))).
Proof.
  apply (editRemoteCourse_new_id_is_stale (Examples.with_note []) "c1" "calc" Browser.renamed
           (Browser.loaded [])).
  - eexists. split; reflexivity.
  - reflexivity.
  - reflexivity.
  - reflexivity.
  - repeat (apply unknown_cons; [vm_compute; discriminate|]). apply unknown_nil.
Defined.

(** After a login that the server accepts, [loginRemote] returns the answered
    user, keeps it as [window.currentUser] and under [currentUser] in
    [localStorage], without a password, and leaves [window.appData] and its
    mirror alone; [signupRemote] given the same answer returns it and changes
    nothing. *)
Theorem loginRemote_after_login (s : store) (args : obj) (c : Client.state) (user : value) :
  snd (login s (Client.loginRemote_sends args)) = Respond 200 user ->
  json user = Some user ->
  exists c',
    Client.loginRemote c (Client.reply 200 user) = (c', Client.Returns user)
    /\ Client.currentUser c' = user /\ Client.saved_currentUser c' = Some user
    /\ get_field user "password" = Some VUndefined
    /\ Client.appData c' = Client.appData c /\ Client.saved_appData c' = Client.saved_appData c
    /\ Client.signupRemote c (Client.reply 200 user) = (c, Client.Returns user).
Proof.
  intros H Hj. eexists. split.
  { unfold Client.loginRemote. now apply answered_merged. }
  split; [reflexivity|]. split; [exact Hj|]. split.
  - unfold login, error in H. split_branches_in H; try discriminate.
    injection H as <-. reflexivity.
  - split; [reflexivity|]. split; [reflexivity|].
    unfold Client.signupRemote. now apply answered_merged.
Qed.

Lemma loginRemote_after_login_witness :
  exists c',
    Client.loginRemote (Browser.loaded [])
      (Client.reply 200 (public_user Examples.alice))
    = (c', Client.Returns (public_user Examples.alice))
    /\ Client.currentUser c' = public_user Examples.alice
    /\ Client.saved_currentUser c' = Some (public_user Examples.alice)
    /\ get_field (public_user Examples.alice) "password" = Some VUndefined
    /\ Client.appData c' = Client.appData (Browser.loaded [])
    /\ Client.saved_appData c' = Client.saved_appData (Browser.loaded [])
    /\ Client.signupRemote (Browser.loaded []) (Client.reply 200 (public_user Examples.alice))
       = (Browser.loaded [], Client.Returns (public_user Examples.alice)).
Proof.
  apply (loginRemote_after_login (Examples.with_note []) Browser.login_args).
  - reflexivity.
  - reflexivity.
Defined.

(** [loadRemoteData] without a usable answer (no connection, a status that
    is not ok, text that is no JSON, or [null]) does not throw: it returns
    [window.appData], which is then what [localStorage] holds when it holds
    something and is unchanged otherwise; [localStorage] and the current user
    are untouched.  After a helper that mirrored the cache, this is the cache
    as JSON keeps it. *)
Theorem loadRemoteData_offline (c : Client.state) (x : Client.exchange) :
  x = Client.Unreachable
  \/ (exists status body,
        x = Client.Reply status body
        /\ (Client.ok status = false \/ body = None \/ body = Some VNull)) ->
  exists c',
    Client.loadRemoteData c x
    = (c', Client.Returns (from_option VObj VUndefined (Client.appData c')))
    /\ Client.appData c' = from_option Some (Client.appData c) (Client.saved_appData c)
    /\ Client.saved_appData c' = Client.saved_appData c
    /\ Client.currentUser c' = Client.currentUser c
    /\ Client.saved_currentUser c' = Client.saved_currentUser c
    /\ (Client.mirrored c ->
        exists data, Client.appData c = Some data
                     /\ Client.appData c' = Some (json_obj data)).
Proof.
  intros Hx.
  assert (Hf : Client.loadRemoteData c x = Client.fallback c).
  { destruct Hx as [->|(status & body & -> & [Hok|[->| ->]])]; [reflexivity| | |].
    - simpl. rewrite Hok. now destruct body.
    - reflexivity.
    - simpl. now destruct (Client.ok status). }
  rewrite Hf. unfold Client.fallback.
  destruct (Client.saved_appData c) as [saved|] eqn:Hs.
  - eexists (Client.State (Some saved) _ _ _). split; [reflexivity|]. simpl.
    repeat split; try exact Hs.
    intros (data & Hd & Hm). exists data. split; [exact Hd|]. congruence.
  - exists c. repeat split; try exact Hs.
    intros (data & Hd & Hm). congruence.
Qed.

Lemma loadRemoteData_offline_witness :
  exists c',
    Client.loadRemoteData (Browser.loaded []) Client.Unreachable
    = (c', Client.Returns (from_option VObj VUndefined (Client.appData c')))
    /\ Client.appData c'
       = from_option Some (Client.appData (Browser.loaded []))
           (Client.saved_appData (Browser.loaded []))
    /\ Client.saved_appData c' = Client.saved_appData (Browser.loaded [])
    /\ Client.currentUser c' = Client.currentUser (Browser.loaded [])
    /\ Client.saved_currentUser c' = Client.saved_currentUser (Browser.loaded [])
    /\ (Client.mirrored (Browser.loaded []) ->
        exists data, Client.appData (Browser.loaded []) = Some data
                     /\ Client.appData c' = Some (json_obj data)).
Proof.
  apply (loadRemoteData_offline (Browser.loaded []) Client.Unreachable).
  left. reflexivity.
Defined.

(** [loadRemoteData] on the server's answer to GET /api/data (read back as
    sent): the cache then holds the server's courses and notes, the users
    without their passwords, the analytics (or [{sessions: []}] when they are
    falsy) and nothing else, and the mirror is the text of the cache. *)
Theorem loadRemoteData_after_get_data (s : store) (c : Client.state) (body : value) :
  snd (get_data s) = Respond 200 body ->
  json body = Some body ->
  exists c' data,
    Client.loadRemoteData c (Client.reply 200 body) = (c', Client.Returns (VObj data))
    /\ Client.appData c' = Some data
    /\ Client.cached "courses" c' (courses s)
    /\ Client.cached "communityNotes" c' (communityNotes s)
    /\ get data "users" = VArr (public_user <$> users s)
    /\ (forall u, u ∈ public_user <$> users s -> get_field u "password" = Some VUndefined)
    /\ get data "analytics" = js_or (analytics s) (VObj (object [("sessions", VArr [])]))
    /\ dom data = {["courses"; "communityNotes"; "users"; "analytics"]}
    /\ Client.mirrored c'.
Proof.
  intros H Hj. injection H as <-.
  unfold Client.loadRemoteData, Client.reply. rewrite Hj.
  change (Client.ok 200) with true. cbn [get_field].
  repeat (rewrite get_insert || rewrite get_insert_ne by discriminate).
  cbv zeta. unfold js_or at 1 2 3. cbn [truthy]. cbv iota.
  eexists _, _. split; [reflexivity|]. split; [reflexivity|].
  split; [eexists; split; [reflexivity|apply get_object_here]|].
  split; [eexists; split; [reflexivity|]|].
  { rewrite get_object_later by discriminate. apply get_object_here. }
  split. { rewrite !get_object_later by discriminate. apply get_object_here. }
  split. { intros u Hu. apply list_elem_of_fmap in Hu as (o & -> & _). reflexivity. }
  split. { rewrite !get_object_later by discriminate. apply get_object_here. }
  split; [|eexists; split; reflexivity].
  unfold object. simpl. rewrite !dom_insert_L. set_solver.
Qed.

Lemma loadRemoteData_after_get_data_witness :
  exists c' data,
    Client.loadRemoteData (Browser.loaded []) (Client.reply 200 Browser.document)
    = (c', Client.Returns (VObj data))
    /\ Client.appData c' = Some data
    /\ Client.cached "courses" c' (courses (Examples.with_note []))
    /\ Client.cached "communityNotes" c' (communityNotes (Examples.with_note []))
    /\ get data "users" = VArr (public_user <$> users (Examples.with_note []))
    /\ (forall u, u ∈ public_user <$> users (Examples.with_note []) ->
        get_field u "password" = Some VUndefined)
    /\ get data "analytics"
       = js_or (analytics (Examples.with_note [])) (VObj (object [("sessions", VArr [])]))
    /\ dom data = {["courses"; "communityNotes"; "users"; "analytics"]}
    /\ Client.mirrored c'.
Proof.
  apply (loadRemoteData_after_get_data (Examples.with_note []) (Browser.loaded [])
           Browser.document).
  - reflexivity.
  - reflexivity.
Defined.

(** ** When a helper throws *)

Lemma refuse_not_returned (c : Client.state) (failed : string) (body : option value) :
  Client.unchanged_unless_returned c (c, Client.refuse failed body).
Proof.
  unfold Client.refuse. destruct (get_field _ _) as [e|]; [|reflexivity].
  now destruct (to_string _).
Qed.

Lemma answered_unchanged (failed : string) (c : Client.state) (x : Client.exchange)
      (merge : value -> option Client.state) :
  Client.unchanged_unless_returned c (Client.answered failed c x merge).
Proof.
  unfold Client.answered. destruct x as [|status body]; [reflexivity|].
  destruct (Client.ok status); [|apply refuse_not_returned].
  destruct body as [v|]; [|reflexivity]. now destruct (merge v).
Qed.

(** The helpers for notes, courses and accounts, [rateRemoteNote] apart,
    change nothing unless they return: whenever one throws (the server's
    refusal, a failed [fetch], text that is no JSON, a TypeError on the
    cache), [window.appData], [window.currentUser] and [localStorage] are as
    before.  [loadRemoteData] never throws: it always returns
    [window.appData]. *)
Theorem helpers_throw_without_change (c : Client.state) (x : Client.exchange)
        (noteId : string) :
  Client.unchanged_unless_returned c (Client.createRemoteNote c x)
  /\ Client.unchanged_unless_returned c (Client.editRemoteNote c x)
  /\ Client.unchanged_unless_returned c (Client.deleteRemoteNote c noteId x)
  /\ Client.unchanged_unless_returned c (Client.createRemoteCourse c x)
  /\ Client.unchanged_unless_returned c (Client.editRemoteCourse c x)
  /\ Client.unchanged_unless_returned c (Client.signupRemote c x)
  /\ Client.unchanged_unless_returned c (Client.loginRemote c x)
  /\ exists c', Client.loadRemoteData c x
                = (c', Client.Returns (from_option VObj VUndefined (Client.appData c'))).
Proof.
  repeat (split; [apply answered_unchanged|]). split.
  - unfold Client.deleteRemoteNote. destruct x as [|status body]; [reflexivity|].
    destruct (Client.ok status); [|apply refuse_not_returned].
    split_branches; reflexivity.
  - repeat (split; [apply answered_unchanged|]).
    assert (Hf : exists c', Client.fallback c
                 = (c', Client.Returns (from_option VObj VUndefined (Client.appData c')))).
    { unfold Client.fallback. destruct (Client.saved_appData c) as [saved|].
      - now eexists (Client.State (Some saved) _ _ _).
      - now exists c. }
    unfold Client.loadRemoteData. destruct x as [|status [data|]]; try exact Hf.
    destruct (Client.ok status); [|exact Hf].
    destruct (get_field data "courses"); [|exact Hf].
    destruct (get_field data "communityNotes"); [|exact Hf].
    destruct (get_field data "users"); [|exact Hf].
    destruct (get_field data "analytics"); [|exact Hf].
    now eexists (Client.mirror _ c).
Qed.

(** [rateRemoteNote] is the exception: it assigns to the cached note before
    it searches the note's ratings.  When that search throws (an entry that
    is [null] comes before any entry of the user), the helper fails, the
    cached note already has the answered averageRating (and its ratings
    assigned), and the mirror in [localStorage] is the old one. *)
Theorem rateRemoteNote_stops_halfway (c : Client.state) (app : obj) (l : list obj) (i : nat)
        (note : obj) (noteId userId : string) (rating data average : value)
        (rs : list value) (status : nat) :
  Client.ok status = true ->
  Client.appData c = Some app ->
  get app "communityNotes" = VArr (VObj <$> l) ->
  designates noteId l i note ->
  get_field data "averageRating" = Some average ->
  js_or (get note "ratings") (VArr []) = VArr rs ->
  upsert (VStr userId) rating rs = None ->
  exists c',
    Client.rateRemoteNote c noteId userId rating (Client.Reply status (Some data))
    = (c', Client.Fails)
    /\ Client.cached "communityNotes" c'
         (<[i := <["ratings" := VArr rs]> (<["averageRating" := average]> note)]> l)
    /\ Client.saved_appData c' = Client.saved_appData c
    /\ Client.currentUser c' = Client.currentUser c
    /\ Client.saved_currentUser c' = Client.saved_currentUser c.
Proof.
  intros Hok Hc Hl Hd Ha Hrs Hup. unfold Client.rateRemoteNote.
  rewrite Hok, Hc, Hl, (find_id_designates noteId l i note 0 Hd), Ha. cbv zeta.
  rewrite get_insert_ne by discriminate. rewrite Hrs, Hup.
  eexists. split; [reflexivity|]. split; [|repeat split].
  eexists. split; [reflexivity|]. simpl. rewrite get_insert. now rewrite list_fmap_insert.
Qed.

Lemma rateRemoteNote_stops_halfway_witness :
  exists c',
    Client.rateRemoteNote (Browser.loaded [Examples.note_by [VNull]]) "n1" "u1" (VNum 5)
      (Client.Reply 200 (Some (VObj (object [("averageRating", VNum 5)]))))
    = (c', Client.Fails)
    /\ Client.cached "communityNotes" c'
         (<[0 := <["ratings" := VArr [VNull]]>
                   (<["averageRating" := VNum 5]> (Examples.note_by [VNull]))]>
            [Examples.note_by [VNull]])
    /\ Client.saved_appData c' = Client.saved_appData (Browser.loaded [Examples.note_by [VNull]])
    /\ Client.currentUser c' = Client.currentUser (Browser.loaded [Examples.note_by [VNull]])
    /\ Client.saved_currentUser c'
       = Client.saved_currentUser (Browser.loaded [Examples.note_by [VNull]]).
Proof.
  eapply (rateRemoteNote_stops_halfway (Browser.loaded [Examples.note_by [VNull]]) _
           [Examples.note_by [VNull]] 0 (Examples.note_by [VNull]) "n1" "u1" (VNum 5)
           (VObj (object [("averageRating", VNum 5)])) (VNum 5) [VNull] 200);
    try reflexivity.
  apply designates_here. reflexivity.
Defined.
